(** * user-crud: the query engine, the command handlers and the cache-aside
      read path of the service, embedded and verified

    The development follows the packages of the repository:

    - [Go]           what the code uses of the Go runtime and standard
                     library (machine integers, [strings.TrimSpace],
                     [strconv.Atoi], [fmt.Sprintf "%d"], [encoding/json]);
    - [domain]       internal/domain/user.go;
    - [persistence]  internal/infrastructure/persistence (the users table of
                     runMigrations in cmd/api/main.go and the repository);
    - [cache]        internal/infrastructure/cache (the Redis look-aside cache);
    - [query], [command]  internal/application, the handlers wired by
                     cmd/api/main.go (the ones that take the cache);
    - [handler]      internal/infrastructure/http/handler.

    Conventions.  A Go function returning a pointer and an [error] returns a
    pair of options here, [nil] being [None].  State that the code reaches
    through a pointer receiver (the connection pool, the Redis client) is
    passed in and returned.  A goroutine started with [go] is returned to
    the caller as a pending [cache.Task]; running it is a separate step.
    What a call reads from its environment (the clock, the entropy of the
    salt) travels in the context argument.  Logging and tracing spans have
    no effect on any value and are left out.

    Strings are byte strings, as in Go; [len] counts bytes.  Integers are
    [Z], with the wrap-around of a 64-bit [int] written where the code
    multiplies or increments.

    The collaborators.  bcrypt, the [ILIKE] operator and the row order of
    [ORDER BY] are parameters ([Bcrypt], [persistence.Postgres]).  The
    store is the table with its primary key, its sequence and its unique
    email, reached without fail; losing the connection and the length limit
    of the text columns are not modelled.  The cache is a map from keys to
    JSON documents together with a flag that says whether the server
    answers; expiry is not modelled.  JSON documents are trees, and texts
    and times survive encoding as the store holds them. *)

From Stdlib Require Import ZArith List String Ascii Bool Lia Permutation.
From stdpp Require Import base gmap strings pretty.

Open Scope string_scope.
Open Scope Z_scope.

(* ===================================================================== *)
(** * Go: runtime and standard library                                     *)
(* ===================================================================== *)

Module Go.

(** ** [int] and [int64]: 64-bit two's complement *)

Definition MinInt : Z := - 2 ^ 63.
Definition MaxInt : Z := 2 ^ 63 - 1.

(** The bounds of an [int32], which are those of the store's [INTEGER]. *)
Definition MinInt32 : Z := - 2 ^ 31.
Definition MaxInt32 : Z := 2 ^ 31 - 1.

(** The value an arithmetic result has once stored in an [int]. *)
Definition wrap (z : Z) : Z := (z + 2 ^ 63) mod 2 ^ 64 - 2 ^ 63.

(** [len(s)]: the number of bytes of [s]. *)
Definition len (s : string) : Z := Z.of_nat (String.length s).

(** ** [error] values

    One type for everything that flows through Go's [error] interface in
    this program.  The four sentinels are the package-level variables of
    domain/user.go: they are compared by identity ([err == domain.Err...]),
    so a sentinel differs from an [errors_New] with the same text. *)
Inductive error : Type :=
| ErrUserNotFound
| ErrUserAlreadyExists
| ErrInvalidUserData
| ErrInvalidPassword
| errors_New (msg : string)
| ErrSyntax                       (* strconv.ErrSyntax, in a NumError *)
| ErrRange                        (* strconv.ErrRange, in a NumError *)
| ErrMismatchedHashAndPassword    (* bcrypt *)
| PgError (sqlstate : string)     (* an error raised by the store *)
| EncodeError                     (* pgx: an argument does not fit its parameter *)
| RedisError                      (* the cache could not be reached *)
| UnmarshalTypeError.             (* encoding/json *)

Definition error_eqb (a b : error) : bool :=
  match a, b with
  | ErrUserNotFound, ErrUserNotFound => true
  | ErrUserAlreadyExists, ErrUserAlreadyExists => true
  | ErrInvalidUserData, ErrInvalidUserData => true
  | ErrInvalidPassword, ErrInvalidPassword => true
  | errors_New x, errors_New y => String.eqb x y
  | ErrSyntax, ErrSyntax => true
  | ErrRange, ErrRange => true
  | ErrMismatchedHashAndPassword, ErrMismatchedHashAndPassword => true
  | PgError x, PgError y => String.eqb x y
  | EncodeError, EncodeError => true
  | RedisError, RedisError => true
  | UnmarshalTypeError, UnmarshalTypeError => true
  | _, _ => false
  end.

(** [err.Error()] *)
Definition Error (e : error) : string :=
  match e with
  | ErrUserNotFound => "user not found"
  | ErrUserAlreadyExists => "user already exists"
  | ErrInvalidUserData => "invalid user data"
  | ErrInvalidPassword => "invalid password"
  | errors_New msg => msg
  | ErrSyntax => "invalid syntax"
  | ErrRange => "value out of range"
  | ErrMismatchedHashAndPassword =>
      "crypto/bcrypt: hashedPassword is not the hash of the given password"
  | PgError sqlstate => "ERROR: (SQLSTATE " +:+ sqlstate +:+ ")"
  | EncodeError => "failed to encode args"
  | RedisError => "redis: connection refused"
  | UnmarshalTypeError => "json: cannot unmarshal"
  end.

(** ** [time.Time]: an instant; the zero value is [0]. *)
Definition Time : Type := Z.

(** ** [fmt.Sprintf("%d", n)] *)
Definition Sprintf_d (n : Z) : string := pretty n.

(** ** Bytes of a string *)

Definition byte_of (c : ascii) : Z := Z.of_N (N_of_ascii c).

Fixpoint bytes (s : string) : list Z :=
  match s with
  | EmptyString => nil
  | String c r => byte_of c :: bytes r
  end.

Fixpoint of_bytes (l : list Z) : string :=
  match l with
  | nil => EmptyString
  | b :: r => String (ascii_of_N (Z.to_N b)) (of_bytes r)
  end.

(** ** [strings.TrimSpace]

    The white space of [unicode.IsSpace], each rune in its UTF-8 encoding:
    the six ASCII ones, U+0085, U+00A0, U+1680, U+2000 to U+200A, U+2028,
    U+2029, U+202F, U+205F and U+3000.  An encoding that is not the
    shortest one decodes to [utf8.RuneError], which is no white space, so
    comparing byte sequences is the same as decoding. *)
Definition spaceRunes : list (list Z) :=
  (9 :: nil) :: (10 :: nil) :: (11 :: nil) :: (12 :: nil) :: (13 :: nil)
  :: (32 :: nil)
  :: (194 :: 133 :: nil) :: (194 :: 160 :: nil)
  :: (225 :: 154 :: 128 :: nil)
  :: map (fun k => 226 :: 128 :: k :: nil)
       (128 :: 129 :: 130 :: 131 :: 132 :: 133 :: 134 :: 135 :: 136 :: 137
        :: 138 :: 168 :: 169 :: 175 :: nil)
  ++ (226 :: 129 :: 159 :: nil) :: (227 :: 128 :: 128 :: nil) :: nil.

(** [stripPrefix p l]: [l] without its prefix [p], when it has it. *)
Fixpoint stripPrefix (p l : list Z) : option (list Z) :=
  match p, l with
  | nil, _ => Some l
  | _ :: _, nil => None
  | a :: p', b :: l' => if a =? b then stripPrefix p' l' else None
  end.

Fixpoint firstStrip (ps : list (list Z)) (l : list Z) : option (list Z) :=
  match ps with
  | nil => None
  | p :: ps' =>
      match stripPrefix p l with
      | Some r => Some r
      | None => firstStrip ps' l
      end
  end.

(** Strip white-space runes from the front, at most [fuel] of them. *)
Fixpoint trimLeft (runes : list (list Z)) (fuel : nat) (l : list Z) : list Z :=
  match fuel with
  | O => l
  | S fuel' =>
      match firstStrip runes l with
      | Some r => trimLeft runes fuel' r
      | None => l
      end
  end.

Definition TrimLeftSpace (l : list Z) : list Z :=
  trimLeft spaceRunes (List.length l) l.

(** From the back: the last rune is a white space exactly when the bytes
    end with its encoding ([utf8.DecodeLastRuneInString] walks back to the
    nearest start byte, which is the first byte of that encoding). *)
Definition TrimRightSpace (l : list Z) : list Z :=
  rev (trimLeft (map (@rev Z) spaceRunes) (List.length l) (rev l)).

Definition TrimSpace (s : string) : string :=
  of_bytes (TrimRightSpace (TrimLeftSpace (bytes s))).

(** ** [strings.ToUpper], on the ASCII letters.  The program applies it to
    the validated sort direction only, which is ["asc"] or ["desc"]. *)
Definition upperByte (b : Z) : Z :=
  if (97 <=? b) && (b <=? 122) then b - 32 else b.

Definition ToUpper (s : string) : string := of_bytes (map upperByte (bytes s)).

(** ** [strings.Join] *)
Fixpoint Join (elems : list string) (sep : string) : string :=
  match elems with
  | nil => ""
  | e :: nil => e
  | e :: rest => e +:+ sep +:+ Join rest sep
  end.

(** ** [strconv.Atoi]

    An optional sign and one or more decimal digits.  Anything else is a
    syntax error with value 0; a number that does not fit an [int] is a
    range error with the nearest bound as value. *)
Definition digit (c : ascii) : option Z :=
  let b := byte_of c in
  if (48 <=? b) && (b <=? 57) then Some (b - 48) else None.

Fixpoint digits (acc : Z) (s : string) : option Z :=
  match s with
  | EmptyString => Some acc
  | String c r =>
      match digit c with
      | Some d => digits (acc * 10 + d) r
      | None => None
      end
  end.

Definition signOf (s : string) : bool * string :=
  match s with
  | String c r =>
      if byte_of c =? 45 then (true, r)
      else if byte_of c =? 43 then (false, r)
      else (false, s)
  | EmptyString => (false, s)
  end.

Definition Atoi (s : string) : Z * option error :=
  let '(neg, body) := signOf s in
  match body with
  | EmptyString => (0, Some ErrSyntax)
  | _ =>
      match digits 0 body with
      | None => (0, Some ErrSyntax)
      | Some un =>
          if neg
          then if un >? 2 ^ 63 then (MinInt, Some ErrRange) else (- un, None)
          else if un >=? 2 ^ 63 then (MaxInt, Some ErrRange) else (un, None)
      end
  end.

(** A string [Atoi] parses: sign, digits, nothing else. *)
Definition numeric (s : string) : bool :=
  let '(_, body) := signOf s in
  match body with
  | EmptyString => false
  | _ => match digits 0 body with Some _ => true | None => false end
  end.

(** ** [strconv.ParseInt(s, 10, 64)]: [Atoi] is [ParseInt(s, 10, 0)], and
    an [int] has 64 bits. *)
Definition ParseInt64 (s : string) : Z * option error := Atoi s.

(** ** [encoding/json]: the documents this program writes are objects
    with scalar members.  [JTime t] stands for the RFC 3339 string a
    [time.Time] marshals to. *)
Inductive JValue : Type :=
| JNumber (n : Z)
| JString (s : string)
| JTime (t : Time).

Definition JObject : Type := list (string * JValue).

Definition keys (doc : JObject) : list string := map fst doc.

End Go.

(* ===================================================================== *)
(** * bcrypt: the password-hashing capability the domain consumes          *)
(* ===================================================================== *)

(** golang.org/x/crypto/bcrypt is a collaborator of the domain: nothing is
    assumed of it.  [GenerateFromPassword] draws a salt, passed here as
    [entropy], and may fail; [CompareHashAndPassword] answers [nil] or an
    error. *)
Class Bcrypt : Type := {
  GenerateFromPassword : Z -> string -> Z -> option string;
  CompareHashAndPassword : string -> string -> option Go.error
}.

Definition DefaultCost : Z := 10.

(** The context of a call: the reading of [time.Now()] and the entropy the
    call may consume. *)
Record Context : Type := { now : Go.Time; entropy : Z }.

(* ===================================================================== *)
(** * package domain                                                       *)
(* ===================================================================== *)

Module domain.
Import Go.

Record User : Type := mkUser {
  ID : Z;
  Name : string;
  Email : string;
  PasswordHash : string;      (* `json:"-"` *)
  Age : Z;
  CreatedAt : Time;
  UpdatedAt : Time
}.

Module Public.
Record PublicUser : Type := mkPublicUser {
  ID : Z;
  Name : string;
  Email : string;
  Age : Z;
  CreatedAt : Time;
  UpdatedAt : Time
}.
End Public.
Export Public (PublicUser, mkPublicUser).

Section WithBcrypt.
Context `{Bcrypt}.

(** [NewUser] *)
Definition NewUser (ctx : Context) (name email password : string) (age : Z)
  : option User * option error :=
  let name := TrimSpace name in
  let email := TrimSpace email in
  let password := TrimSpace password in
  if String.eqb name "" then (None, Some (errors_New "name cannot be empty"))
  else if String.eqb email "" then (None, Some (errors_New "email cannot be empty"))
  else if String.eqb password "" then (None, Some (errors_New "password cannot be empty"))
  else if len password <? 8
       then (None, Some (errors_New "password must be at least 8 characters"))
  else if (age <? 0) || (age >? 150)
       then (None, Some (errors_New "age must be between 0 and 150"))
  else
    match GenerateFromPassword (entropy ctx) password DefaultCost with
    | None => (None, Some (errors_New "failed to hash password"))
    | Some hashedPassword =>
        (Some {| ID := 0; Name := name; Email := email;
                 PasswordHash := hashedPassword; Age := age;
                 CreatedAt := now ctx; UpdatedAt := now ctx |}, None)
    end.

(** [(u *User) ComparePassword] *)
Definition ComparePassword (u : User) (password : string) : option error :=
  CompareHashAndPassword (PasswordHash u) password.

(** [(u *User) UpdatePassword]: the receiver after the call, and the
    error.  On an error the receiver is as it was. *)
Definition UpdatePassword (ctx : Context) (u : User)
           (oldPassword newPassword : string) : User * option error :=
  match ComparePassword u oldPassword with
  | Some _ => (u, Some (errors_New "old password is incorrect"))
  | None =>
      if String.eqb newPassword ""
      then (u, Some (errors_New "new password cannot be empty"))
      else if len newPassword <? 8
      then (u, Some (errors_New "new password must be at least 8 characters"))
      else
        match GenerateFromPassword (entropy ctx) newPassword DefaultCost with
        | None => (u, Some (errors_New "failed to hash new password"))
        | Some hashedPassword =>
            ({| ID := ID u; Name := Name u; Email := Email u;
                PasswordHash := hashedPassword; Age := Age u;
                CreatedAt := CreatedAt u; UpdatedAt := now ctx |}, None)
        end
  end.
(** [(u *User) SetPassword]: as [UpdatePassword] without the old
    password. *)
Definition SetPassword (ctx : Context) (u : User) (newPassword : string)
  : User * option error :=
  if String.eqb newPassword ""
  then (u, Some (errors_New "password cannot be empty"))
  else if len newPassword <? 8
  then (u, Some (errors_New "password must be at least 8 characters"))
  else
    match GenerateFromPassword (entropy ctx) newPassword DefaultCost with
    | None => (u, Some (errors_New "failed to hash password"))
    | Some hashedPassword =>
        ({| ID := ID u; Name := Name u; Email := Email u;
            PasswordHash := hashedPassword; Age := Age u;
            CreatedAt := CreatedAt u; UpdatedAt := now ctx |}, None)
    end.
End WithBcrypt.

(** [(u *User) Update] *)
Definition Update (ctx : Context) (u : User) (name email : string) (age : Z)
  : User * option error :=
  if String.eqb name "" then (u, Some (errors_New "name cannot be empty"))
  else if String.eqb email "" then (u, Some (errors_New "email cannot be empty"))
  else if (age <? 0) || (age >? 150)
       then (u, Some (errors_New "age must be between 0 and 150"))
  else ({| ID := ID u; Name := name; Email := email;
           PasswordHash := PasswordHash u; Age := age;
           CreatedAt := CreatedAt u; UpdatedAt := now ctx |}, None).

(** [(u *User) ToPublicUser] *)
Definition ToPublicUser (u : User) : PublicUser :=
  {| Public.ID := ID u; Public.Name := Name u; Public.Email := Email u;
     Public.Age := Age u; Public.CreatedAt := CreatedAt u;
     Public.UpdatedAt := UpdatedAt u |}.

(** [json.Marshal] of a [User]: the struct tags name the members, and the
    tag ["-"] of [PasswordHash] leaves that field out. *)
Definition MarshalUser (u : User) : JObject :=
  ("id", JNumber (ID u)) :: ("name", JString (Name u))
  :: ("email", JString (Email u)) :: ("age", JNumber (Age u))
  :: ("created_at", JTime (CreatedAt u))
  :: ("updated_at", JTime (UpdatedAt u)) :: nil.

(** [json.Marshal] of a [PublicUser]. *)
Definition MarshalPublicUser (p : PublicUser) : JObject :=
  ("id", JNumber (Public.ID p)) :: ("name", JString (Public.Name p))
  :: ("email", JString (Public.Email p)) :: ("age", JNumber (Public.Age p))
  :: ("created_at", JTime (Public.CreatedAt p))
  :: ("updated_at", JTime (Public.UpdatedAt p)) :: nil.

(** The zero value of [User], which [json.Unmarshal] fills in. *)
Definition zeroUser : User :=
  {| ID := 0; Name := ""; Email := ""; PasswordHash := ""; Age := 0;
     CreatedAt := 0; UpdatedAt := 0 |}.

(** One member of the document stored into the struct: the field whose
    tag is the key takes the value, a value of the wrong kind is an
    error, a key no tag names is skipped.  No key reaches [PasswordHash]. *)
Definition setMember (u : User) (m : string * JValue) : option User :=
  let '(k, v) := m in
  if String.eqb k "id" then
    match v with
    | JNumber n => Some {| ID := n; Name := Name u; Email := Email u;
                           PasswordHash := PasswordHash u; Age := Age u;
                           CreatedAt := CreatedAt u; UpdatedAt := UpdatedAt u |}
    | _ => None
    end
  else if String.eqb k "name" then
    match v with
    | JString s => Some {| ID := ID u; Name := s; Email := Email u;
                           PasswordHash := PasswordHash u; Age := Age u;
                           CreatedAt := CreatedAt u; UpdatedAt := UpdatedAt u |}
    | _ => None
    end
  else if String.eqb k "email" then
    match v with
    | JString s => Some {| ID := ID u; Name := Name u; Email := s;
                           PasswordHash := PasswordHash u; Age := Age u;
                           CreatedAt := CreatedAt u; UpdatedAt := UpdatedAt u |}
    | _ => None
    end
  else if String.eqb k "age" then
    match v with
    | JNumber n => Some {| ID := ID u; Name := Name u; Email := Email u;
                           PasswordHash := PasswordHash u; Age := n;
                           CreatedAt := CreatedAt u; UpdatedAt := UpdatedAt u |}
    | _ => None
    end
  else if String.eqb k "created_at" then
    match v with
    | JTime t => Some {| ID := ID u; Name := Name u; Email := Email u;
                         PasswordHash := PasswordHash u; Age := Age u;
                         CreatedAt := t; UpdatedAt := UpdatedAt u |}
    | _ => None
    end
  else if String.eqb k "updated_at" then
    match v with
    | JTime t => Some {| ID := ID u; Name := Name u; Email := Email u;
                         PasswordHash := PasswordHash u; Age := Age u;
                         CreatedAt := CreatedAt u; UpdatedAt := t |}
    | _ => None
    end
  else Some u.

Fixpoint setMembers (u : User) (doc : JObject) : option User :=
  match doc with
  | nil => Some u
  | m :: rest =>
      match setMember u m with
      | Some u' => setMembers u' rest
      | None => None
      end
  end.

(** [json.Unmarshal(data, &user)] with [var user domain.User]. *)
Definition UnmarshalUser (doc : JObject) : option User * option error :=
  match setMembers zeroUser doc with
  | Some u => (Some u, None)
  | None => (None, Some UnmarshalTypeError)
  end.

(** ** [UserRepository]: the interface the handlers depend on.

    [S] is the state behind the implementation; [any] is what travels
    through the [interface{}] parameter of [FindWithFilters].  [Create]
    returns the entity it was given, with the identifier it wrote back
    through the pointer. *)
Module repo.
Class UserRepository (S any : Type) : Type := {
Create : S -> User -> S * User * option error;
GetByID : S -> Z -> option User * option error;
GetByEmail : S -> string -> option User * option error;
GetAll : S -> list User * option error;
Update : S -> User -> S * option error;
Delete : S -> Z -> S * option error;
Search : S -> string -> Z -> Z -> list User * Z * option error;
FindWithFilters : S -> any -> list User * Z * option error
}.
End repo.
Export repo (UserRepository).

End domain.

(* ===================================================================== *)
(** * package cache                                                        *)
(* ===================================================================== *)

Module cache.
Import Go domain.

(** The Redis database behind the client: the documents by key, and
    whether the server answers.  The time-to-live of an entry only ever
    removes it; expiry is not modelled. *)
Record RedisCache : Type := mkRedisCache {
  entries : gmap string JObject;
  reachable : bool
}.

Definition key (id : Z) : string := "user:" +:+ Sprintf_d id.

(** [GetUser] *)
Definition GetUser (c : RedisCache) (id : Z) : option User * option error :=
  if negb (reachable c) then (None, Some RedisError)
  else
    match entries c !! key id with
    | None => (None, None)                       (* redis.Nil: cache miss *)
    | Some val => UnmarshalUser val
    end.

(** [SetUser] *)
Definition SetUser (c : RedisCache) (user : User) : RedisCache * option error :=
  if negb (reachable c) then (c, Some RedisError)
  else ({| entries := <[key (ID user) := MarshalUser user]> (entries c);
           reachable := reachable c |}, None).

(** [DeleteUser] *)
Definition DeleteUser (c : RedisCache) (id : Z) : RedisCache * option error :=
  if negb (reachable c) then (c, Some RedisError)
  else ({| entries := delete (key id) (entries c);
           reachable := reachable c |}, None).

(** [Clear]: [FLUSHDB]. *)
Definition Clear (c : RedisCache) : RedisCache * option error :=
  if negb (reachable c) then (c, Some RedisError)
  else ({| entries := ∅; reachable := reachable c |}, None).

(** [Ping] *)
Definition Ping (c : RedisCache) : option error :=
  if negb (reachable c) then Some RedisError else None.

(** The detached cache operations of the handlers:
    [go h.cache.DeleteUser(context.Background(), id)] and the
    [go func() { h.cache.SetUser(context.Background(), user) }()] of the
    read path.  Their errors are logged or dropped. *)
Inductive Task : Type :=
| go_SetUser (user : User)
| go_DeleteUser (id : Z).

Definition run (c : RedisCache) (t : Task) : RedisCache :=
  match t with
  | go_SetUser user => fst (SetUser c user)
  | go_DeleteUser id => fst (DeleteUser c id)
  end.

Definition runAll (c : RedisCache) (ts : list Task) : RedisCache :=
  fold_left run ts c.

End cache.

(* ===================================================================== *)
(** * package query                                                        *)
(* ===================================================================== *)

Module query.
Import Go domain.

Record ListUsersQuery : Type := mkListUsersQuery {
  Search : string;
  AgeMin : Z;
  AgeMax : Z;
  SortBy : string;
  Order : string;
  Page : Z;
  Limit : Z
}.

(** A value behind [interface{}]: a [ListUsersQuery], or something else. *)
Inductive any : Type :=
| any_ListUsersQuery (q : ListUsersQuery)
| any_other.

Module Result.
Record ListUsersResult : Type := mkListUsersResult {
  Users : list User;
  Total : Z;
  Page : Z;
  Limit : Z;
  TotalPages : Z
}.
End Result.
Export Result (ListUsersResult, mkListUsersResult).

Module SearchQuery.
Record SearchUsersQuery : Type := mkSearchUsersQuery {
  Keyword : string;
  Page : Z;
  Limit : Z
}.
End SearchQuery.
Export SearchQuery (SearchUsersQuery, mkSearchUsersQuery).

Record GetUserQuery : Type := mkGetUserQuery { ID : Z }.

(** "Calculate total pages": [int(total) / limit], one more when
    [int(total) % limit > 0].  Go's [/] and [%] truncate toward zero;
    [totalPages++] is an [int] increment. *)
Definition totalPages (total limit : Z) : Z :=
  let totalPages := Z.quot total limit in
  if Z.rem total limit >? 0 then wrap (totalPages + 1) else totalPages.

Definition withPage (q : ListUsersQuery) (v : Z) : ListUsersQuery :=
  {| Search := Search q; AgeMin := AgeMin q; AgeMax := AgeMax q;
     SortBy := SortBy q; Order := Order q; Page := v; Limit := Limit q |}.
Definition withLimit (q : ListUsersQuery) (v : Z) : ListUsersQuery :=
  {| Search := Search q; AgeMin := AgeMin q; AgeMax := AgeMax q;
     SortBy := SortBy q; Order := Order q; Page := Page q; Limit := v |}.
Definition withSortBy (q : ListUsersQuery) (v : string) : ListUsersQuery :=
  {| Search := Search q; AgeMin := AgeMin q; AgeMax := AgeMax q;
     SortBy := v; Order := Order q; Page := Page q; Limit := Limit q |}.
Definition withOrder (q : ListUsersQuery) (v : string) : ListUsersQuery :=
  {| Search := Search q; AgeMin := AgeMin q; AgeMax := AgeMax q;
     SortBy := SortBy q; Order := v; Page := Page q; Limit := Limit q |}.

Module ListUsersHandler.

(** The block "Set defaults" of [Handle]: five assignments in sequence. *)
Definition setDefaults (query : ListUsersQuery) : ListUsersQuery :=
  let query := if Page query <? 1 then withPage query 1 else query in
  let query := if Limit query <? 1 then withLimit query 10 else query in
  let query := if Limit query >? 100 then withLimit query 100 else query in
  let query := if String.eqb (SortBy query) "" then withSortBy query "id" else query in
  let query := if String.eqb (Order query) "" then withOrder query "asc" else query in
  query.

(** [(h *ListUsersHandler) Handle] *)
Definition Handle {S : Type} `{UserRepository S any} (s : S)
           (query : ListUsersQuery) : option ListUsersResult * option error :=
  let query := setDefaults query in
  let '(users, total, err) := repo.FindWithFilters s (any_ListUsersQuery query) in
  match err with
  | Some e => (None, Some e)
  | None =>
      (Some {| Result.Users := users;
               Result.Total := total;
               Result.Page := Page query;
               Result.Limit := Limit query;
               Result.TotalPages := totalPages total (Limit query) |}, None)
  end.

End ListUsersHandler.

Module SearchUsersHandler.

Definition setDefaults (query : SearchUsersQuery) : SearchUsersQuery :=
  let query := if SearchQuery.Page query <? 1
               then {| SearchQuery.Keyword := SearchQuery.Keyword query;
                       SearchQuery.Page := 1;
                       SearchQuery.Limit := SearchQuery.Limit query |}
               else query in
  let query := if SearchQuery.Limit query <? 1
               then {| SearchQuery.Keyword := SearchQuery.Keyword query;
                       SearchQuery.Page := SearchQuery.Page query;
                       SearchQuery.Limit := 10 |}
               else query in
  let query := if SearchQuery.Limit query >? 100
               then {| SearchQuery.Keyword := SearchQuery.Keyword query;
                       SearchQuery.Page := SearchQuery.Page query;
                       SearchQuery.Limit := 100 |}
               else query in
  query.

(** [(h *SearchUsersHandler) Handle] *)
Definition Handle {S : Type} `{UserRepository S any} (s : S)
           (query : SearchUsersQuery) : option ListUsersResult * option error :=
  let query := setDefaults query in
  let '(users, total, err) :=
    repo.Search s (SearchQuery.Keyword query) (SearchQuery.Page query)
                (SearchQuery.Limit query) in
  match err with
  | Some e => (None, Some e)
  | None =>
      (Some {| Result.Users := users;
               Result.Total := total;
               Result.Page := SearchQuery.Page query;
               Result.Limit := SearchQuery.Limit query;
               Result.TotalPages := totalPages total (SearchQuery.Limit query) |},
       None)
  end.

End SearchUsersHandler.

Module GetUserHandler.
Import cache.

(** [(h *GetUserHandler) Handle]: cache first, then the repository; on
    a miss the entity is handed to a detached [SetUser].  A cache error
    is logged and the lookup goes on as a miss.  Any repository error
    becomes [ErrUserNotFound]. *)
Definition Handle {S : Type} `{UserRepository S any} (s : S)
           (c : RedisCache) (query : GetUserQuery)
  : option User * option error * list Task :=
  let '(user, err) := cache.GetUser c (ID query) in
  match user with
  | Some u => (Some u, None, nil)                          (* cache HIT *)
  | None =>
      let '(user, err) := repo.GetByID s (ID query) in
      match err, user with
      | Some _, _ => (None, Some ErrUserNotFound, nil)
      | None, Some u => (Some u, None, go_SetUser u :: nil)
      | None, None => (None, None, nil)    (* no repository answers so *)
      end
  end.

End GetUserHandler.

(** The handler of the revision without the cache. *)
Module GetUserHandler0.

Definition Handle {S : Type} `{UserRepository S any} (s : S) (query : GetUserQuery)
  : option User * option error :=
  let '(user, err) := repo.GetByID s (ID query) in
  match err with
  | Some _ => (None, Some ErrUserNotFound)
  | None => (user, None)
  end.

End GetUserHandler0.

End query.

(* ===================================================================== *)
(** * package command                                                      *)
(* ===================================================================== *)

Module command.
Import Go domain cache.
Import query (any).

Module CreateUserCommand.
Record t : Type := mk { Name : string; Email : string;
                        Password : string; Age : Z }.
End CreateUserCommand.

Module UpdateUserCommand.
Record t : Type := mk { ID : Z; Name : string; Email : string; Age : Z }.
End UpdateUserCommand.

Module DeleteUserCommand.
Record t : Type := mk { ID : Z }.
End DeleteUserCommand.

Module ChangePasswordCommand.
Record t : Type := mk { UserID : Z; OldPassword : string;
                        NewPassword : string }.
End ChangePasswordCommand.

(** Every handler returns the state of the repository after the call,
    its Go results, and the cache operations it detached.

    The handlers are written against the interface, so the model has to
    say what they do with a repository that answers neither a user nor an
    error.  The Go code would dereference a nil pointer there; the model
    treats the user as not found.  [PostgresUserRepository] never answers so
    ([GetByID_answers] below), and no statement rests on that case. *)

Module CreateUserHandler.
Import CreateUserCommand.

(** [(h *CreateUserHandler) Handle].  It holds the cache and never
    touches it. *)
Definition Handle {S : Type} `{UserRepository S any} `{Bcrypt}
           (ctx : Context) (s : S) (c : RedisCache) (cmd : t)
  : S * option User * option error * list Task :=
  let '(existingUser, _) := repo.GetByEmail s (Email cmd) in
  match existingUser with
  | Some _ => (s, None, Some ErrUserAlreadyExists, nil)
  | None =>
      match NewUser ctx (Name cmd) (Email cmd) (Password cmd) (Age cmd) with
      | (_, Some err) => (s, None, Some err, nil)
      | (None, None) => (s, None, None, nil)         (* NewUser never does *)
      | (Some user, None) =>
          let '(s', user', err) := repo.Create s user in
          match err with
          | Some err => (s', None, Some err, nil)
          | None => (s', Some user', None, nil)
          end
      end
  end.
End CreateUserHandler.

Module UpdateUserHandler.
Import UpdateUserCommand.

(** [(h *UpdateUserHandler) Handle] *)
Definition Handle {S : Type} `{UserRepository S any}
           (ctx : Context) (s : S) (c : RedisCache) (cmd : t)
  : S * option User * option error * list Task :=
  match repo.GetByID s (ID cmd) with
  | (_, Some _) | (None, None) => (s, None, Some ErrUserNotFound, nil)
  | (Some user, None) =>
      let taken :=
        if negb (String.eqb (domain.Email user) (Email cmd)) then
          match repo.GetByEmail s (Email cmd) with
          | (Some existingUser, _) => negb (domain.ID existingUser =? ID cmd)
          | (None, _) => false
          end
        else false in
      if taken then (s, None, Some ErrUserAlreadyExists, nil)
      else
        match domain.Update ctx user (Name cmd) (Email cmd) (Age cmd) with
        | (_, Some err) => (s, None, Some err, nil)
        | (user, None) =>
            match repo.Update s user with
            | (s', Some err) => (s', None, Some err, nil)
            | (s', None) => (s', Some user, None, go_DeleteUser (ID cmd) :: nil)
            end
        end
  end.
End UpdateUserHandler.

Module DeleteUserHandler.
Import DeleteUserCommand.

(** [(h *DeleteUserHandler) Handle] *)
Definition Handle {S : Type} `{UserRepository S any}
           (s : S) (c : RedisCache) (cmd : t)
  : S * option error * list Task :=
  match repo.GetByID s (ID cmd) with
  | (_, Some _) => (s, Some ErrUserNotFound, nil)
  | (_, None) =>
      match repo.Delete s (ID cmd) with
      | (s', Some err) => (s', Some err, nil)
      | (s', None) => (s', None, go_DeleteUser (ID cmd) :: nil)
      end
  end.
End DeleteUserHandler.

Module ChangePasswordHandler.
Import ChangePasswordCommand.

(** [(h *ChangePasswordHandler) Handle] *)
Definition Handle {S : Type} `{UserRepository S any} `{Bcrypt}
           (ctx : Context) (s : S) (c : RedisCache) (cmd : t)
  : S * option error * list Task :=
  match repo.GetByID s (UserID cmd) with
  | (_, Some _) | (None, None) => (s, Some ErrUserNotFound, nil)
  | (Some user, None) =>
      match UpdatePassword ctx user (OldPassword cmd) (NewPassword cmd) with
      | (_, Some err) => (s, Some err, nil)
      | (user, None) =>
          match repo.Update s user with
          | (s', Some err) => (s', Some err, nil)
          | (s', None) => (s', None, go_DeleteUser (UserID cmd) :: nil)
          end
      end
  end.
End ChangePasswordHandler.

End command.

(* ===================================================================== *)
(** * package persistence                                                  *)
(* ===================================================================== *)

Module persistence.
Import Go domain.

(** ** The store

    The table of runMigrations:
    [id SERIAL PRIMARY KEY, name, email ... UNIQUE, password_hash, age,
    created_at, updated_at].  [users] holds the rows, [users_id_seq] the
    value the sequence of [id] hands out next.  The model covers what the
    repository's statements depend on: the keys, the unique email, the
    sequence, [LIMIT] and [OFFSET], and the refusal of an argument that
    does not fit its parameter.  Three things of the store stay abstract:
    [ILIKE]; which texts are valid in its encoding ([valid_text]: no zero
    byte, no broken UTF-8 sequence); and the order [ORDER BY] puts rows in.
    Of that order only that it permutes the rows is known: [ORDER BY] has
    no tie-break here, so the order may differ from one statement to the
    next, and [ORDER_BY] takes the arguments of the statement along with
    the clause. *)
Record DB : Type := mkDB { users : list User; users_id_seq : Z }.

Inductive arg : Type :=
| arg_string (s : string)
| arg_int (n : Z).

Class Postgres : Type := {
  ILIKE : string -> string -> bool;
  valid_text : string -> bool;
  ORDER_BY : string -> list arg -> list User -> list User;
  ORDER_BY_perm : forall clause args rows, Permutation (ORDER_BY clause args rows) rows
}.

(** SQLSTATE codes the statements can raise. *)
Definition unique_violation : error := PgError "23505".
Definition invalid_row_count_in_limit_clause : error := PgError "2201W".
Definition invalid_row_count_in_result_offset_clause : error := PgError "2201X".
Definition character_not_in_repertoire : error := PgError "22021".

Definition hasID (id : Z) (r : User) : bool := ID r =? id.
Definition hasEmail (email : string) (r : User) : bool := String.eqb (Email r) email.

(** [Create]: [INSERT ... RETURNING id], scanned into [user.ID].  The
    sequence advances whether or not the row is accepted. *)
Definition Create (db : DB) (user : User) : DB * User * option error :=
  let id := users_id_seq db in
  if existsb (hasID id) (users db) || existsb (hasEmail (Email user)) (users db)
  then ({| users := users db; users_id_seq := id + 1 |}, user,
        Some unique_violation)
  else
    let row := {| ID := id; Name := Name user; Email := Email user;
                  PasswordHash := PasswordHash user; Age := Age user;
                  CreatedAt := CreatedAt user; UpdatedAt := UpdatedAt user |} in
    ({| users := users db ++ row :: nil; users_id_seq := id + 1 |}, row, None).

(** [GetByID]: [pgx.ErrNoRows] becomes [domain.ErrUserNotFound]. *)
Definition GetByID (db : DB) (id : Z) : option User * option error :=
  match find (hasID id) (users db) with
  | Some user => (Some user, None)
  | None => (None, Some ErrUserNotFound)
  end.

(** [GetByEmail]: the same statement with [WHERE email = $1], and the same
    mapping of [pgx.ErrNoRows]. *)
Definition GetByEmail (db : DB) (email : string) : option User * option error :=
  match find (hasEmail email) (users db) with
  | Some user => (Some user, None)
  | None => (None, Some ErrUserNotFound)
  end.

(** [Update]: [SET name, email, password_hash, age, updated_at WHERE id];
    [created_at] stays.  No row affected is [ErrUserNotFound]. *)
Definition setRow (user r : User) : User :=
  if hasID (ID user) r
  then {| ID := ID r; Name := Name user; Email := Email user;
          PasswordHash := PasswordHash user; Age := Age user;
          CreatedAt := CreatedAt r; UpdatedAt := UpdatedAt user |}
  else r.

Definition Update (db : DB) (user : User) : DB * option error :=
  if negb (existsb (hasID (ID user)) (users db))
  then (db, Some ErrUserNotFound)
  else if existsb (fun r => negb (hasID (ID user) r) && hasEmail (Email user) r)
                  (users db)
  then (db, Some unique_violation)
  else ({| users := map (setRow user) (users db);
           users_id_seq := users_id_seq db |}, None).

(** [Delete] *)
Definition Delete (db : DB) (id : Z) : DB * option error :=
  if negb (existsb (hasID id) (users db))
  then (db, Some ErrUserNotFound)
  else ({| users := List.filter (fun r => negb (hasID id r)) (users db);
           users_id_seq := users_id_seq db |}, None).

(** ** Statements with parameters

    The conditions the repository writes, with the number of the
    positional parameter each refers to; [sql] is the text appended to
    [conditions], [holds] what the store makes of it on a row. *)
Inductive condition : Type :=
| name_or_email_ILIKE (argIndex : Z)
| age_ge (argIndex : Z)
| age_le (argIndex : Z).

Definition sql (c : condition) : string :=
  match c with
  | name_or_email_ILIKE i =>
      "(name ILIKE $" +:+ Sprintf_d i +:+ " OR email ILIKE $" +:+ Sprintf_d i +:+ ")"
  | age_ge i => "age >= $" +:+ Sprintf_d i
  | age_le i => "age <= $" +:+ Sprintf_d i
  end.

(** The value of [$i] among the arguments of the statement. *)
Definition param (args : list arg) (i : Z) : option arg :=
  if i <? 1 then None else nth_error args (Z.to_nat (i - 1)).

Definition holds `{Postgres} (args : list arg) (c : condition) (row : User) : bool :=
  match c with
  | name_or_email_ILIKE i =>
      match param args i with
      | Some (arg_string pattern) => ILIKE (Name row) pattern || ILIKE (Email row) pattern
      | _ => false
      end
  | age_ge i =>
      match param args i with
      | Some (arg_int n) => Age row >=? n
      | _ => false
      end
  | age_le i =>
      match param args i with
      | Some (arg_int n) => Age row <=? n
      | _ => false
      end
  end.

(** A [WHERE] of conditions joined by [AND]. *)
Definition satisfies `{Postgres} (args : list arg) (conditions : list condition)
           (row : User) : bool :=
  forallb (fun c => holds args c row) conditions.

(** What a statement with these conditions is refused for, before any
    row is looked at.  The parameter compared with [age INTEGER] is an
    [int4]: the driver does not encode a Go [int] outside its range, and the
    statement is never sent.  The parameter of [ILIKE] is a text: the store
    refuses one that is not valid in its encoding. *)
Definition encodes (args : list arg) (c : condition) : bool :=
  match c with
  | name_or_email_ILIKE _ => true
  | age_ge i | age_le i =>
      match param args i with
      | Some (arg_int n) => (MinInt32 <=? n) && (n <=? MaxInt32)
      | _ => true
      end
  end.

Definition accepted `{Postgres} (args : list arg) (c : condition) : bool :=
  match c with
  | name_or_email_ILIKE i =>
      match param args i with
      | Some (arg_string pattern) => valid_text pattern
      | _ => true
      end
  | age_ge _ | age_le _ => true
  end.

Definition refusal `{Postgres} (args : list arg) (conditions : list condition)
  : option error :=
  if negb (forallb (encodes args) conditions) then Some EncodeError
  else if negb (forallb (accepted args) conditions)
  then Some character_not_in_repertoire
  else None.

(** [LIMIT $i OFFSET $j] over the ordered rows; a negative count is
    refused by the store. *)
Definition window (rows : list User) (limit offset : option arg)
  : list User * option error :=
  match limit, offset with
  | Some (arg_int l), Some (arg_int o) =>
      if l <? 0 then (nil, Some invalid_row_count_in_limit_clause)
      else if o <? 0 then (nil, Some invalid_row_count_in_result_offset_clause)
      else (firstn (Z.to_nat l) (skipn (Z.to_nat o) rows), None)
  | _, _ => (nil, Some (PgError "42804"))
  end.

(** [GetAll] *)
Definition GetAll `{Postgres} (db : DB) : list User * option error :=
  (ORDER_BY "ORDER BY id" nil (users db), None).

(** [Search] *)
Definition Search `{Postgres} (db : DB) (keyword : string) (page limit : Z)
  : list User * Z * option error :=
  let offset := wrap (wrap (page - 1) * limit) in
  let conditions := name_or_email_ILIKE 1 :: nil in
  let searchPattern := "%" +:+ keyword +:+ "%" in
  let total :=
    Z.of_nat (List.length
                (List.filter (satisfies (arg_string searchPattern :: nil) conditions)
                        (users db))) in
  let args := arg_string searchPattern :: arg_int limit :: arg_int offset :: nil in
  match refusal (arg_string searchPattern :: nil) conditions with
  | Some err => (nil, 0, Some err)                        (* the count statement *)
  | None =>
      match window (ORDER_BY "ORDER BY id" args
                             (List.filter (satisfies args conditions) (users db)))
                   (param args 2) (param args 3) with
      | (_, Some err) => (nil, 0, Some err)
      | (users, None) => (users, total, None)
      end
  end.

(** ** [FindWithFilters] *)

(** "Build WHERE clause": [conditions], [args] and [argIndex] after the
    three filters. *)
Record Where : Type := mkWhere {
  conditions : list condition;
  args : list arg;
  argIndex : Z
}.

Definition add (w : Where) (c : Z -> condition) (a : arg) : Where :=
  {| conditions := conditions w ++ c (argIndex w) :: nil;
     args := args w ++ a :: nil;
     argIndex := argIndex w + 1 |}.

Definition buildWhere (q : query.ListUsersQuery) : Where :=
  let w := {| conditions := nil; args := nil; argIndex := 1 |} in
  let w := if negb (String.eqb (query.Search q) "")
           then add w name_or_email_ILIKE (arg_string ("%" +:+ query.Search q +:+ "%"))
           else w in
  let w := if query.AgeMin q >? 0
           then add w age_ge (arg_int (query.AgeMin q)) else w in
  let w := if query.AgeMax q >? 0
           then add w age_le (arg_int (query.AgeMax q)) else w in
  w.

Definition whereClause (w : Where) : string :=
  if 0 <? Z.of_nat (List.length (conditions w))
  then "WHERE " +:+ Join (map sql (conditions w)) " AND "
  else "".

Definition validSortFields : list string :=
  "id" :: "name" :: "email" :: "age" :: "created_at" :: nil.

(** "Validate sort field" *)
Definition sortBy (q : query.ListUsersQuery) : string :=
  if existsb (String.eqb (query.SortBy q)) validSortFields
  then query.SortBy q else "id".

(** "Validate order" *)
Definition order (q : query.ListUsersQuery) : string :=
  if negb (String.eqb (query.Order q) "asc") && negb (String.eqb (query.Order q) "desc")
  then "asc" else query.Order q.

Definition orderClause (q : query.ListUsersQuery) : string :=
  "ORDER BY " +:+ sortBy q +:+ " " +:+ ToUpper (order q).

Definition offset (q : query.ListUsersQuery) : Z :=
  wrap (wrap (query.Page q - 1) * query.Limit q).

Definition countQuery (q : query.ListUsersQuery) : string :=
  "SELECT COUNT(*) FROM users " +:+ whereClause (buildWhere q).

(** The main statement, its white space reduced to single blanks. *)
Definition mainQuery (q : query.ListUsersQuery) : string :=
  let w := buildWhere q in
  "SELECT id, name, email, password_hash, age, created_at, updated_at FROM users "
  +:+ whereClause w +:+ " " +:+ orderClause q
  +:+ " LIMIT $" +:+ Sprintf_d (argIndex w)
  +:+ " OFFSET $" +:+ Sprintf_d (argIndex w + 1).

Definition FindWithFilters `{Postgres} (db : DB) (filters : query.any)
  : list User * Z * option error :=
  match filters with
  | query.any_other => (nil, 0, Some (errors_New "invalid filter type"))
  | query.any_ListUsersQuery q =>
      let w := buildWhere q in
      match refusal (args w) (conditions w) with
      | Some err => (nil, 0, Some err)                    (* the count statement *)
      | None =>
          let total :=
            Z.of_nat (List.length
                        (List.filter (satisfies (args w) (conditions w)) (users db))) in
          let args := (args w ++ arg_int (query.Limit q) :: arg_int (offset q) :: nil)%list in
          match window (ORDER_BY (orderClause q) args
                                 (List.filter (satisfies args (conditions w)) (users db)))
                       (param args (argIndex w)) (param args (argIndex w + 1)) with
          | (_, Some err) => (nil, 0, Some err)
          | (users, None) => (users, total, None)
          end
      end
  end.

(** [PostgresUserRepository] implements [domain.UserRepository]. *)
#[export] Instance PostgresUserRepository `{Postgres}
  : UserRepository DB query.any :=
  {| repo.Create := Create;
     repo.GetByID := GetByID;
     repo.GetByEmail := GetByEmail;
     repo.GetAll := GetAll;
     repo.Update := Update;
     repo.Delete := Delete;
     repo.Search := Search;
     repo.FindWithFilters := FindWithFilters |}.

(** ** [NewPostgresPool]

    The loop that opens the pool.  [attempt i] is what the [i]-th round
    of [pgxpool.New] and [Ping] ends in, [nil] when both succeed.  The
    result says whether a pool is returned, the error, and the seconds
    spent in [time.Sleep].  [fmt.Errorf] with [%w] is kept as its text. *)
Definition maxRetries : Z := 5.

(** [for i := 0; i < maxRetries; i++], with [remaining] rounds to go. *)
Fixpoint connect (attempt : Z -> option error) (remaining : nat) (i : Z)
         (err : option error) (slept : Z) : bool * option error * Z :=
  match remaining with
  | O => (false, err, slept)
  | S remaining' =>
      match attempt i with
      | None => (true, None, slept)
      | Some e =>
          let waitTime := (i + 1) * 2 in
          connect attempt remaining' (i + 1) (Some e) (slept + waitTime)
      end
  end.

Definition NewPostgresPool (attempt : Z -> option error) : bool * option error * Z :=
  match connect attempt (Z.to_nat maxRetries) 0 None 0 with
  | (true, _, slept) => (true, None, slept)
  | (false, err, slept) =>
      (false,
       Some (errors_New ("failed to connect to database after "
                         +:+ Sprintf_d maxRetries +:+ " attempts: "
                         +:+ match err with
                             | Some e => Error e
                             | None => "%!w(<nil>)"
                             end)),
       slept)
  end.

End persistence.

(* ===================================================================== *)
(** * package handler (HTTP)                                               *)
(* ===================================================================== *)

Module handler.
Import Go domain cache.

(** The query string of a request, as gin sees it: keys with their
    values, a repeated key answering with its first value. *)
Definition Values : Type := list (string * string).

Fixpoint GetQuery (v : Values) (key : string) : option string :=
  match v with
  | nil => None
  | (k, x) :: rest => if String.eqb k key then Some x else GetQuery rest key
  end.

(** [c.Query(key)] *)
Definition Query (v : Values) (key : string) : string :=
  match GetQuery v key with Some x => x | None => "" end.

(** [c.DefaultQuery(key, defaultValue)] *)
Definition DefaultQuery (v : Values) (key defaultValue : string) : string :=
  match GetQuery v key with Some x => x | None => defaultValue end.

(** What [c.JSON(code, gin.H{...})] sends. *)
Inductive H : Type :=
| H_error (message : string)
| H_message (message : string)
| H_data (data : PublicUser)
| H_list (data : list PublicUser) (total page limit total_pages : Z).

Record Response : Type := mkResponse { code : Z; body : H }.

Definition StatusOK : Z := 200.
Definition StatusCreated : Z := 201.
Definition StatusBadRequest : Z := 400.
Definition StatusUnauthorized : Z := 401.
Definition StatusNotFound : Z := 404.
Definition StatusConflict : Z := 409.
Definition StatusInternalServerError : Z := 500.

(** The query descriptor [ListUsers] reads off the request; the errors
    of [strconv.Atoi] are dropped. *)
Definition listUsersQuery (v : Values) : query.ListUsersQuery :=
  let search := Query v "search" in
  let '(ageMin, _) := Atoi (Query v "age_min") in
  let '(ageMax, _) := Atoi (Query v "age_max") in
  let sortBy := DefaultQuery v "sort" "id" in
  let order := DefaultQuery v "order" "asc" in
  let '(page, _) := Atoi (DefaultQuery v "page" "1") in
  let '(limit, _) := Atoi (DefaultQuery v "limit" "10") in
  {| query.Search := search; query.AgeMin := ageMin; query.AgeMax := ageMax;
     query.SortBy := sortBy; query.Order := order;
     query.Page := page; query.Limit := limit |}.

(** [(h *Handler) ListUsers].  The application handlers answer a result
    or an error, never neither; the last case of each [match] below is there
    for the sake of the pattern only. *)
Definition ListUsers {S : Type} `{UserRepository S query.any} (s : S) (v : Values)
  : Response :=
  let q := listUsersQuery v in
  match query.ListUsersHandler.Handle s q with
  | (Some result, None) =>
      {| code := StatusOK;
         body := H_list (map ToPublicUser (query.Result.Users result))
                        (query.Result.Total result)
                        (query.Result.Page result)
                        (query.Result.Limit result)
                        (query.Result.TotalPages result) |}
  | (_, Some err) =>
      {| code := StatusInternalServerError; body := H_error (Error err) |}
  | (None, None) =>
      {| code := StatusOK; body := H_list nil 0 0 0 0 |}
  end.

(** [(h *Handler) CreateUser], from the bound command on:
    [ShouldBindJSON] has accepted the body. *)
Definition CreateUser {S : Type} `{UserRepository S query.any} `{Bcrypt}
           (ctx : Context) (s : S) (c : RedisCache) (cmd : command.CreateUserCommand.t)
  : S * Response :=
  match command.CreateUserHandler.Handle ctx s c cmd with
  | (s', _, Some err, _) =>
      if error_eqb err ErrUserAlreadyExists then
        (s', {| code := StatusConflict;
                body := H_error "user with this email already exists" |})
      else if String.eqb (Error err) "password cannot be empty"
              || String.eqb (Error err) "password must be at least 8 characters"
              || String.eqb (Error err) "name cannot be empty"
              || String.eqb (Error err) "email cannot be empty" then
        (s', {| code := StatusBadRequest; body := H_error (Error err) |})
      else
        (s', {| code := StatusInternalServerError; body := H_error (Error err) |})
  | (s', Some user, None, _) =>
      (s', {| code := StatusCreated; body := H_data (ToPublicUser user) |})
  | (s', None, None, _) =>
      (s', {| code := StatusCreated; body := H_data (ToPublicUser zeroUser) |})
  end.

(** [(h *Handler) GetUser], from the parsed identifier on. *)
Definition GetUser {S : Type} `{UserRepository S query.any}
           (s : S) (c : RedisCache) (id : Z) : Response * list Task :=
  match query.GetUserHandler.Handle s c {| query.ID := id |} with
  | (_, Some err, tasks) =>
      if error_eqb err ErrUserNotFound
      then ({| code := StatusNotFound; body := H_error "user not found" |}, tasks)
      else ({| code := StatusInternalServerError; body := H_error (Error err) |}, tasks)
  | (Some user, None, tasks) =>
      ({| code := StatusOK; body := H_data (ToPublicUser user) |}, tasks)
  | (None, None, tasks) =>
      ({| code := StatusOK; body := H_data (ToPublicUser zeroUser) |}, tasks)
  end.

(** [(h *Handler) GetUser], from the path parameter on. *)
Definition GetUserParam {S : Type} `{UserRepository S query.any}
           (s : S) (c : RedisCache) (idStr : string) : Response * list Task :=
  match ParseInt64 idStr with
  | (_, Some _) =>
      ({| code := StatusBadRequest; body := H_error "invalid user id" |}, nil)
  | (id, None) => GetUser s c id
  end.

(** [(h *Handler) SearchUsers] *)
Definition SearchUsers {S : Type} `{UserRepository S query.any} (s : S) (v : Values)
  : Response :=
  let keyword := Query v "q" in
  if String.eqb keyword "" then
    {| code := StatusBadRequest; body := H_error "search keyword is required" |}
  else
    let '(page, _) := Atoi (DefaultQuery v "page" "1") in
    let '(limit, _) := Atoi (DefaultQuery v "limit" "10") in
    let q := {| query.SearchQuery.Keyword := keyword;
                query.SearchQuery.Page := page;
                query.SearchQuery.Limit := limit |} in
    match query.SearchUsersHandler.Handle s q with
    | (Some result, None) =>
        {| code := StatusOK;
           body := H_list (map ToPublicUser (query.Result.Users result))
                          (query.Result.Total result)
                          (query.Result.Page result)
                          (query.Result.Limit result)
                          (query.Result.TotalPages result) |}
    | (_, Some err) =>
        {| code := StatusInternalServerError; body := H_error (Error err) |}
    | (None, None) =>
        {| code := StatusOK; body := H_list nil 0 0 0 0 |}
    end.

(** [(h *Handler) UpdateUser]: the path parameter, and the command
    [ShouldBindJSON] has bound; the identifier is written into it. *)
Definition UpdateUser {S : Type} `{UserRepository S query.any}
           (ctx : Context) (s : S) (c : RedisCache) (idStr : string)
           (cmd : command.UpdateUserCommand.t) : S * Response * list Task :=
  match ParseInt64 idStr with
  | (_, Some _) =>
      (s, {| code := StatusBadRequest; body := H_error "invalid user id" |}, nil)
  | (id, None) =>
      let cmd := {| command.UpdateUserCommand.ID := id;
                    command.UpdateUserCommand.Name := command.UpdateUserCommand.Name cmd;
                    command.UpdateUserCommand.Email := command.UpdateUserCommand.Email cmd;
                    command.UpdateUserCommand.Age := command.UpdateUserCommand.Age cmd |} in
      match command.UpdateUserHandler.Handle ctx s c cmd with
      | (s', _, Some err, tasks) =>
          if error_eqb err ErrUserNotFound then
            (s', {| code := StatusNotFound; body := H_error "user not found" |}, tasks)
          else if error_eqb err ErrUserAlreadyExists then
            (s', {| code := StatusConflict;
                    body := H_error "user with this email already exists" |}, tasks)
          else
            (s', {| code := StatusInternalServerError; body := H_error (Error err) |},
             tasks)
      | (s', Some user, None, tasks) =>
          (s', {| code := StatusOK; body := H_data (ToPublicUser user) |}, tasks)
      | (s', None, None, tasks) =>
          (s', {| code := StatusOK; body := H_data (ToPublicUser zeroUser) |}, tasks)
      end
  end.

(** [(h *Handler) DeleteUser] *)
Definition DeleteUser {S : Type} `{UserRepository S query.any}
           (s : S) (c : RedisCache) (idStr : string) : S * Response * list Task :=
  match ParseInt64 idStr with
  | (_, Some _) =>
      (s, {| code := StatusBadRequest; body := H_error "invalid user id" |}, nil)
  | (id, None) =>
      match command.DeleteUserHandler.Handle s c {| command.DeleteUserCommand.ID := id |} with
      | (s', Some err, tasks) =>
          if error_eqb err ErrUserNotFound then
            (s', {| code := StatusNotFound; body := H_error "user not found" |}, tasks)
          else
            (s', {| code := StatusInternalServerError; body := H_error (Error err) |},
             tasks)
      | (s', None, tasks) =>
          (s', {| code := StatusOK; body := H_message "user deleted successfully" |},
           tasks)
      end
  end.

(** [(h *Handler) ChangePassword]: the path parameter, and the bound
    command. *)
Definition ChangePassword {S : Type} `{UserRepository S query.any} `{Bcrypt}
           (ctx : Context) (s : S) (c : RedisCache) (idStr : string)
           (cmd : command.ChangePasswordCommand.t) : S * Response * list Task :=
  match ParseInt64 idStr with
  | (_, Some _) =>
      (s, {| code := StatusBadRequest; body := H_error "invalid user id" |}, nil)
  | (id, None) =>
      let cmd := {| command.ChangePasswordCommand.UserID := id;
                    command.ChangePasswordCommand.OldPassword :=
                      command.ChangePasswordCommand.OldPassword cmd;
                    command.ChangePasswordCommand.NewPassword :=
                      command.ChangePasswordCommand.NewPassword cmd |} in
      match command.ChangePasswordHandler.Handle ctx s c cmd with
      | (s', Some err, tasks) =>
          if error_eqb err ErrUserNotFound then
            (s', {| code := StatusNotFound; body := H_error "user not found" |}, tasks)
          else if String.eqb (Error err) "old password is incorrect" then
            (s', {| code := StatusUnauthorized;
                    body := H_error "old password is incorrect" |}, tasks)
          else
            (s', {| code := StatusInternalServerError; body := H_error (Error err) |},
             tasks)
      | (s', None, tasks) =>
          (s', {| code := StatusOK; body := H_message "password changed successfully" |},
           tasks)
      end
  end.

End handler.

(* ===================================================================== *)
(** * A small world to run the code in                                     *)
(* ===================================================================== *)

(** Stand-ins for the collaborators, used where a statement is evaluated
    on concrete data: a hashing capability that tags the password, a store
    whose [ILIKE] is a substring test on lower-cased ASCII between the
    bounding wildcards and whose [ORDER BY] leaves the rows as they lie. *)
Module sample.
Import Go domain.

#[export] Instance bcrypt : Bcrypt :=
  {| GenerateFromPassword := fun _ password _ => Some ("$2a$10$" +:+ password);
     CompareHashAndPassword := fun hash password =>
       if String.eqb hash ("$2a$10$" +:+ password) then None
       else Some ErrMismatchedHashAndPassword |}.

Fixpoint prefixb (p s : string) : bool :=
  match p, s with
  | EmptyString, _ => true
  | String a p', String b s' => Ascii.eqb a b && prefixb p' s'
  | String _ _, EmptyString => false
  end.

Fixpoint containsb (p s : string) : bool :=
  prefixb p s ||
  match s with
  | EmptyString => false
  | String _ s' => containsb p s'
  end.

Definition lowerByte (b : Z) : Z :=
  if (65 <=? b) && (b <=? 90) then b + 32 else b.

Definition lower (s : string) : string := of_bytes (map lowerByte (bytes s)).

(** The pattern without its first and last byte (the bounding wildcards). *)
Definition inner (pattern : string) : string :=
  of_bytes (removelast (tl (bytes pattern))).

#[export] Instance postgres : persistence.Postgres :=
  {| persistence.ILIKE := fun s pattern => containsb (lower (inner pattern)) (lower s);
     persistence.valid_text := fun s => forallb (fun b => negb (b =? 0)) (bytes s);
     persistence.ORDER_BY := fun _ _ rows => rows;
     persistence.ORDER_BY_perm := fun _ _ rows => Permutation_refl rows |}.

Definition ctx : Context := {| now := 1000; entropy := 7 |}.

Definition alice : User :=
  {| ID := 1; Name := "Alice"; Email := "alice@example.com";
     PasswordHash := "$2a$10$correct horse"; Age := 30;
     CreatedAt := 10; UpdatedAt := 10 |}.

Definition bob : User :=
  {| ID := 2; Name := "Bob"; Email := "bob@example.com";
     PasswordHash := "$2a$10$battery staple"; Age := 41;
     CreatedAt := 20; UpdatedAt := 20 |}.

Definition db : persistence.DB :=
  {| persistence.users := alice :: bob :: nil; persistence.users_id_seq := 3 |}.

Definition empty : persistence.DB :=
  {| persistence.users := nil; persistence.users_id_seq := 1 |}.

Definition redis : cache.RedisCache :=
  {| cache.entries := ∅; cache.reachable := true |}.

End sample.

(* ===================================================================== *)
(** * Specification-side definitions                                       *)
(* ===================================================================== *)

Import Go domain.
#[export] Existing Instance persistence.PostgresUserRepository.



(** The predicate of the specification for a descriptor: the conjunction
    of the filters that are present. *)
Definition keywordMatch `{persistence.Postgres} (keyword : string) (row : User) : bool :=
  persistence.ILIKE (Name row) ("%" +:+ keyword +:+ "%")
  || persistence.ILIKE (Email row) ("%" +:+ keyword +:+ "%").

Definition matches `{persistence.Postgres} (q : query.ListUsersQuery) (row : User) : bool :=
  (if String.eqb (query.Search q) "" then true else keywordMatch (query.Search q) row)
  && (if query.AgeMin q >? 0 then query.AgeMin q <=? Age row else true)
  && (if query.AgeMax q >? 0 then Age row <=? query.AgeMax q else true).

(** What a descriptor is refused for before any row is looked at: an age
    bound beyond the range of the [INTEGER] column, which the driver does
    not encode; a search text the store does not take. *)
Definition ageOutOfRange (q : query.ListUsersQuery) : bool :=
  (query.AgeMin q >? MaxInt32) || (query.AgeMax q >? MaxInt32).

Definition patternRefused `{persistence.Postgres} (keyword : string) : bool :=
  negb (persistence.valid_text ("%" +:+ keyword +:+ "%")).

Definition searchRefused `{persistence.Postgres} (q : query.ListUsersQuery) : bool :=
  negb (String.eqb (query.Search q) "") && patternRefused (query.Search q).

Definition withAge (u : User) (age : Z) : User :=
  {| ID := ID u; Name := Name u; Email := Email u;
     PasswordHash := PasswordHash u; Age := age;
     CreatedAt := CreatedAt u; UpdatedAt := UpdatedAt u |}.

Definition present {A : Type} (b : bool) (x : A) : list A :=
  if b then x :: nil else nil.




Definition withPasswordHash (u : User) (hash : string) : User :=
  {| ID := ID u; Name := Name u; Email := Email u; PasswordHash := hash;
     Age := Age u; CreatedAt := CreatedAt u; UpdatedAt := UpdatedAt u |}.



(** The characters of a text in UTF-8: the bytes that begin one, which
    are those outside the range of the continuation bytes, 128 to 191. *)
Definition characters (s : string) : Z :=
  Z.of_nat (List.length
              (List.filter (fun b => negb ((128 <=? b) && (b <=? 191))) (bytes s))).

(** A password of four characters of two bytes each: four times U+00E9
    (bytes C3 A9). *)
Definition fourCharacters : string :=
  of_bytes (195 :: 169 :: 195 :: 169 :: 195 :: 169 :: 195 :: 169 :: nil).

(** What get-by-id answers when it goes to the store: the row, handed to
    a detached [SetUser], or [ErrUserNotFound]. *)
Definition fromStore (db : persistence.DB) (id : Z)
  : option User * option error * list cache.Task :=
  match persistence.GetByID db id with
  | (Some u, None) => (Some u, None, cache.go_SetUser u :: nil)
  | _ => (None, Some ErrUserNotFound, nil)
  end.

(** The cache with the server up or down. *)
Definition withReachable (c : cache.RedisCache) (up : bool) : cache.RedisCache :=
  {| cache.entries := cache.entries c; cache.reachable := up |}.



(** C4 as the specification words it: once a mutation of a user and the
    deletion of the cache entry it detached have completed, get-by-id goes
    to the store.  The program has other detached operations in flight:
    here [pending] are those of a get-by-id of the same user served before
    the mutation, which run when the scheduler picks them. *)
Definition read_after_invalidation_goes_to_the_store : Prop :=
  forall (B : Bcrypt) (P : persistence.Postgres) (ctx : Context)
         (db db' : persistence.DB) (c : cache.RedisCache) (id : Z)
         (r : option User) (pending tasks : list cache.Task),
    cache.reachable c = true ->
    query.GetUserHandler.Handle db c {| query.ID := id |} = (r, None, pending) ->
    ((exists cmd u,
         command.UpdateUserCommand.ID cmd = id
         /\ command.UpdateUserHandler.Handle ctx db c cmd = (db', Some u, None, tasks))
     \/ command.DeleteUserHandler.Handle db c {| command.DeleteUserCommand.ID := id |}
        = (db', None, tasks)
     \/ (exists cmd,
           command.ChangePasswordCommand.UserID cmd = id
           /\ command.ChangePasswordHandler.Handle ctx db c cmd = (db', None, tasks))) ->
    query.GetUserHandler.Handle db' (cache.runAll (cache.runAll c tasks) pending)
      {| query.ID := id |}
    = fromStore db' id.

(** A valid input, as the specification lists it. *)
Definition valid (cmd : command.CreateUserCommand.t) : Prop :=
  command.CreateUserCommand.Name cmd <> ""
  /\ command.CreateUserCommand.Email cmd <> ""
  /\ 8 <= len (command.CreateUserCommand.Password cmd)
  /\ 0 <= command.CreateUserCommand.Age cmd <= 150.

(** C8 as the specification words it: the view read back carries the
    name, email and age of the input. *)
Definition create_then_get_returns_the_input : Prop :=
  forall (B : Bcrypt) (P : persistence.Postgres) (ctx : Context)
         (db db' : persistence.DB) (c : cache.RedisCache)
         (cmd : command.CreateUserCommand.t) (u g : User)
         (tasks tasks' : list cache.Task),
    valid cmd ->
    command.CreateUserHandler.Handle ctx db c cmd = (db', Some u, None, tasks) ->
    fst (cache.GetUser c (ID u)) = None ->
    query.GetUserHandler.Handle db' c {| query.ID := ID u |} = (Some g, None, tasks') ->
    Public.Name (ToPublicUser g) = command.CreateUserCommand.Name cmd
    /\ Public.Email (ToPublicUser g) = command.CreateUserCommand.Email cmd
    /\ Public.Age (ToPublicUser g) = command.CreateUserCommand.Age cmd.

(** An email that begins with a no-break space (U+00A0, bytes C2 A0). *)
Definition paddedEmail : string := of_bytes (194 :: 160 :: nil) +:+ "ann@example.com".

(** A parameter that is missing, or present with a value [strconv.Atoi]
    does not parse. *)
Definition nonNumeric (v : handler.Values) (key : string) : Prop :=
  exists s, handler.GetQuery v key = Some s /\ numeric s = false.

Definition missing (v : handler.Values) (key : string) : Prop :=
  handler.GetQuery v key = None.

(** C10 as the specification words it: each of the four parameters, when
    missing or not numeric, is parsed as 0. *)
Definition missing_or_non_numeric_parses_as_zero : Prop :=
  forall v : handler.Values,
    (missing v "age_min" \/ nonNumeric v "age_min" ->
     query.AgeMin (handler.listUsersQuery v) = 0)
    /\ (missing v "age_max" \/ nonNumeric v "age_max" ->
        query.AgeMax (handler.listUsersQuery v) = 0)
    /\ (missing v "page" \/ nonNumeric v "page" ->
        query.Page (handler.listUsersQuery v) = 0)
    /\ (missing v "limit" \/ nonNumeric v "limit" ->
        query.Limit (handler.listUsersQuery v) = 0).

(** ** Definitions for the further properties *)

(** A table as the constraints of the schema leave it: identifiers and
    emails without repetition, every identifier below the next value of the
    sequence. *)
Definition wf (db : persistence.DB) : Prop :=
  List.NoDup (map ID (persistence.users db))
  /\ List.NoDup (map Email (persistence.users db))
  /\ forall u, In u (persistence.users db) -> ID u < persistence.users_id_seq db.

(** The rows a page is cut from. *)
Definition matching `{persistence.Postgres} (q : query.ListUsersQuery)
           (db : persistence.DB) : list User :=
  List.filter (matches q) (persistence.users db).

Definition found `{persistence.Postgres} (keyword : string) (db : persistence.DB)
  : list User :=
  List.filter (keywordMatch keyword) (persistence.users db).

(** The arguments of the statement that fetches a page. *)
Definition listArgs (q : query.ListUsersQuery) : list persistence.arg :=
  (persistence.args (persistence.buildWhere q)
   ++ persistence.arg_int (query.Limit q)
   :: persistence.arg_int (persistence.offset q) :: nil)%list.

Definition searchArgs (keyword : string) (limit offset : Z) : list persistence.arg :=
  persistence.arg_string ("%" +:+ keyword +:+ "%")
  :: persistence.arg_int limit :: persistence.arg_int offset :: nil.

(** The texts the two clauses of the list statement can take. *)
Definition whereClauses : list string :=
  "" :: "WHERE age <= $1" :: "WHERE age >= $1"
  :: "WHERE age >= $1 AND age <= $2"
  :: "WHERE (name ILIKE $1 OR email ILIKE $1)"
  :: "WHERE (name ILIKE $1 OR email ILIKE $1) AND age <= $2"
  :: "WHERE (name ILIKE $1 OR email ILIKE $1) AND age >= $2"
  :: "WHERE (name ILIKE $1 OR email ILIKE $1) AND age >= $2 AND age <= $3"
  :: nil.

Definition orderClauses : list string :=
  "ORDER BY id ASC" :: "ORDER BY id DESC"
  :: "ORDER BY name ASC" :: "ORDER BY name DESC"
  :: "ORDER BY email ASC" :: "ORDER BY email DESC"
  :: "ORDER BY age ASC" :: "ORDER BY age DESC"
  :: "ORDER BY created_at ASC" :: "ORDER BY created_at DESC" :: nil.


(** The hashing capability verifies what it has generated. *)
Definition verifies `{Bcrypt} : Prop :=
  forall (entropy : Z) (password hash : string),
    GenerateFromPassword entropy password DefaultCost = Some hash ->
    CompareHashAndPassword hash password = None.

(** The rows the list handler answers for page [p] of a descriptor, none
    when it answers an error. *)
Definition page `{persistence.Postgres} (db : persistence.DB)
           (q : query.ListUsersQuery) (p : Z) : list User :=
  match query.ListUsersHandler.Handle db (query.withPage q p) with
  | (Some r, _) => query.Result.Users r
  | (None, _) => nil
  end.




(** A request for one user or for a new one, with the context of its
    call. *)
Inductive Request : Type :=
| request_create (ctx : Context) (cmd : command.CreateUserCommand.t)
| request_update (ctx : Context) (cmd : command.UpdateUserCommand.t)
| request_delete (cmd : command.DeleteUserCommand.t)
| request_change_password (ctx : Context) (cmd : command.ChangePasswordCommand.t)
| request_get (q : query.GetUserQuery).

(** The table, the cache, and the identifiers handed out so far, newest
    first. *)
Record Served : Type := mkServed {
  store : persistence.DB;
  redis : cache.RedisCache;
  handedOut : list Z
}.

(** One request served: the handler, then the cache operations it
    detached. *)
Definition serve `{Bcrypt} `{persistence.Postgres} (w : Served) (r : Request) : Served :=
  match r with
  | request_create ctx cmd =>
      let '(db', user, _, tasks) :=
        command.CreateUserHandler.Handle ctx (store w) (redis w) cmd in
      {| store := db'; redis := cache.runAll (redis w) tasks;
         handedOut := match user with
                      | Some u => ID u :: handedOut w
                      | None => handedOut w
                      end |}
  | request_update ctx cmd =>
      let '(db', _, _, tasks) :=
        command.UpdateUserHandler.Handle ctx (store w) (redis w) cmd in
      {| store := db'; redis := cache.runAll (redis w) tasks;
         handedOut := handedOut w |}
  | request_delete cmd =>
      let '(db', _, tasks) :=
        command.DeleteUserHandler.Handle (store w) (redis w) cmd in
      {| store := db'; redis := cache.runAll (redis w) tasks;
         handedOut := handedOut w |}
  | request_change_password ctx cmd =>
      let '(db', _, tasks) :=
        command.ChangePasswordHandler.Handle ctx (store w) (redis w) cmd in
      {| store := db'; redis := cache.runAll (redis w) tasks;
         handedOut := handedOut w |}
  | request_get q =>
      let '(_, _, tasks) := query.GetUserHandler.Handle (store w) (redis w) q in
      {| store := store w; redis := cache.runAll (redis w) tasks;
         handedOut := handedOut w |}
  end.

(** The cache holds nothing but documents of rows of the table. *)
Definition coherent (db : persistence.DB) (c : cache.RedisCache) : Prop :=
  forall (id : Z) (doc : JObject),
    cache.entries c !! cache.key id = Some doc ->
    exists u, persistence.GetByID db id = (Some u, None) /\ doc = MarshalUser u.

Definition serveAll `{Bcrypt} `{persistence.Postgres} (w : Served) (rs : list Request)
  : Served :=
  fold_left serve rs w.

(* ===================================================================== *)
(** * Machine integers                                                     *)
(* ===================================================================== *)


(* ===================================================================== *)
(** * Pagination arithmetic                                                *)
(* ===================================================================== *)



(** Case analysis on the innermost test of the goal, and the arithmetic
    reading of the boolean comparisons in the context. *)
Ltac case_if :=
  match goal with
  | |- context [if ?c then _ else _] =>
      lazymatch c with
      | context [if _ then _ else _] => fail
      | _ => let E := fresh "E" in destruct c eqn:E; simpl in *
      end
  end.

Ltac zbool :=
  repeat match goal with
    | H : (_ <? _) = true |- _ => apply Z.ltb_lt in H
    | H : (_ <? _) = false |- _ => apply Z.ltb_ge in H
    | H : (_ <=? _) = true |- _ => apply Z.leb_le in H
    | H : (_ <=? _) = false |- _ => apply Z.leb_gt in H
    | H : (_ >? _) = true |- _ => rewrite Z.gtb_ltb in H
    | H : (_ >? _) = false |- _ => rewrite Z.gtb_ltb in H
    | H : (_ >=? _) = true |- _ => rewrite Z.geb_leb in H
    | H : (_ >=? _) = false |- _ => rewrite Z.geb_leb in H
    | H : (_ =? _) = true |- _ => apply Z.eqb_eq in H
    | H : (_ =? _) = false |- _ => apply Z.eqb_neq in H
    end.

Ltac cases := repeat case_if; zbool; try reflexivity; try discriminate; try lia.

Lemma setDefaults_Limit (q : query.ListUsersQuery) :
  query.Limit (query.ListUsersHandler.setDefaults q)
  = if query.Limit q <? 1 then 10
    else if query.Limit q >? 100 then 100 else query.Limit q.
Proof.
  destruct q as [s amin amax sb o p l].
  unfold query.ListUsersHandler.setDefaults; simpl. cases.
Qed.

Lemma setDefaults_Page (q : query.ListUsersQuery) :
  query.Page (query.ListUsersHandler.setDefaults q)
  = if query.Page q <? 1 then 1 else query.Page q.
Proof.
  destruct q as [s amin amax sb o p l].
  unfold query.ListUsersHandler.setDefaults; simpl. cases.
Qed.

Lemma setDefaults_Limit_range (q : query.ListUsersQuery) :
  1 <= query.Limit (query.ListUsersHandler.setDefaults q) <= 100.
Proof. rewrite setDefaults_Limit. cases. Qed.

Lemma search_setDefaults_Limit (q : query.SearchQuery.SearchUsersQuery) :
  query.SearchQuery.Limit (query.SearchUsersHandler.setDefaults q)
  = if query.SearchQuery.Limit q <? 1 then 10
    else if query.SearchQuery.Limit q >? 100 then 100
    else query.SearchQuery.Limit q.
Proof.
  destruct q as [k p l].
  unfold query.SearchUsersHandler.setDefaults; simpl. cases.
Qed.

Lemma search_setDefaults_Page (q : query.SearchQuery.SearchUsersQuery) :
  query.SearchQuery.Page (query.SearchUsersHandler.setDefaults q)
  = if query.SearchQuery.Page q <? 1 then 1 else query.SearchQuery.Page q.
Proof.
  destruct q as [k p l].
  unfold query.SearchUsersHandler.setDefaults; simpl. cases.
Qed.

Lemma search_setDefaults_Limit_range (q : query.SearchQuery.SearchUsersQuery) :
  1 <= query.SearchQuery.Limit (query.SearchUsersHandler.setDefaults q) <= 100.
Proof. rewrite search_setDefaults_Limit. cases. Qed.

(** The repository behind the interface is the Postgres one. *)
Lemma repo_eq `{persistence.Postgres} :
  (forall db u, repo.Create db u = persistence.Create db u)
  /\ (forall db id, repo.GetByID db id = persistence.GetByID db id)
  /\ (forall db e, repo.GetByEmail db e = persistence.GetByEmail db e)
  /\ (forall db u, repo.Update db u = persistence.Update db u)
  /\ (forall db id, repo.Delete db id = persistence.Delete db id)
  /\ (forall db k p l, repo.Search db k p l = persistence.Search db k p l)
  /\ (forall db f, repo.FindWithFilters db f = persistence.FindWithFilters db f).
Proof. repeat split. Qed.

Ltac postgres :=
  destruct repo_eq as (rCreate & rGetByID & rGetByEmail & rUpdate & rDelete
                       & rSearch & rFind);
  rewrite ?rCreate, ?rGetByID, ?rGetByEmail, ?rUpdate, ?rDelete, ?rSearch, ?rFind
    in *;
  clear rCreate rGetByID rGetByEmail rUpdate rDelete rSearch rFind.






(* ===================================================================== *)
(** * Normalization of the query descriptor                                *)
(* ===================================================================== *)

Lemma setDefaults_SortBy (q : query.ListUsersQuery) :
  query.SortBy (query.ListUsersHandler.setDefaults q)
  = if String.eqb (query.SortBy q) "" then "id" else query.SortBy q.
Proof.
  destruct q as [s amin amax sb o p l].
  unfold query.ListUsersHandler.setDefaults; simpl. cases.
Qed.

Lemma setDefaults_Order (q : query.ListUsersQuery) :
  query.Order (query.ListUsersHandler.setDefaults q)
  = if String.eqb (query.Order q) "" then "asc" else query.Order q.
Proof.
  destruct q as [s amin amax sb o p l].
  unfold query.ListUsersHandler.setDefaults; simpl. cases.
Qed.

Lemma setDefaults_filters (q : query.ListUsersQuery) :
  query.Search (query.ListUsersHandler.setDefaults q) = query.Search q
  /\ query.AgeMin (query.ListUsersHandler.setDefaults q) = query.AgeMin q
  /\ query.AgeMax (query.ListUsersHandler.setDefaults q) = query.AgeMax q.
Proof.
  destruct q as [s amin amax sb o p l].
  unfold query.ListUsersHandler.setDefaults; simpl. repeat split; cases.
Qed.

(** The sort field the statement is ordered by, for the descriptor the
    handler hands over. *)
Lemma sortBy_setDefaults (q : query.ListUsersQuery) :
  persistence.sortBy (query.ListUsersHandler.setDefaults q)
  = if existsb (String.eqb (query.SortBy q)) persistence.validSortFields
    then query.SortBy q else "id".
Proof.
  unfold persistence.sortBy. rewrite setDefaults_SortBy.
  destruct (String.eqb (query.SortBy q) "") eqn:E.
  - apply String.eqb_eq in E. rewrite E. reflexivity.
  - destruct (existsb _ _); reflexivity.
Qed.

Lemma order_setDefaults (q : query.ListUsersQuery) :
  persistence.order (query.ListUsersHandler.setDefaults q)
  = if String.eqb (query.Order q) "asc" || String.eqb (query.Order q) "desc"
    then query.Order q else "asc".
Proof.
  unfold persistence.order. rewrite setDefaults_Order.
  destruct (String.eqb (query.Order q) "") eqn:E.
  - apply String.eqb_eq in E. rewrite E. reflexivity.
  - destruct (String.eqb (query.Order q) "asc"),
      (String.eqb (query.Order q) "desc"); reflexivity.
Qed.

(** The bookkeeping of "Build WHERE clause": [argIndex] is one past the
    arguments collected so far. *)
Lemma buildWhere_argIndex (q : query.ListUsersQuery) :
  persistence.argIndex (persistence.buildWhere q)
  = Z.of_nat (List.length (persistence.args (persistence.buildWhere q))) + 1.
Proof.
  unfold persistence.buildWhere, persistence.add.
  destruct (negb _), (query.AgeMin q >? 0), (query.AgeMax q >? 0);
    reflexivity.
Qed.

Lemma param_app_r (l : list persistence.arg) (a b : persistence.arg) :
  persistence.param (l ++ a :: b :: nil) (Z.of_nat (List.length l) + 1) = Some a
  /\ persistence.param (l ++ a :: b :: nil) (Z.of_nat (List.length l) + 1 + 1)
     = Some b.
Proof.
  unfold persistence.param. split.
  - destruct (_ <? 1) eqn:E; [zbool; lia|].
    replace (Z.to_nat (Z.of_nat (List.length l) + 1 - 1)) with (List.length l + 0)%nat by lia.
    rewrite nth_error_app2 by lia.
    replace (List.length l + 0 - List.length l)%nat with 0%nat by lia. reflexivity.
  - destruct (_ <? 1) eqn:E; [zbool; lia|].
    replace (Z.to_nat (Z.of_nat (List.length l) + 1 + 1 - 1)) with (List.length l + 1)%nat by lia.
    rewrite nth_error_app2 by lia.
    replace (List.length l + 1 - List.length l)%nat with 1%nat by lia. reflexivity.
Qed.

(** The refusals of the statements of a descriptor, read off the
    descriptor. *)
Lemma refusal_buildWhere `{persistence.Postgres} (q : query.ListUsersQuery) :
  persistence.refusal (persistence.args (persistence.buildWhere q))
                      (persistence.conditions (persistence.buildWhere q))
  = if ageOutOfRange q then Some EncodeError
    else if searchRefused q then Some persistence.character_not_in_repertoire
    else None.
Proof.
  unfold persistence.refusal, ageOutOfRange, searchRefused, patternRefused,
    persistence.buildWhere, persistence.add.
  destruct (String.eqb (query.Search q) ""); cbn [negb andb];
    destruct (query.AgeMin q >? 0) eqn:Emin;
    destruct (query.AgeMax q >? 0) eqn:Emax;
    cbn; unfold persistence.param; simpl;
    unfold MinInt32, MaxInt32;
    destruct (query.AgeMin q >? 2 ^ 31 - 1) eqn:Omin;
    destruct (query.AgeMax q >? 2 ^ 31 - 1) eqn:Omax;
    repeat match goal with
           | |- context [?a <=? ?b] =>
               let E := fresh "E" in destruct (a <=? b) eqn:E
           end;
    zbool; cbn;
    try match goal with
        | |- context [persistence.valid_text ?x] => destruct (persistence.valid_text x)
        end;
    try reflexivity; try (exfalso; lia).
Qed.

(** What [FindWithFilters] answers: the refusal of its arguments, the
    store's refusal of a negative [LIMIT] or [OFFSET], and the window
    otherwise. *)
Lemma FindWithFilters_outcome `{persistence.Postgres} (db : persistence.DB)
      (q : query.ListUsersQuery) :
  let w := persistence.buildWhere q in
  let args := (persistence.args w
               ++ persistence.arg_int (query.Limit q)
               :: persistence.arg_int (persistence.offset q) :: nil)%list in
  persistence.FindWithFilters db (query.any_ListUsersQuery q)
  = if ageOutOfRange q then (nil, 0, Some EncodeError)
    else if searchRefused q
    then (nil, 0, Some persistence.character_not_in_repertoire)
    else if query.Limit q <? 0
    then (nil, 0, Some persistence.invalid_row_count_in_limit_clause)
    else if persistence.offset q <? 0
    then (nil, 0, Some persistence.invalid_row_count_in_result_offset_clause)
    else (firstn (Z.to_nat (query.Limit q))
            (skipn (Z.to_nat (persistence.offset q))
               (persistence.ORDER_BY (persistence.orderClause q) args
                  (List.filter (persistence.satisfies args (persistence.conditions w))
                     (persistence.users db)))),
          Z.of_nat (List.length
                      (List.filter (persistence.satisfies (persistence.args w)
                                      (persistence.conditions w))
                         (persistence.users db))),
          None).
Proof.
  intros w args. subst w args. unfold persistence.FindWithFilters. cbv zeta.
  rewrite refusal_buildWhere.
  destruct (ageOutOfRange q); [reflexivity|].
  destruct (searchRefused q); [reflexivity|].
  rewrite buildWhere_argIndex.
  destruct (param_app_r (persistence.args (persistence.buildWhere q))
              (persistence.arg_int (query.Limit q))
              (persistence.arg_int (persistence.offset q))) as [-> ->].
  unfold persistence.window.
  destruct (query.Limit q <? 0); [reflexivity|].
  destruct (persistence.offset q <? 0); reflexivity.
Qed.

Lemma refused_setDefaults `{persistence.Postgres} (q : query.ListUsersQuery) :
  ageOutOfRange (query.ListUsersHandler.setDefaults q) = ageOutOfRange q
  /\ searchRefused (query.ListUsersHandler.setDefaults q) = searchRefused q.
Proof.
  destruct (setDefaults_filters q) as (Hs & Hmin & Hmax).
  unfold ageOutOfRange, searchRefused. rewrite Hs, Hmin, Hmax. split; reflexivity.
Qed.

(** The outcomes of the list handler: a result, or one of three
    refusals. *)
Lemma list_Handle_outcome `{persistence.Postgres} (db : persistence.DB)
      (q : query.ListUsersQuery) :
  let n := query.ListUsersHandler.setDefaults q in
  match query.ListUsersHandler.Handle db q with
  | (Some r, None) =>
      query.Result.Page r = query.Page n
      /\ query.Result.Limit r = query.Limit n
      /\ ageOutOfRange q = false /\ searchRefused q = false
      /\ 0 <= persistence.offset n
  | (None, Some e) =>
      (e = EncodeError /\ ageOutOfRange q = true)
      \/ (e = persistence.character_not_in_repertoire
          /\ ageOutOfRange q = false /\ searchRefused q = true)
      \/ (e = persistence.invalid_row_count_in_result_offset_clause
          /\ ageOutOfRange q = false /\ searchRefused q = false
          /\ persistence.offset n < 0)
  | _ => False
  end.
Proof.
  intros n.
  unfold query.ListUsersHandler.Handle. fold n. postgres.
  rewrite FindWithFilters_outcome.
  destruct (refused_setDefaults q) as [Hage Htext]. fold n in Hage, Htext.
  rewrite Hage, Htext.
  destruct (ageOutOfRange q); [left; split; reflexivity|].
  destruct (searchRefused q); [right; left; repeat split|].
  pose proof (setDefaults_Limit_range q) as Hl. fold n in Hl.
  destruct (query.Limit n <? 0) eqn:E1; [zbool; lia|].
  destruct (persistence.offset n <? 0) eqn:E2; zbool; simpl.
  - right. right. repeat split. assumption.
  - repeat split; assumption.
Qed.

(** C2.  Normalization is a total function and raises nothing: the page
    below 1 becomes 1, the limit below 1 becomes 10 and above 100 becomes
    100, a sort field outside the five known ones becomes id, an order other
    than asc and desc becomes asc.  The list handler then either returns a
    result, which echoes the normalized page and limit, or passes on a
    refusal that is none of normalization's: the driver's, of an age bound
    beyond the range of the store's [INTEGER]; the store's, of a search
    text that is not valid in its encoding; the store's, of a negative
    [OFFSET], the page less one times the limit having left the range of an
    [int]. *)
Theorem normalization_total_and_silent `{persistence.Postgres}
        (db : persistence.DB) (q : query.ListUsersQuery) :
  let n := query.ListUsersHandler.setDefaults q in
  query.Page n = (if query.Page q <? 1 then 1 else query.Page q)
  /\ query.Limit n = (if query.Limit q <? 1 then 10
                      else if query.Limit q >? 100 then 100 else query.Limit q)
  /\ persistence.sortBy n
     = (if existsb (String.eqb (query.SortBy q)) persistence.validSortFields
        then query.SortBy q else "id")
  /\ persistence.order n
     = (if String.eqb (query.Order q) "asc" || String.eqb (query.Order q) "desc"
        then query.Order q else "asc")
  /\ match query.ListUsersHandler.Handle db q with
     | (Some r, None) =>
         query.Result.Page r = query.Page n
         /\ query.Result.Limit r = query.Limit n
         /\ ageOutOfRange q = false /\ searchRefused q = false
         /\ 0 <= persistence.offset n
     | (None, Some e) =>
         (e = EncodeError /\ ageOutOfRange q = true)
         \/ (e = persistence.character_not_in_repertoire
             /\ ageOutOfRange q = false /\ searchRefused q = true)
         \/ (e = persistence.invalid_row_count_in_result_offset_clause
             /\ ageOutOfRange q = false /\ searchRefused q = false
             /\ persistence.offset n < 0)
     | _ => False
     end.
Proof.
  intros n.
  split; [apply setDefaults_Page|].
  split; [apply setDefaults_Limit|].
  split; [apply sortBy_setDefaults|].
  split; [apply order_setDefaults|].
  exact (list_Handle_outcome db q).
Qed.

(* ===================================================================== *)
(** * The filter predicate                                                 *)
(* ===================================================================== *)

Lemma buildWhere_shape (q : query.ListUsersQuery) :
  let kw := negb (String.eqb (query.Search q) "") in
  let lo := query.AgeMin q >? 0 in
  let hi := query.AgeMax q >? 0 in
  let n (b : bool) : Z := if b then 1 else 0 in
  persistence.conditions (persistence.buildWhere q)
  = (present kw (persistence.name_or_email_ILIKE 1)
     ++ present lo (persistence.age_ge (1 + n kw))
     ++ present hi (persistence.age_le (1 + n kw + n lo)))%list
  /\ persistence.args (persistence.buildWhere q)
     = (present kw (persistence.arg_string ("%" +:+ query.Search q +:+ "%"))
        ++ present lo (persistence.arg_int (query.AgeMin q))
        ++ present hi (persistence.arg_int (query.AgeMax q)))%list.
Proof.
  unfold persistence.buildWhere, persistence.add.
  destruct (negb _), (query.AgeMin q >? 0), (query.AgeMax q >? 0);
    split; reflexivity.
Qed.

Lemma satisfies_matches `{persistence.Postgres} (q : query.ListUsersQuery)
      (extra : list persistence.arg) (row : User) :
  persistence.satisfies
    (persistence.args (persistence.buildWhere q) ++ extra)
    (persistence.conditions (persistence.buildWhere q)) row
  = matches q row.
Proof.
  unfold matches, keywordMatch, persistence.buildWhere, persistence.add.
  destruct (String.eqb (query.Search q) ""), (query.AgeMin q >? 0),
    (query.AgeMax q >? 0); cbn;
    unfold persistence.param; simpl;
    rewrite ?Z.geb_leb, ?andb_true_r, ?andb_assoc; reflexivity.
Qed.

Lemma In_window {A : Type} (n m : nat) (l : list A) (x : A) :
  In x (firstn n (skipn m l)) -> In x l.
Proof.
  intros Hin.
  rewrite <- (firstn_skipn m l). apply in_or_app. right.
  rewrite <- (firstn_skipn n (skipn m l)). apply in_or_app. left. exact Hin.
Qed.

Lemma FindWithFilters_sound `{persistence.Postgres} (db : persistence.DB)
      (q : query.ListUsersQuery) (u : User) :
  In u (fst (fst (persistence.FindWithFilters db (query.any_ListUsersQuery q)))) ->
  In u (persistence.users db) /\ matches q u = true.
Proof.
  rewrite FindWithFilters_outcome.
  destruct (ageOutOfRange q); [intros []|].
  destruct (searchRefused q); [intros []|].
  destruct (query.Limit q <? 0); [intros []|].
  destruct (persistence.offset q <? 0); [intros []|].
  cbn [fst]. intros Hin. apply In_window in Hin.
  apply (Permutation_in _ (persistence.ORDER_BY_perm _ _ _)) in Hin.
  apply filter_In in Hin. destruct Hin as [Hin Hsat].
  split; [exact Hin|].
  rewrite satisfies_matches in Hsat. exact Hsat.
Qed.

Lemma FindWithFilters_total `{persistence.Postgres} (db : persistence.DB)
      (q : query.ListUsersQuery) :
  snd (persistence.FindWithFilters db (query.any_ListUsersQuery q)) = None ->
  snd (fst (persistence.FindWithFilters db (query.any_ListUsersQuery q)))
  = Z.of_nat (List.length (List.filter (matches q) (persistence.users db))).
Proof.
  rewrite FindWithFilters_outcome.
  destruct (ageOutOfRange q); [discriminate|].
  destruct (searchRefused q); [discriminate|].
  destruct (query.Limit q <? 0); [discriminate|].
  destruct (persistence.offset q <? 0); [discriminate|].
  intros _. cbn [fst snd]. f_equal. f_equal.
  apply filter_ext. intros row.
  rewrite <- (satisfies_matches q nil row), app_nil_r. reflexivity.
Qed.

(** C3.  The conditions the repository writes are exactly those of the
    filters that are present, in the order keyword, minimum age, maximum
    age, each with the number of its own argument, and the WHERE clause joins
    them with AND.  On a row the clause means: the keyword between bounding
    wildcards matched with ILIKE against the name or the email, when the
    keyword is not empty; age at least the minimum, when the minimum is
    above 0; age at most the maximum, when the maximum is above 0.  With no
    maximum, a row that passes still passes with any greater age.  The rows
    [FindWithFilters] returns are rows of the table that pass, and the total
    counts the rows that pass. *)
Theorem filter_predicate_is_conjunction `{persistence.Postgres}
        (db : persistence.DB) (q : query.ListUsersQuery) (row : User) :
  let w := persistence.buildWhere q in
  let kw := negb (String.eqb (query.Search q) "") in
  let lo := query.AgeMin q >? 0 in
  let hi := query.AgeMax q >? 0 in
  let n (b : bool) : Z := if b then 1 else 0 in
  persistence.conditions w
  = (present kw (persistence.name_or_email_ILIKE 1)
     ++ present lo (persistence.age_ge (1 + n kw))
     ++ present hi (persistence.age_le (1 + n kw + n lo)))%list
  /\ persistence.args w
     = (present kw (persistence.arg_string ("%" +:+ query.Search q +:+ "%"))
        ++ present lo (persistence.arg_int (query.AgeMin q))
        ++ present hi (persistence.arg_int (query.AgeMax q)))%list
  /\ persistence.whereClause w
     = (if kw || lo || hi
        then "WHERE " +:+ Join (map persistence.sql (persistence.conditions w)) " AND "
        else "")
  /\ persistence.satisfies (persistence.args w) (persistence.conditions w) row
     = (if kw then keywordMatch (query.Search q) row else true)
       && (if lo then query.AgeMin q <=? Age row else true)
       && (if hi then Age row <=? query.AgeMax q else true)
  /\ (forall age, hi = false -> Age row <= age ->
      persistence.satisfies (persistence.args w) (persistence.conditions w) row = true ->
      persistence.satisfies (persistence.args w) (persistence.conditions w)
        (withAge row age) = true)
  /\ (forall u,
      In u (fst (fst (persistence.FindWithFilters db (query.any_ListUsersQuery q)))) ->
      In u (persistence.users db)
      /\ persistence.satisfies (persistence.args w) (persistence.conditions w) u = true)
  /\ (snd (persistence.FindWithFilters db (query.any_ListUsersQuery q)) = None ->
      snd (fst (persistence.FindWithFilters db (query.any_ListUsersQuery q)))
      = Z.of_nat (List.length
                    (List.filter (persistence.satisfies (persistence.args w)
                                    (persistence.conditions w))
                       (persistence.users db)))).
Proof.
  intros w kw lo hi n.
  assert (Hsat : forall r,
             persistence.satisfies (persistence.args w) (persistence.conditions w) r
             = matches q r).
  { intros r. rewrite <- (satisfies_matches q nil r), app_nil_r. reflexivity. }
  destruct (buildWhere_shape q) as [Hc Ha].
  split; [exact Hc|]. split; [exact Ha|].
  split.
  { subst w kw lo hi.
    unfold persistence.whereClause, persistence.buildWhere, persistence.add.
    destruct (negb _), (query.AgeMin q >? 0), (query.AgeMax q >? 0);
      reflexivity. }
  split.
  { rewrite Hsat. unfold matches. subst kw lo hi.
    destruct (String.eqb (query.Search q) ""); reflexivity. }
  split.
  { intros age Hhi Hage. rewrite !Hsat. unfold matches, keywordMatch. fold hi.
    rewrite Hhi. cbn [withAge Age Name Email].
    rewrite !andb_true_r, !andb_true_iff. intros [Hk Hlo]. split; [exact Hk|].
    destruct (query.AgeMin q >? 0); [|reflexivity].
    apply Z.leb_le in Hlo. apply Z.leb_le. lia. }
  split.
  { intros u Hin. apply FindWithFilters_sound in Hin.
    rewrite Hsat. exact Hin. }
  intros Hok. rewrite (FindWithFilters_total db q Hok).
  f_equal. f_equal. apply filter_ext. intros r. symmetry. apply Hsat.
Qed.

(** The text of the clause on two descriptors: all three filters, none. *)
Example whereClause_all :
  persistence.whereClause
    (persistence.buildWhere (query.mkListUsersQuery "ann" 25 35 "id" "asc" 1 10))
  = "WHERE (name ILIKE $1 OR email ILIKE $1) AND age >= $2 AND age <= $3".
Proof. reflexivity. Qed.

Example whereClause_none :
  persistence.whereClause
    (persistence.buildWhere (query.mkListUsersQuery "" 0 0 "id" "asc" 1 10))
  = "".
Proof. reflexivity. Qed.

Lemma filter_predicate_is_conjunction_witness :
  let q := query.mkListUsersQuery "" 25 0 "id" "asc" 1 10 in
  let w := persistence.buildWhere q in
  (query.AgeMax q >? 0) = false /\ Age sample.alice <= 99
  /\ persistence.satisfies (H := sample.postgres)
       (persistence.args w) (persistence.conditions w) sample.alice = true
  /\ persistence.satisfies (H := sample.postgres)
       (persistence.args w) (persistence.conditions w) (withAge sample.alice 99) = true.
Proof.
  intros q w.
  assert (H1 : (query.AgeMax q >? 0) = false) by reflexivity.
  assert (H2 : Age sample.alice <= 99) by (simpl; lia).
  assert (H3 : persistence.satisfies (H := sample.postgres)
                 (persistence.args w) (persistence.conditions w) sample.alice = true)
    by reflexivity.
  pose proof (@filter_predicate_is_conjunction sample.postgres sample.db q sample.alice)
    as (_ & _ & _ & _ & Hup & _).
  split; [exact H1|]. split; [exact H2|]. split; [exact H3|].
  exact (Hup 99 H1 H2 H3).
Defined.

(* ===================================================================== *)
(** * Lookups by email and by identifier                                   *)
(* ===================================================================== *)

Lemma find_none_iff {A : Type} (f : A -> bool) (l : list A) :
  find f l = None <-> forall x, In x l -> f x = false.
Proof.
  split.
  - intros Hf x Hin. exact (find_none f l Hf x Hin).
  - induction l as [|a l IH]; intros Hall; [reflexivity|]. simpl.
    rewrite (Hall a (or_introl eq_refl)). apply IH.
    intros x Hin. apply Hall. right. exact Hin.
Qed.

(** The two answers of [GetByID]. *)
Lemma GetByID_answers (db : persistence.DB) (id : Z) :
  (exists u, persistence.GetByID db id = (Some u, None) /\ ID u = id)
  \/ persistence.GetByID db id = (None, Some ErrUserNotFound).
Proof.
  unfold persistence.GetByID.
  destruct (find _ _) as [u|] eqn:Hf; [left|right; reflexivity].
  exists u. split; [reflexivity|].
  apply find_some in Hf. destruct Hf as [_ Hid].
  unfold persistence.hasID in Hid. apply Z.eqb_eq in Hid. exact Hid.
Qed.






(* ===================================================================== *)
(** * The cache round trip                                                 *)
(* ===================================================================== *)

Lemma Unmarshal_Marshal (u : User) :
  UnmarshalUser (MarshalUser u) = (Some (withPasswordHash u ""), None).
Proof. destruct u. reflexivity. Qed.

Lemma ToPublicUser_withPasswordHash (u : User) (hash : string) :
  ToPublicUser (withPasswordHash u hash) = ToPublicUser u.
Proof. reflexivity. Qed.

Lemma GetUser_SetUser (c : cache.RedisCache) (u : User) :
  cache.reachable c = true ->
  cache.SetUser c u
  = ({| cache.entries := <[cache.key (ID u) := MarshalUser u]> (cache.entries c);
        cache.reachable := true |}, None)
  /\ cache.GetUser (fst (cache.SetUser c u)) (ID u)
     = (Some (withPasswordHash u ""), None).
Proof.
  intros Hup. unfold cache.SetUser. rewrite Hup. simpl. split; [reflexivity|].
  unfold cache.GetUser. simpl. rewrite lookup_insert_eq. apply Unmarshal_Marshal.
Qed.

(** C9.  A user stored with [SetUser] and read back with [GetUser] has
    the identifier, name, email, age and both timestamps of the original and
    the empty string for a password hash: the document the cache holds has
    no member for the hash.  So a cache hit of the get-by-id handler returns
    a user that differs from the stored one, when that one has a hash, and
    has the same public view. *)
Theorem cache_round_trip_drops_hash `{persistence.Postgres}
        (db : persistence.DB) (c : cache.RedisCache) (u : User) :
  cache.reachable c = true -> PasswordHash u <> "" ->
  let c' := fst (cache.SetUser c u) in
  let u' := withPasswordHash u "" in
  snd (cache.SetUser c u) = None
  /\ keys (MarshalUser u)
     = "id" :: "name" :: "email" :: "age" :: "created_at" :: "updated_at" :: nil
  /\ cache.GetUser c' (ID u) = (Some u', None)
  /\ (ID u' = ID u /\ Name u' = Name u /\ Email u' = Email u /\ Age u' = Age u
      /\ CreatedAt u' = CreatedAt u /\ UpdatedAt u' = UpdatedAt u
      /\ PasswordHash u' = "")
  /\ query.GetUserHandler.Handle db c' {| query.ID := ID u |} = (Some u', None, nil)
  /\ ToPublicUser u' = ToPublicUser u
  /\ u' <> u.
Proof.
  intros Hup Hhash c' u'.
  destruct (GetUser_SetUser c u Hup) as [Hset Hget].
  split; [rewrite Hset; reflexivity|].
  split; [reflexivity|].
  split; [exact Hget|].
  split; [repeat split|].
  split.
  { unfold query.GetUserHandler.Handle. cbn [query.ID]. fold c'.
    subst c'. rewrite Hget. reflexivity. }
  split; [reflexivity|].
  intros Heq. apply Hhash. rewrite <- Heq. reflexivity.
Qed.

Lemma cache_round_trip_drops_hash_witness :
  cache.reachable sample.redis = true /\ PasswordHash sample.bob <> ""
  /\ query.GetUserHandler.Handle (H := persistence.PostgresUserRepository (H := sample.postgres))
       sample.db (fst (cache.SetUser sample.redis sample.bob))
       {| query.ID := 2 |}
     = (Some (withPasswordHash sample.bob ""), None, nil).
Proof.
  assert (H1 : cache.reachable sample.redis = true) by reflexivity.
  assert (H2 : PasswordHash sample.bob <> "") by discriminate.
  split; [exact H1|]. split; [exact H2|].
  exact (proj1 (proj2 (proj2 (proj2 (proj2
    (@cache_round_trip_drops_hash sample.postgres sample.db sample.redis
       sample.bob H1 H2)))))).
Defined.

(* ===================================================================== *)
(** * Changing the password                                                *)
(* ===================================================================== *)



#[local] Existing Instance sample.bcrypt.
#[local] Existing Instance sample.postgres.


(** C5.  [UpdatePassword] measures the new password with [len], in
    bytes, while its message and the specification require 8 characters.
    Bob changes his password, giving the right old one, to four characters
    that take eight bytes: the check passes, the handler succeeds, and the
    row of Bob carries the hash of the four characters in place of the one
    it had, with the deletion of the cache entry detached.  One byte less
    is refused. *)
Theorem four_characters_pass_for_eight :
  let cmd := command.ChangePasswordCommand.mk 2 "battery staple" fourCharacters in
  let new := {| ID := 2; Name := Name sample.bob; Email := Email sample.bob;
                PasswordHash := "$2a$10$" +:+ fourCharacters; Age := Age sample.bob;
                CreatedAt := CreatedAt sample.bob; UpdatedAt := now sample.ctx |} in
  characters fourCharacters = 4
  /\ len fourCharacters = 8
  /\ persistence.GetByID sample.db 2 = (Some sample.bob, None)
  /\ ComparePassword sample.bob "battery staple" = None
  /\ UpdatePassword sample.ctx sample.bob "battery staple" fourCharacters = (new, None)
  /\ command.ChangePasswordHandler.Handle sample.ctx sample.db sample.redis cmd
     = ({| persistence.users := sample.alice :: new :: nil;
           persistence.users_id_seq := 3 |},
        None, cache.go_DeleteUser 2 :: nil)
  /\ PasswordHash new <> PasswordHash sample.bob
  /\ ComparePassword new fourCharacters = None
  /\ ComparePassword new "battery staple" <> None
  /\ snd (UpdatePassword sample.ctx sample.bob "battery staple"
            (of_bytes (195 :: 169 :: 195 :: 169 :: 195 :: 169 :: 97 :: nil)))
     = Some (errors_New "new password must be at least 8 characters").
Proof.
  intros cmd new.
  split; [reflexivity|]. split; [reflexivity|]. split; [reflexivity|].
  split; [reflexivity|]. split; [reflexivity|]. split; [reflexivity|].
  split; [discriminate|]. split; [reflexivity|]. split; [discriminate|].
  reflexivity.
Qed.

(* ===================================================================== *)
(** * Cache invalidation                                                   *)
(* ===================================================================== *)

Lemma GetUser_Handle_miss `{persistence.Postgres} (db : persistence.DB)
      (c : cache.RedisCache) (id : Z) :
  fst (cache.GetUser c id) = None ->
  query.GetUserHandler.Handle db c {| query.ID := id |} = fromStore db id.
Proof.
  intros Hmiss. unfold query.GetUserHandler.Handle, fromStore. cbn [query.ID].
  destruct (cache.GetUser c id) as [[u|] e]; [discriminate|].
  postgres. unfold persistence.GetByID.
  destruct (find _ _); reflexivity.
Qed.


Lemma key_inj (id id' : Z) : cache.key id = cache.key id' -> id = id'.
Proof.
  unfold cache.key, Sprintf_d. cbn. intros [= E]. exact (pretty_Z_inj _ _ E).
Qed.





(** The rows after an accepted [UPDATE]. *)
Lemma hasID_setRow (user r : User) (id : Z) :
  persistence.hasID id (persistence.setRow user r) = persistence.hasID id r.
Proof. unfold persistence.setRow. destruct (persistence.hasID (ID user) r); reflexivity. Qed.

Lemma find_map_setRow (user : User) (id : Z) (rows : list User) :
  find (persistence.hasID id) (map (persistence.setRow user) rows)
  = option_map (persistence.setRow user) (find (persistence.hasID id) rows).
Proof.
  induction rows as [|r rows IH]; [reflexivity|]. simpl.
  rewrite hasID_setRow. destruct (persistence.hasID id r); [reflexivity|exact IH].
Qed.

Lemma GetByID_Update (db db' : persistence.DB) (user : User) :
  persistence.Update db user = (db', None) ->
  exists r,
    persistence.GetByID db (ID user) = (Some r, None)
    /\ persistence.GetByID db' (ID user)
       = (Some {| ID := ID user; Name := Name user; Email := Email user;
                  PasswordHash := PasswordHash user; Age := Age user;
                  CreatedAt := CreatedAt r; UpdatedAt := UpdatedAt user |}, None).
Proof.
  unfold persistence.Update.
  destruct (negb _) eqn:Hex; [discriminate|].
  destruct (existsb (fun r => _ && _) _); [discriminate|].
  intros [= <-]. unfold persistence.GetByID. cbn [persistence.users].
  rewrite find_map_setRow.
  apply negb_false_iff in Hex. apply existsb_exists in Hex.
  destruct Hex as (x & Hin & Hx).
  destruct (find (persistence.hasID (ID user)) (persistence.users db)) as [r|] eqn:Hf.
  - exists r. split; [reflexivity|]. cbn [option_map].
    apply find_some in Hf. destruct Hf as [_ Hr].
    unfold persistence.setRow. rewrite Hr.
    unfold persistence.hasID in Hr. apply Z.eqb_eq in Hr. rewrite Hr. reflexivity.
  - rewrite (find_none _ _ Hf x Hin) in Hx. discriminate.
Qed.

Lemma GetByID_found (db : persistence.DB) (id : Z) (u : User) (e : option error) :
  persistence.GetByID db id = (Some u, e) -> ID u = id /\ e = None.
Proof.
  unfold persistence.GetByID.
  destruct (find _ _) as [r|] eqn:Hf; [|discriminate].
  intros [= <- <-]. apply find_some in Hf. destruct Hf as [_ Hr].
  unfold persistence.hasID in Hr. apply Z.eqb_eq in Hr. split; [exact Hr|reflexivity].
Qed.

Lemma GetByID_Delete (db db' : persistence.DB) (id : Z) :
  persistence.Delete db id = (db', None) ->
  persistence.GetByID db' id = (None, Some ErrUserNotFound).
Proof.
  unfold persistence.Delete. destruct (negb _); [discriminate|].
  intros [= <-]. unfold persistence.GetByID. cbn [persistence.users].
  rewrite (proj2 (find_none_iff _ _)); [reflexivity|].
  intros x Hin. apply filter_In in Hin. destruct Hin as [_ Hx].
  apply negb_true_iff in Hx. exact Hx.
Qed.

(** C4, against the claim: a get-by-id of Bob misses the cache and
    detaches the [SetUser] of the row it read; Bob is then updated and the
    deletion the update detached runs; the [SetUser] of the earlier read
    runs after it and writes the old row back.  The next get-by-id is
    answered from the cache with the name and email from before the update,
    not from the store. *)
Lemma stale_write_lands_after_invalidation :
  ~ read_after_invalidation_goes_to_the_store.
Proof.
  intros Hclaim.
  pose (cmd := command.UpdateUserCommand.mk 2 "Robert" "robert@example.com" 42).
  pose (new := {| ID := 2; Name := "Robert"; Email := "robert@example.com";
                  PasswordHash := PasswordHash sample.bob; Age := 42;
                  CreatedAt := CreatedAt sample.bob;
                  UpdatedAt := now sample.ctx |}).
  pose (db' := {| persistence.users := sample.alice :: new :: nil;
                  persistence.users_id_seq := 3 |}).
  specialize (Hclaim sample.bcrypt sample.postgres sample.ctx sample.db db'
                sample.redis 2 (Some sample.bob)
                (cache.go_SetUser sample.bob :: nil)
                (cache.go_DeleteUser 2 :: nil) eq_refl eq_refl).
  assert (Hupdate : exists c u,
             command.UpdateUserCommand.ID c = 2
             /\ command.UpdateUserHandler.Handle sample.ctx sample.db sample.redis c
                = (db', Some u, None, cache.go_DeleteUser 2 :: nil)).
  { exists cmd, new. split; reflexivity. }
  specialize (Hclaim (or_introl Hupdate)).
  assert (Hserved : fst (fst (query.GetUserHandler.Handle db'
                       (cache.runAll (cache.runAll sample.redis
                                        (cache.go_DeleteUser 2 :: nil))
                                     (cache.go_SetUser sample.bob :: nil))
                       {| query.ID := 2 |}))
                    = Some (withPasswordHash sample.bob "")) by reflexivity.
  rewrite Hclaim in Hserved. discriminate Hserved.
Qed.



(* ===================================================================== *)
(** * Create, then get by identifier                                       *)
(* ===================================================================== *)

Lemma NewUser_ok `{Bcrypt} (ctx : Context) (name email password : string)
      (age : Z) (u : User) :
  NewUser ctx name email password age = (Some u, None) ->
  ID u = 0 /\ Name u = TrimSpace name /\ Email u = TrimSpace email /\ Age u = age
  /\ GenerateFromPassword (entropy ctx) (TrimSpace password) DefaultCost
     = Some (PasswordHash u)
  /\ TrimSpace name <> "" /\ TrimSpace email <> ""
  /\ 8 <= len (TrimSpace password) /\ 0 <= age <= 150.
Proof.
  unfold NewUser.
  destruct (String.eqb (TrimSpace name) "") eqn:En; [discriminate|].
  destruct (String.eqb (TrimSpace email) "") eqn:Ee; [discriminate|].
  destruct (String.eqb (TrimSpace password) ""); [discriminate|].
  destruct (len (TrimSpace password) <? 8) eqn:El; [discriminate|].
  destruct ((age <? 0) || (age >? 150)) eqn:Ea; [discriminate|].
  destruct (GenerateFromPassword _ _ _) as [h|]; [|discriminate].
  intros [= <-]. cbn.
  apply String.eqb_neq in En, Ee. apply orb_false_iff in Ea. destruct Ea as [E1 E2].
  zbool. repeat split; try assumption; lia.
Qed.

Lemma find_app_new {A : Type} (f : A -> bool) (l : list A) (x : A) :
  existsb f l = false -> f x = true -> find f (l ++ x :: nil) = Some x.
Proof.
  induction l as [|a l IH]; simpl; intros Hex Hx.
  - rewrite Hx. reflexivity.
  - apply orb_false_iff in Hex. destruct Hex as [Ha Hl]. rewrite Ha. apply IH; assumption.
Qed.

Lemma Create_ok (db db' : persistence.DB) (user u : User) :
  persistence.Create db user = (db', u, None) ->
  u = {| ID := persistence.users_id_seq db; Name := Name user; Email := Email user;
         PasswordHash := PasswordHash user; Age := Age user;
         CreatedAt := CreatedAt user; UpdatedAt := UpdatedAt user |}
  /\ persistence.users db' = (persistence.users db ++ u :: nil)%list
  /\ persistence.GetByID db' (ID u) = (Some u, None).
Proof.
  unfold persistence.Create.
  destruct (existsb (persistence.hasID _) _ || _) eqn:Hex; [discriminate|].
  intros [= <- <-]. apply orb_false_iff in Hex. destruct Hex as [Hid _].
  split; [reflexivity|]. split; [reflexivity|].
  unfold persistence.GetByID. cbn [persistence.users ID].
  rewrite find_app_new; [reflexivity|exact Hid|].
  unfold persistence.hasID. cbn [ID]. apply Z.eqb_refl.
Qed.

Lemma CreateUser_Handle_ok `{Bcrypt} `{persistence.Postgres} (ctx : Context)
      (db db' : persistence.DB) (c : cache.RedisCache)
      (cmd : command.CreateUserCommand.t) (u : User) (tasks : list cache.Task) :
  command.CreateUserHandler.Handle ctx db c cmd = (db', Some u, None, tasks) ->
  exists user,
    persistence.GetByEmail db (command.CreateUserCommand.Email cmd)
    = (None, Some ErrUserNotFound)
    /\ NewUser ctx (command.CreateUserCommand.Name cmd)
         (command.CreateUserCommand.Email cmd)
         (command.CreateUserCommand.Password cmd)
         (command.CreateUserCommand.Age cmd) = (Some user, None)
    /\ persistence.Create db user = (db', u, None)
    /\ tasks = nil.
Proof.
  unfold command.CreateUserHandler.Handle. postgres.
  unfold persistence.GetByEmail.
  destruct (find _ _) as [existing|]; [discriminate|].
  destruct (NewUser _ _ _ _ _) as [[user|] [e1|]]; try discriminate.
  postgres.
  destruct (persistence.Create db user) as [[db1 u1] [e2|]] eqn:Hc; [discriminate|].
  intros [= <- <- <-]. exists user. repeat split. exact Hc.
Qed.

(** C8, as the code has it.  When create succeeds and the cache holds
    nothing under the new identifier, get-by-id returns the created row from
    the store, and its public view carries the name and the email of the
    input with the surrounding white space trimmed, the age of the input
    and the new identifier.  The view has six members, none for the
    credential, and is the same whatever the hash of the user is.  A create
    that succeeds has a name and an email that are not empty once trimmed, a
    trimmed password of at least 8 bytes and an age from 0 to 150. *)
Theorem create_then_get_by_id `{Bcrypt} `{persistence.Postgres} (ctx : Context)
        (db db' : persistence.DB) (c : cache.RedisCache)
        (cmd : command.CreateUserCommand.t) (u : User) (tasks : list cache.Task) :
  command.CreateUserHandler.Handle ctx db c cmd = (db', Some u, None, tasks) ->
  fst (cache.GetUser c (ID u)) = None ->
  let view := ToPublicUser u in
  query.GetUserHandler.Handle db' (cache.runAll c tasks) {| query.ID := ID u |}
  = (Some u, None, cache.go_SetUser u :: nil)
  /\ fst (handler.GetUser db' (cache.runAll c tasks) (ID u))
     = {| handler.code := handler.StatusOK; handler.body := handler.H_data view |}
  /\ Public.Name view = TrimSpace (command.CreateUserCommand.Name cmd)
  /\ Public.Email view = TrimSpace (command.CreateUserCommand.Email cmd)
  /\ Public.Age view = command.CreateUserCommand.Age cmd
  /\ Public.ID view = persistence.users_id_seq db
  /\ keys (MarshalPublicUser view)
     = "id" :: "name" :: "email" :: "age" :: "created_at" :: "updated_at" :: nil
  /\ (forall hash, ToPublicUser (withPasswordHash u hash) = view)
  /\ TrimSpace (command.CreateUserCommand.Name cmd) <> ""
  /\ TrimSpace (command.CreateUserCommand.Email cmd) <> ""
  /\ 8 <= len (TrimSpace (command.CreateUserCommand.Password cmd))
  /\ 0 <= command.CreateUserCommand.Age cmd <= 150.
Proof.
  intros Hrun Hmiss view.
  apply CreateUser_Handle_ok in Hrun.
  destruct Hrun as (user & _ & Hnew & Hcreate & ->).
  apply NewUser_ok in Hnew.
  destruct Hnew as (_ & Hn & He & Ha & _ & Vn & Ve & Vp & Va).
  apply Create_ok in Hcreate. destruct Hcreate as (Hu & _ & Hget).
  cbn [cache.runAll fold_left].
  assert (Hh : query.GetUserHandler.Handle db' c {| query.ID := ID u |}
               = (Some u, None, cache.go_SetUser u :: nil)).
  { rewrite (GetUser_Handle_miss db' c (ID u) Hmiss).
    unfold fromStore. rewrite Hget. reflexivity. }
  split; [exact Hh|].
  split; [unfold handler.GetUser; rewrite Hh; reflexivity|].
  subst view. rewrite Hu. cbn. rewrite Hn, He, Ha.
  repeat split; assumption || lia || reflexivity.
Qed.

(** C8, against the claim: a name with a blank on either side is
    accepted, stored without the blanks and read back without them. *)
Lemma create_then_get_trims_the_name : ~ create_then_get_returns_the_input.
Proof.
  intros Hclaim.
  pose (cmd := command.CreateUserCommand.mk " Bob " "bob@example.com" "password1" 41).
  assert (Hv : valid cmd).
  { repeat split; try discriminate; unfold len; simpl; lia. }
  destruct (command.CreateUserHandler.Handle sample.ctx sample.empty sample.redis cmd)
    as [[[db' [u|]] e] tasks] eqn:Hrun; [|discriminate Hrun].
  assert (He : e = None) by (vm_compute in Hrun; congruence).
  subst e.
  assert (Hu : u = {| ID := 1; Name := "Bob"; Email := "bob@example.com";
                      PasswordHash := "$2a$10$password1"; Age := 41;
                      CreatedAt := 1000; UpdatedAt := 1000 |})
    by (vm_compute in Hrun; congruence).
  assert (Hdb : db' = {| persistence.users := u :: nil; persistence.users_id_seq := 2 |})
    by (vm_compute in Hrun; rewrite Hu; congruence).
  assert (Hmiss : fst (cache.GetUser sample.redis (ID u)) = None)
    by (rewrite Hu; reflexivity).
  assert (Hget : query.GetUserHandler.Handle db' sample.redis {| query.ID := ID u |}
                 = (Some u, None, cache.go_SetUser u :: nil))
    by (rewrite Hdb, Hu; reflexivity).
  destruct (Hclaim sample.bcrypt sample.postgres sample.ctx sample.empty db'
              sample.redis cmd u u tasks _ Hv Hrun Hmiss Hget) as [Hname _].
  rewrite Hu in Hname. discriminate Hname.
Qed.

Lemma create_then_get_by_id_witness :
  let cmd := command.CreateUserCommand.mk " Bob " "bob@example.com" "password1" 41 in
  exists db' u,
    command.CreateUserHandler.Handle sample.ctx sample.empty sample.redis cmd
    = (db', Some u, None, nil)
    /\ fst (cache.GetUser sample.redis (ID u)) = None
    /\ fst (handler.GetUser db' sample.redis (ID u))
       = {| handler.code := 200;
            handler.body := handler.H_data (mkPublicUser 1 "Bob" "bob@example.com" 41 1000 1000) |}.
Proof.
  intros cmd. eexists. eexists.
  assert (Hrun : command.CreateUserHandler.Handle sample.ctx sample.empty sample.redis cmd
                 = (_, Some _, None, nil)) by reflexivity.
  assert (Hmiss : fst (cache.GetUser sample.redis 1) = None) by reflexivity.
  split; [exact Hrun|]. split; [exact Hmiss|].
  exact (proj1 (proj2 (create_then_get_by_id sample.ctx sample.empty _ sample.redis
                         cmd _ nil Hrun Hmiss))).
Defined.

(* ===================================================================== *)
(** * Two creates with one email                                           *)
(* ===================================================================== *)

Lemma find_some_of {A : Type} (f : A -> bool) (l : list A) (x : A) :
  In x l -> f x = true -> exists y, find f l = Some y.
Proof.
  intros Hin Hx. destruct (find f l) as [y|] eqn:Hf; [exists y; reflexivity|].
  rewrite (find_none f l Hf x Hin) in Hx. discriminate.
Qed.

(** Where the pre-check works: an email that trimming leaves as it is.
    After a create that succeeded, any create with that email is answered
    [ErrUserAlreadyExists], which the HTTP layer turns into 409, and the
    store is left as it was. *)
Lemma second_create_conflicts `{Bcrypt} `{persistence.Postgres}
      (ctx ctx' : Context) (db db' : persistence.DB) (c c' : cache.RedisCache)
      (cmd cmd' : command.CreateUserCommand.t) (u : User) (tasks : list cache.Task) :
  command.CreateUserHandler.Handle ctx db c cmd = (db', Some u, None, tasks) ->
  TrimSpace (command.CreateUserCommand.Email cmd) = command.CreateUserCommand.Email cmd ->
  command.CreateUserCommand.Email cmd' = command.CreateUserCommand.Email cmd ->
  command.CreateUserHandler.Handle ctx' db' c' cmd' = (db', None, Some ErrUserAlreadyExists, nil)
  /\ handler.CreateUser ctx' db' c' cmd'
     = (db', {| handler.code := handler.StatusConflict;
                handler.body := handler.H_error "user with this email already exists" |}).
Proof.
  intros Hrun Htrim Hsame.
  apply CreateUser_Handle_ok in Hrun.
  destruct Hrun as (user & _ & Hnew & Hcreate & _).
  apply NewUser_ok in Hnew. destruct Hnew as (_ & _ & He & _).
  apply Create_ok in Hcreate. destruct Hcreate as (Hu & Hrows & _).
  assert (Hfind : exists y, find (persistence.hasEmail (command.CreateUserCommand.Email cmd'))
                              (persistence.users db') = Some y).
  { apply (find_some_of _ _ u).
    - rewrite Hrows. apply in_or_app. right. left. reflexivity.
    - unfold persistence.hasEmail. rewrite Hu. cbn [Email].
      rewrite He, Htrim, Hsame. apply String.eqb_refl. }
  destruct Hfind as [y Hy].
  assert (Hh : command.CreateUserHandler.Handle ctx' db' c' cmd'
               = (db', None, Some ErrUserAlreadyExists, nil)).
  { unfold command.CreateUserHandler.Handle. postgres.
    unfold persistence.GetByEmail. rewrite Hy. reflexivity. }
  split; [exact Hh|]. unfold handler.CreateUser. rewrite Hh. reflexivity.
Qed.

(** C6, on the code.  Two creates with the email [paddedEmail]: the first
    succeeds and stores the trimmed email; the pre-check of the second
    looks the untrimmed email up, finds nothing, and the insert is refused
    by the unique constraint.  The handler passes the store's error on, and
    the HTTP layer answers 500, not 409.  The rows are the ones the first
    create left. *)
Theorem second_create_padded_email_is_not_conflict :
  let cmd := command.CreateUserCommand.mk "Ann" paddedEmail "password1" 30 in
  let ann := {| ID := 1; Name := "Ann"; Email := "ann@example.com";
                PasswordHash := "$2a$10$password1"; Age := 30;
                CreatedAt := 1000; UpdatedAt := 1000 |} in
  let db1 := {| persistence.users := ann :: nil; persistence.users_id_seq := 2 |} in
  let db2 := {| persistence.users := ann :: nil; persistence.users_id_seq := 3 |} in
  command.CreateUserHandler.Handle sample.ctx sample.empty sample.redis cmd
  = (db1, Some ann, None, nil)
  /\ command.CreateUserHandler.Handle sample.ctx db1 sample.redis cmd
     = (db2, None, Some persistence.unique_violation, nil)
  /\ error_eqb persistence.unique_violation ErrUserAlreadyExists = false
  /\ handler.CreateUser sample.ctx db1 sample.redis cmd
     = (db2, {| handler.code := handler.StatusInternalServerError;
                handler.body := handler.H_error "ERROR: (SQLSTATE 23505)" |})
  /\ persistence.users db2 = persistence.users db1.
Proof. repeat split. Qed.

(** The same with an ASCII blank in front of the email. *)
Example second_create_blank_email_is_not_conflict :
  let cmd := command.CreateUserCommand.mk "Ann" " ann@example.com" "password1" 30 in
  exists db1 u db2,
    command.CreateUserHandler.Handle sample.ctx sample.empty sample.redis cmd
    = (db1, Some u, None, nil)
    /\ command.CreateUserHandler.Handle sample.ctx db1 sample.redis cmd
       = (db2, None, Some persistence.unique_violation, nil).
Proof. do 3 eexists. split; reflexivity. Qed.

Lemma second_create_conflicts_witness :
  let cmd := command.CreateUserCommand.mk "Ann" "ann@example.com" "password1" 30 in
  exists db1 u,
    command.CreateUserHandler.Handle sample.ctx sample.empty sample.redis cmd
    = (db1, Some u, None, nil)
    /\ command.CreateUserHandler.Handle sample.ctx db1 sample.redis cmd
       = (db1, None, Some ErrUserAlreadyExists, nil).
Proof.
  intros cmd. do 2 eexists.
  assert (Hrun : command.CreateUserHandler.Handle sample.ctx sample.empty sample.redis cmd
                 = (_, Some _, None, nil)) by reflexivity.
  split; [exact Hrun|].
  exact (proj1 (second_create_conflicts sample.ctx sample.ctx sample.empty _
                  sample.redis sample.redis cmd cmd _ nil Hrun eq_refl eq_refl)).
Defined.

(* ===================================================================== *)
(** * The query parameters of the list endpoint                            *)
(* ===================================================================== *)

Lemma Atoi_non_numeric (s : string) :
  numeric s = false -> Atoi s = (0, Some ErrSyntax).
Proof.
  unfold numeric, Atoi. destruct (signOf s) as [neg body].
  destruct body as [|c r]; [reflexivity|].
  destruct (digits 0 (String c r)); [discriminate|reflexivity].
Qed.

Lemma listUsersQuery_fields (v : handler.Values) :
  let q := handler.listUsersQuery v in
  query.Search q = handler.Query v "search"
  /\ query.AgeMin q = fst (Atoi (handler.Query v "age_min"))
  /\ query.AgeMax q = fst (Atoi (handler.Query v "age_max"))
  /\ query.SortBy q = handler.DefaultQuery v "sort" "id"
  /\ query.Order q = handler.DefaultQuery v "order" "asc"
  /\ query.Page q = fst (Atoi (handler.DefaultQuery v "page" "1"))
  /\ query.Limit q = fst (Atoi (handler.DefaultQuery v "limit" "10")).
Proof.
  unfold handler.listUsersQuery.
  destruct (Atoi (handler.Query v "age_min")), (Atoi (handler.Query v "age_max")),
    (Atoi (handler.DefaultQuery v "page" "1")),
    (Atoi (handler.DefaultQuery v "limit" "10")).
  repeat split.
Qed.

Lemma Query_zero (v : handler.Values) (key : string) :
  missing v key \/ nonNumeric v key -> fst (Atoi (handler.Query v key)) = 0.
Proof.
  unfold handler.Query, missing, nonNumeric. intros [Hm|(s & Hs & Hn)].
  - rewrite Hm. reflexivity.
  - rewrite Hs, (Atoi_non_numeric s Hn). reflexivity.
Qed.

Lemma DefaultQuery_zero (v : handler.Values) (key d : string) :
  nonNumeric v key -> fst (Atoi (handler.DefaultQuery v key d)) = 0.
Proof.
  unfold handler.DefaultQuery, nonNumeric. intros (s & Hs & Hn).
  rewrite Hs, (Atoi_non_numeric s Hn). reflexivity.
Qed.

Lemma DefaultQuery_missing (v : handler.Values) (key d : string) :
  missing v key -> handler.DefaultQuery v key d = d.
Proof. unfold handler.DefaultQuery, missing. intros ->. reflexivity. Qed.

Lemma offset_first_page (q : query.ListUsersQuery) :
  query.Page q = 1 -> persistence.offset q = 0.
Proof. unfold persistence.offset. intros ->. reflexivity. Qed.

Lemma ListUsers_code `{persistence.Postgres} (db : persistence.DB) (v : handler.Values) :
  let q := handler.listUsersQuery v in
  handler.code (handler.ListUsers db v)
  = if ageOutOfRange q || searchRefused q
       || (persistence.offset (query.ListUsersHandler.setDefaults q) <? 0)
    then handler.StatusInternalServerError else handler.StatusOK.
Proof.
  intros q. unfold handler.ListUsers. fold q.
  pose proof (list_Handle_outcome db q) as Hout. cbv zeta in Hout.
  destruct (query.ListUsersHandler.Handle db q) as [[r|] [e|]]; try contradiction.
  - destruct Hout as (_ & _ & -> & -> & Hoff). apply Z.ltb_ge in Hoff.
    rewrite Hoff. reflexivity.
  - destruct Hout as [[_ ->]|[(_ & -> & ->)|(_ & -> & -> & Hoff)]]; try reflexivity.
    apply Z.ltb_lt in Hoff. rewrite Hoff. reflexivity.
Qed.

Lemma ages_in_range (q : query.ListUsersQuery) :
  query.AgeMin q = 0 -> query.AgeMax q = 0 -> ageOutOfRange q = false.
Proof. unfold ageOutOfRange. intros -> ->. reflexivity. Qed.

(** C10, against the claim: with no [page] parameter the handler parses
    the default text "1", so the page read off the request is 1, not 0. *)
Lemma missing_page_parses_as_one : ~ missing_or_non_numeric_parses_as_zero.
Proof.
  intros Hclaim. destruct (Hclaim nil) as (_ & _ & Hpage & _).
  specialize (Hpage (or_introl eq_refl)). discriminate Hpage.
Qed.

(** C10, as the code has it.  An age bound that is missing or not
    numeric is read as 0 and puts no age condition into the statement.  A
    page or limit that is present and not numeric is read as 0; a missing
    one is read from the default text as 1 and 10; either way the handler
    works with page 1 and limit 10.  The error of the parse is dropped, and
    none of these inputs makes the request fail: the request is answered 500
    exactly when an age bound is beyond the range of the store's [INTEGER],
    or the store does not take the search text, or the offset of the
    normalized descriptor is negative; missing or non-numeric age bounds
    are within the range, and a missing or non-numeric page gives the
    offset 0. *)
Theorem list_parameters_are_lenient `{persistence.Postgres}
        (db : persistence.DB) (v : handler.Values) :
  let q := handler.listUsersQuery v in
  let n := query.ListUsersHandler.setDefaults q in
  (missing v "age_min" \/ nonNumeric v "age_min" ->
   query.AgeMin q = 0
   /\ forall i, ~ In (persistence.age_ge i) (persistence.conditions (persistence.buildWhere n)))
  /\ (missing v "age_max" \/ nonNumeric v "age_max" ->
      query.AgeMax q = 0
      /\ forall i, ~ In (persistence.age_le i) (persistence.conditions (persistence.buildWhere n)))
  /\ (nonNumeric v "page" -> query.Page q = 0)
  /\ (missing v "page" -> query.Page q = 1)
  /\ (nonNumeric v "limit" -> query.Limit q = 0)
  /\ (missing v "limit" -> query.Limit q = 10)
  /\ (missing v "page" \/ nonNumeric v "page" -> query.Page n = 1)
  /\ (missing v "limit" \/ nonNumeric v "limit" -> query.Limit n = 10)
  /\ handler.code (handler.ListUsers db v)
     = (if ageOutOfRange q || searchRefused q || (persistence.offset n <? 0)
        then handler.StatusInternalServerError else handler.StatusOK)
  /\ (missing v "age_min" \/ nonNumeric v "age_min" ->
      missing v "age_max" \/ nonNumeric v "age_max" ->
      ageOutOfRange q = false)
  /\ (missing v "page" \/ nonNumeric v "page" -> persistence.offset n = 0)
  /\ (missing v "page" \/ nonNumeric v "page" ->
      ageOutOfRange q = false -> searchRefused q = false ->
      handler.code (handler.ListUsers db v) = handler.StatusOK).
Proof.
  intros q n.
  destruct (listUsersQuery_fields v) as (_ & Hmin & Hmax & _ & _ & Hpage & Hlimit).
  fold q in Hmin, Hmax, Hpage, Hlimit.
  destruct (setDefaults_filters q) as (_ & Hnmin & Hnmax). fold n in Hnmin, Hnmax.
  destruct (buildWhere_shape n) as [Hconds _]. cbv zeta in Hconds.
  assert (Hp0 : nonNumeric v "page" -> query.Page q = 0).
  { intros Hb. rewrite Hpage. apply DefaultQuery_zero. exact Hb. }
  assert (Hp1 : missing v "page" -> query.Page q = 1).
  { intros Hm. rewrite Hpage, (DefaultQuery_missing _ _ _ Hm). reflexivity. }
  assert (Hl0 : nonNumeric v "limit" -> query.Limit q = 0).
  { intros Hb. rewrite Hlimit. apply DefaultQuery_zero. exact Hb. }
  assert (Hl1 : missing v "limit" -> query.Limit q = 10).
  { intros Hm. rewrite Hlimit, (DefaultQuery_missing _ _ _ Hm). reflexivity. }
  assert (Hn1 : missing v "page" \/ nonNumeric v "page" -> query.Page n = 1).
  { intros Hc. unfold n. rewrite setDefaults_Page.
    destruct Hc as [Hm|Hb]; [rewrite (Hp1 Hm)|rewrite (Hp0 Hb)]; reflexivity. }
  assert (Hmin0 : missing v "age_min" \/ nonNumeric v "age_min" -> query.AgeMin q = 0).
  { intros Hc. rewrite Hmin. apply Query_zero. exact Hc. }
  assert (Hmax0 : missing v "age_max" \/ nonNumeric v "age_max" -> query.AgeMax q = 0).
  { intros Hc. rewrite Hmax. apply Query_zero. exact Hc. }
  split.
  { intros Hc. pose proof (Hmin0 Hc) as H0.
    split; [exact H0|]. intros i. rewrite Hconds, Hnmin, Hnmax, H0. cbn.
    unfold present. destruct (negb _), (query.AgeMax q >? 0); cbn; intuition discriminate. }
  split.
  { intros Hc. pose proof (Hmax0 Hc) as H0.
    split; [exact H0|]. intros i. rewrite Hconds, Hnmin, Hnmax, H0. cbn.
    unfold present. destruct (negb _), (query.AgeMin q >? 0); cbn; intuition discriminate. }
  split; [exact Hp0|]. split; [exact Hp1|]. split; [exact Hl0|]. split; [exact Hl1|].
  split; [exact Hn1|].
  split.
  { intros Hc. unfold n. rewrite setDefaults_Limit.
    destruct Hc as [Hm|Hb]; [rewrite (Hl1 Hm)|rewrite (Hl0 Hb)]; reflexivity. }
  split; [apply ListUsers_code|].
  split; [intros Ha Hb; exact (ages_in_range q (Hmin0 Ha) (Hmax0 Hb))|].
  split; [intros Hc; exact (offset_first_page n (Hn1 Hc))|].
  intros Hc Hage Htext. rewrite ListUsers_code. fold q. fold n.
  rewrite Hage, Htext, (offset_first_page n (Hn1 Hc)). reflexivity.
Qed.

Lemma list_parameters_are_lenient_witness :
  let v := ("age_min", "old") :: ("page", "two") :: ("limit", "") :: nil in
  nonNumeric v "age_min" /\ missing v "age_max" /\ nonNumeric v "page"
  /\ nonNumeric v "limit"
  /\ ageOutOfRange (handler.listUsersQuery v) = false
  /\ searchRefused (handler.listUsersQuery v) = false
  /\ handler.code (handler.ListUsers sample.db v) = handler.StatusOK
  /\ handler.ListUsers sample.db v
     = {| handler.code := 200;
          handler.body := handler.H_list (ToPublicUser sample.alice :: ToPublicUser sample.bob :: nil)
                            2 1 10 1 |}.
Proof.
  intros v.
  assert (H1 : nonNumeric v "age_min") by (exists "old"; split; reflexivity).
  assert (H2 : missing v "age_max") by reflexivity.
  assert (H3 : nonNumeric v "page") by (exists "two"; split; reflexivity).
  assert (H4 : nonNumeric v "limit") by (exists ""; split; reflexivity).
  assert (H5 : ageOutOfRange (handler.listUsersQuery v) = false) by reflexivity.
  assert (H6 : searchRefused (handler.listUsersQuery v) = false) by reflexivity.
  split; [exact H1|]. split; [exact H2|]. split; [exact H3|]. split; [exact H4|].
  split; [exact H5|]. split; [exact H6|].
  split; [|reflexivity].
  exact (proj2 (proj2 (proj2 (proj2 (proj2 (proj2 (proj2 (proj2 (proj2 (proj2 (proj2
    (list_parameters_are_lenient sample.db v))))))))))) (or_intror H3) H5 H6).
Defined.

(* ===================================================================== *)
(** * Pages                                                                *)
(* ===================================================================== *)

Lemma length_window {A : Type} (n m : nat) (l : list A) :
  List.length (firstn n (skipn m l)) = Nat.min n (List.length l - m).
Proof. rewrite length_firstn, length_skipn. reflexivity. Qed.

Lemma search_satisfies `{persistence.Postgres} (keyword : string)
      (extra : list persistence.arg) (row : User) :
  persistence.satisfies
    (persistence.arg_string ("%" +:+ keyword +:+ "%") :: extra)
    (persistence.name_or_email_ILIKE 1 :: nil) row
  = keywordMatch keyword row.
Proof. unfold keywordMatch. cbn. apply andb_true_r. Qed.

Lemma Search_outcome `{persistence.Postgres} (db : persistence.DB)
      (keyword : string) (page limit : Z) :
  let offset := wrap (wrap (page - 1) * limit) in
  persistence.Search db keyword page limit
  = if patternRefused keyword
    then (nil, 0, Some persistence.character_not_in_repertoire)
    else if limit <? 0
    then (nil, 0, Some persistence.invalid_row_count_in_limit_clause)
    else if offset <? 0
    then (nil, 0, Some persistence.invalid_row_count_in_result_offset_clause)
    else (firstn (Z.to_nat limit)
            (skipn (Z.to_nat offset)
               (persistence.ORDER_BY "ORDER BY id" (searchArgs keyword limit offset)
                  (found keyword db))),
          Z.of_nat (List.length (found keyword db)), None).
Proof.
  intros offset. unfold persistence.Search, found, searchArgs. fold offset.
  rewrite (filter_ext _ _ (search_satisfies keyword nil)).
  rewrite (filter_ext _ _ (search_satisfies keyword
             (persistence.arg_int limit :: persistence.arg_int offset :: nil))).
  unfold persistence.refusal, patternRefused. cbn [forallb persistence.encodes negb].
  unfold persistence.accepted, persistence.window, persistence.param. simpl.
  rewrite andb_true_r.
  destruct (persistence.valid_text _); [|reflexivity]. cbn [negb].
  destruct (limit <? 0); [reflexivity|].
  destruct (offset <? 0); reflexivity.
Qed.

Lemma FindWithFilters_rows `{persistence.Postgres} (db : persistence.DB)
      (q : query.ListUsersQuery) :
  persistence.FindWithFilters db (query.any_ListUsersQuery q)
  = if ageOutOfRange q then (nil, 0, Some EncodeError)
    else if searchRefused q
    then (nil, 0, Some persistence.character_not_in_repertoire)
    else if query.Limit q <? 0
    then (nil, 0, Some persistence.invalid_row_count_in_limit_clause)
    else if persistence.offset q <? 0
    then (nil, 0, Some persistence.invalid_row_count_in_result_offset_clause)
    else (firstn (Z.to_nat (query.Limit q))
            (skipn (Z.to_nat (persistence.offset q))
               (persistence.ORDER_BY (persistence.orderClause q) (listArgs q)
                  (matching q db))),
          Z.of_nat (List.length (matching q db)), None).
Proof.
  rewrite FindWithFilters_outcome. unfold matching, listArgs.
  rewrite (filter_ext _ _ (satisfies_matches q _)).
  rewrite (filter_ext (persistence.satisfies (persistence.args (persistence.buildWhere q)) _)
             (matches q)).
  - reflexivity.
  - intros row. rewrite <- (satisfies_matches q nil row), app_nil_r. reflexivity.
Qed.

Lemma window_count {A : Type} (limit offset : Z) (ordered rows : list A) :
  0 <= limit -> 0 <= offset -> Permutation ordered rows ->
  Z.of_nat (List.length (firstn (Z.to_nat limit) (skipn (Z.to_nat offset) ordered)))
  = Z.min limit (Z.max 0 (Z.of_nat (List.length rows) - offset)).
Proof.
  intros Hl Ho Hp. rewrite length_window, (Permutation_length Hp). lia.
Qed.

(** X1.  A page of the list handler and of the search handler holds the
    rows that are left of the total after the offset, up to the limit: so
    never more than the limit, which is at most 100, and none once the
    offset has reached the total. *)
Theorem page_holds_its_share `{persistence.Postgres} (db : persistence.DB)
        (lq : query.ListUsersQuery) (sq : query.SearchQuery.SearchUsersQuery) :
  match fst (query.ListUsersHandler.Handle db lq) with
  | Some r =>
      let offset := persistence.offset (query.ListUsersHandler.setDefaults lq) in
      0 <= offset
      /\ Z.of_nat (List.length (query.Result.Users r))
         = Z.min (query.Result.Limit r) (Z.max 0 (query.Result.Total r - offset))
      /\ Z.of_nat (List.length (query.Result.Users r)) <= query.Result.Limit r <= 100
      /\ (query.Result.Total r <= offset -> query.Result.Users r = nil)
  | None => True
  end
  /\ match fst (query.SearchUsersHandler.Handle db sq) with
     | Some r =>
         let n := query.SearchUsersHandler.setDefaults sq in
         let offset := wrap (wrap (query.SearchQuery.Page n - 1) * query.SearchQuery.Limit n) in
         0 <= offset
         /\ Z.of_nat (List.length (query.Result.Users r))
            = Z.min (query.Result.Limit r) (Z.max 0 (query.Result.Total r - offset))
         /\ Z.of_nat (List.length (query.Result.Users r)) <= query.Result.Limit r <= 100
         /\ (query.Result.Total r <= offset -> query.Result.Users r = nil)
     | None => True
     end.
Proof.
  split.
  - unfold query.ListUsersHandler.Handle. postgres.
    set (n := query.ListUsersHandler.setDefaults lq).
    rewrite FindWithFilters_rows.
    pose proof (setDefaults_Limit_range lq) as Hl. fold n in Hl.
    destruct (ageOutOfRange n); [exact I|].
    destruct (searchRefused n); [exact I|].
    destruct (query.Limit n <? 0) eqn:E1; [exact I|].
    destruct (persistence.offset n <? 0) eqn:E2; [exact I|]. zbool.
    cbn [fst query.Result.Users query.Result.Limit query.Result.Total].
    assert (Hcount := window_count (query.Limit n) (persistence.offset n) _ _
                        ltac:(lia) E2
                        (persistence.ORDER_BY_perm (persistence.orderClause n)
                           (listArgs n) (matching n db))).
    split; [exact E2|]. split; [exact Hcount|]. split; [lia|].
    intros Hpast. apply length_zero_iff_nil. lia.
  - unfold query.SearchUsersHandler.Handle. postgres.
    set (n := query.SearchUsersHandler.setDefaults sq).
    rewrite Search_outcome.
    pose proof (search_setDefaults_Limit_range sq) as Hl. fold n in Hl.
    cbv zeta.
    set (off := wrap (wrap (query.SearchQuery.Page n - 1) * query.SearchQuery.Limit n)).
    destruct (patternRefused (query.SearchQuery.Keyword n)); [exact I|].
    destruct (query.SearchQuery.Limit n <? 0) eqn:E1; [exact I|].
    destruct (off <? 0) eqn:E2; [exact I|]. zbool.
    cbn [fst query.Result.Users query.Result.Limit query.Result.Total].
    assert (Hcount := window_count (query.SearchQuery.Limit n) off _ _
                        ltac:(lia) E2
                        (persistence.ORDER_BY_perm "ORDER BY id"
                           (searchArgs (query.SearchQuery.Keyword n)
                              (query.SearchQuery.Limit n) off)
                           (found (query.SearchQuery.Keyword n) db))).
    split; [exact E2|]. split; [exact Hcount|]. split; [lia|].
    intros Hpast. apply length_zero_iff_nil. lia.
Qed.

(* ===================================================================== *)
(** * The text of the statements                                           *)
(* ===================================================================== *)

Lemma sortBy_valid (q : query.ListUsersQuery) :
  In (persistence.sortBy q) persistence.validSortFields.
Proof.
  unfold persistence.sortBy.
  destruct (existsb _ _) eqn:E; [|left; reflexivity].
  apply existsb_exists in E. destruct E as (f & Hin & Heq).
  apply String.eqb_eq in Heq. rewrite Heq. exact Hin.
Qed.

Lemma order_valid (q : query.ListUsersQuery) :
  persistence.order q = "asc" \/ persistence.order q = "desc".
Proof.
  unfold persistence.order.
  destruct (String.eqb (query.Order q) "asc") eqn:Ea.
  { left. apply String.eqb_eq in Ea. exact Ea. }
  destruct (String.eqb (query.Order q) "desc") eqn:Ed.
  { right. apply String.eqb_eq in Ed. exact Ed. }
  left. reflexivity.
Qed.

(** X2.  Whatever the descriptor holds, the WHERE clause of the list
    statement is one of eight fixed texts and the ORDER BY clause one of
    ten: the keyword, the sort field and the order of the request never
    become part of the SQL text.  The keyword travels as an argument. *)
Theorem statement_text_is_fixed (q : query.ListUsersQuery) :
  In (persistence.whereClause (persistence.buildWhere q)) whereClauses
  /\ In (persistence.orderClause q) orderClauses
  /\ (forall s, In (persistence.arg_string s) (persistence.args (persistence.buildWhere q)) ->
      s = "%" +:+ query.Search q +:+ "%").
Proof.
  split; [|split].
  - unfold persistence.whereClause, persistence.buildWhere, persistence.add.
    destruct (negb _), (query.AgeMin q >? 0), (query.AgeMax q >? 0);
      cbn; unfold whereClauses; intuition.
  - unfold persistence.orderClause.
    pose proof (sortBy_valid q) as Hs. pose proof (order_valid q) as Ho.
    unfold persistence.validSortFields in Hs. cbn in Hs.
    destruct Hs as [<-|[<-|[<-|[<-|[<-|[]]]]]]; destruct Ho as [->| ->];
      cbn; unfold orderClauses; intuition.
  - intros s. unfold persistence.buildWhere, persistence.add.
    destruct (negb _), (query.AgeMin q >? 0), (query.AgeMax q >? 0);
      cbn; intuition congruence.
Qed.

(* ===================================================================== *)
(** * The search endpoint                                                  *)
(* ===================================================================== *)

Lemma In_Search `{persistence.Postgres} (db : persistence.DB) (keyword : string)
      (page limit : Z) (u : User) :
  In u (fst (fst (persistence.Search db keyword page limit))) ->
  In u (persistence.users db) /\ keywordMatch keyword u = true.
Proof.
  rewrite Search_outcome. cbv zeta.
  destruct (patternRefused keyword); [intros []|].
  destruct (limit <? 0); [intros []|].
  destruct (_ <? 0); [intros []|].
  cbn [fst]. intros Hin. apply In_window in Hin.
  apply (Permutation_in _ (persistence.ORDER_BY_perm _ _ _)) in Hin.
  apply filter_In in Hin. exact Hin.
Qed.

(** X3.  The search endpoint refuses a missing or empty keyword with 400
    before anything is looked up.  With a keyword it answers 200 or, when
    the store refuses the statement, 500; on 200 every item is
    the public view of a row of the table whose name or email the store
    matches against the keyword between wildcards, the total counts those
    rows, the page is at least 1 and the limit from 1 to 100. *)
Theorem search_endpoint `{persistence.Postgres} (db : persistence.DB)
        (v : handler.Values) :
  let keyword := handler.Query v "q" in
  (keyword = "" ->
   handler.SearchUsers db v
   = {| handler.code := handler.StatusBadRequest;
        handler.body := handler.H_error "search keyword is required" |})
  /\ (keyword <> "" ->
      match handler.SearchUsers db v with
      | {| handler.code := code; handler.body := handler.H_list data total page limit pages |} =>
          code = handler.StatusOK
          /\ (forall p, In p data ->
              exists u, In u (persistence.users db) /\ p = ToPublicUser u
                        /\ keywordMatch keyword u = true)
          /\ total = Z.of_nat (List.length (found keyword db))
          /\ 1 <= page /\ 1 <= limit <= 100
      | {| handler.code := code; handler.body := handler.H_error _ |} =>
          code = handler.StatusInternalServerError
      | _ => False
      end).
Proof.
  intros keyword. unfold handler.SearchUsers. fold keyword. split.
  - intros ->. reflexivity.
  - intros Hk. apply String.eqb_neq in Hk. rewrite Hk.
    destruct (Atoi (handler.DefaultQuery v "page" "1")) as [page e1].
    destruct (Atoi (handler.DefaultQuery v "limit" "10")) as [limit e2].
    set (q := {| query.SearchQuery.Keyword := keyword;
                 query.SearchQuery.Page := page;
                 query.SearchQuery.Limit := limit |}).
    unfold query.SearchUsersHandler.Handle. postgres.
    pose proof (search_setDefaults_Limit_range q) as Hl.
    pose proof (search_setDefaults_Page q) as Hp.
    assert (Hkw : query.SearchQuery.Keyword (query.SearchUsersHandler.setDefaults q)
                  = keyword).
    { unfold query.SearchUsersHandler.setDefaults. cbn. cases. }
    set (n := query.SearchUsersHandler.setDefaults q) in *.
    destruct (persistence.Search db _ _ _) as [[users total] [e|]] eqn:Hs;
      [reflexivity|].
    cbn. split; [reflexivity|]. split; [|split; [|split]].
    + intros p Hin. apply in_map_iff in Hin. destruct Hin as (u & <- & Hu).
      exists u. assert (Hu' : In u (fst (fst (persistence.Search db
                   (query.SearchQuery.Keyword n) (query.SearchQuery.Page n)
                   (query.SearchQuery.Limit n))))) by (rewrite Hs; exact Hu).
      apply In_Search in Hu'. rewrite Hkw in Hu'. intuition.
    + rewrite Search_outcome in Hs. cbv zeta in Hs.
      destruct (patternRefused _); [discriminate|].
      destruct (query.SearchQuery.Limit n <? 0); [discriminate|].
      destruct (_ <? 0); [discriminate|].
      injection Hs as _ <-. rewrite Hkw. reflexivity.
    + rewrite Hp. cases.
    + exact Hl.
Qed.

Lemma search_endpoint_witness :
  let v := ("q", "ALI") :: ("limit", "500") :: nil in
  handler.Query v "q" <> ""
  /\ handler.SearchUsers sample.db v
     = {| handler.code := 200;
          handler.body := handler.H_list (ToPublicUser sample.alice :: nil) 1 1 100 1 |}.
Proof.
  intros v.
  assert (Hk : handler.Query v "q" <> "") by discriminate.
  split; [exact Hk|].
  pose proof (proj2 (search_endpoint sample.db v) Hk) as Hs.
  assert (Hrun : handler.SearchUsers sample.db v
           = {| handler.code := 200;
                handler.body := handler.H_list (ToPublicUser sample.alice :: nil) 1 1 100 1 |})
    by reflexivity.
  rewrite Hrun in Hs. exact Hrun.
Defined.

(* ===================================================================== *)
(** * The table keeps its constraints                                      *)
(* ===================================================================== *)

Lemma In_map_ID (l : list User) (id : Z) :
  In id (map ID l) <-> existsb (persistence.hasID id) l = true.
Proof.
  rewrite in_map_iff, existsb_exists. unfold persistence.hasID.
  split; intros (u & H1 & H2).
  - exists u. split; [exact H2|]. apply Z.eqb_eq. exact H1.
  - exists u. split; [apply Z.eqb_eq; exact H2|exact H1].
Qed.

Lemma In_map_Email (l : list User) (email : string) :
  In email (map Email l) <-> existsb (persistence.hasEmail email) l = true.
Proof.
  rewrite in_map_iff, existsb_exists. unfold persistence.hasEmail.
  split; intros (u & H1 & H2).
  - exists u. split; [exact H2|]. apply String.eqb_eq. exact H1.
  - exists u. split; [apply String.eqb_eq; exact H2|exact H1].
Qed.

Lemma NoDup_snoc {A : Type} (l : list A) (x : A) :
  List.NoDup l -> ~ In x l -> List.NoDup (l ++ x :: nil).
Proof.
  intros Hl Hx. apply (Permutation_NoDup (Permutation_cons_append l x)).
  constructor; assumption.
Qed.

Lemma NoDup_map_filter {A B : Type} (f : A -> B) (p : A -> bool) (l : list A) :
  List.NoDup (map f l) -> List.NoDup (map f (List.filter p l)).
Proof.
  induction l as [|a l IH]; simpl; intros Hnd; [constructor|].
  inversion Hnd as [|? ? Hnotin Hrest]; subst.
  destruct (p a); [|exact (IH Hrest)].
  simpl. constructor; [|exact (IH Hrest)].
  intros Hin. apply Hnotin. apply in_map_iff in Hin.
  destruct Hin as (x & Hx & Hxin). apply filter_In in Hxin.
  apply in_map_iff. exists x. split; [exact Hx|apply Hxin].
Qed.

Lemma map_ID_setRow (user : User) (l : list User) :
  map ID (map (persistence.setRow user) l) = map ID l.
Proof.
  induction l as [|a l IH]; [reflexivity|]. simpl. rewrite IH. f_equal.
  unfold persistence.setRow. destruct (persistence.hasID (ID user) a); reflexivity.
Qed.

Lemma setRow_other (user r : User) :
  persistence.hasID (ID user) r = false -> persistence.setRow user r = r.
Proof. unfold persistence.setRow. intros ->. reflexivity. Qed.

Lemma map_setRow_absent (user : User) (l : list User) :
  ~ In (ID user) (map ID l) -> map (persistence.setRow user) l = l.
Proof.
  induction l as [|a l IH]; [reflexivity|]. simpl. intros Hnot.
  rewrite IH by tauto. f_equal. apply setRow_other.
  unfold persistence.hasID. apply Z.eqb_neq. intros E. apply Hnot. left. exact E.
Qed.

Lemma NoDup_Email_setRow (user : User) (l : list User) :
  List.NoDup (map ID l) -> List.NoDup (map Email l) ->
  existsb (fun r => negb (persistence.hasID (ID user) r)
                    && persistence.hasEmail (Email user) r) l = false ->
  List.NoDup (map Email (map (persistence.setRow user) l)).
Proof.
  induction l as [|a l IH]; simpl; intros Hid Hem Hfree; [constructor|].
  inversion Hid as [|? ? Hida Hidl]; subst.
  inversion Hem as [|? ? Hema Heml]; subst.
  apply orb_false_iff in Hfree. destruct Hfree as [Ha Hl].
  assert (Hfreel : forall r, In r l -> persistence.hasID (ID user) r = false ->
                             Email r <> Email user).
  { intros r Hr Hne E.
    assert (Hc : existsb (fun r => negb (persistence.hasID (ID user) r)
                                  && persistence.hasEmail (Email user) r) l = true).
    { apply existsb_exists. exists r. split; [exact Hr|].
      rewrite Hne. unfold persistence.hasEmail. rewrite E, String.eqb_refl. reflexivity. }
    congruence. }
  unfold persistence.setRow at 1.
  destruct (persistence.hasID (ID user) a) eqn:Hhas.
  - (* the row that is replaced *)
    cbn [Email].
    assert (Habs : ~ In (ID user) (map ID l)).
    { unfold persistence.hasID in Hhas. apply Z.eqb_eq in Hhas. rewrite <- Hhas. exact Hida. }
    rewrite (map_setRow_absent user l Habs).
    constructor; [|exact Heml].
    intros Hin. apply in_map_iff in Hin. destruct Hin as (r & Hr & Hrin).
    apply (Hfreel r Hrin); [|exact Hr].
    unfold persistence.hasID. apply Z.eqb_neq. intros E. apply Habs.
    apply in_map_iff. exists r. split; [exact E|exact Hrin].
  - constructor; [|exact (IH Hidl Heml Hl)].
    intros Hin. apply in_map_iff in Hin. destruct Hin as (r' & Hr' & Hrin').
    apply in_map_iff in Hrin'. destruct Hrin' as (r & <- & Hrin).
    unfold persistence.setRow in Hr'.
    destruct (persistence.hasID (ID user) r) eqn:Hr.
    + cbn [Email] in Hr'. cbn in Ha.
      unfold persistence.hasEmail in Ha. apply String.eqb_neq in Ha. congruence.
    + apply Hema. apply in_map_iff. exists r. split; assumption.
Qed.

Lemma Create_wf (db : persistence.DB) (user : User) :
  wf db -> wf (fst (fst (persistence.Create db user))).
Proof.
  intros (Hid & Hem & Hseq). unfold persistence.Create.
  destruct (existsb (persistence.hasID _) _ || _) eqn:E; cbn [fst].
  - split; [exact Hid|]. split; [exact Hem|].
    cbn. intros u Hu. specialize (Hseq u Hu). lia.
  - apply orb_false_iff in E. destruct E as [E1 E2].
    unfold wf. cbn [persistence.users persistence.users_id_seq].
    rewrite !map_app. cbn [map ID Email].
    split; [|split].
    + apply NoDup_snoc; [exact Hid|]. rewrite In_map_ID. congruence.
    + apply NoDup_snoc; [exact Hem|]. rewrite In_map_Email. congruence.
    + intros u Hu. apply in_app_or in Hu. destruct Hu as [Hu|[<-|[]]].
      * specialize (Hseq u Hu). lia.
      * cbn. lia.
Qed.

Lemma Update_wf (db : persistence.DB) (user : User) :
  wf db -> wf (fst (persistence.Update db user)).
Proof.
  intros (Hid & Hem & Hseq). unfold persistence.Update.
  destruct (negb _); cbn [fst]; [repeat split; assumption|].
  destruct (existsb _ _) eqn:E; cbn [fst]; [repeat split; assumption|].
  unfold wf. cbn [persistence.users persistence.users_id_seq].
  split; [|split].
  - rewrite map_ID_setRow. exact Hid.
  - apply NoDup_Email_setRow; assumption.
  - intros u Hu. apply in_map_iff in Hu. destruct Hu as (r & <- & Hr).
    specialize (Hseq r Hr). unfold persistence.setRow.
    destruct (persistence.hasID (ID user) r); exact Hseq.
Qed.

Lemma Delete_wf (db : persistence.DB) (id : Z) :
  wf db -> wf (fst (persistence.Delete db id)).
Proof.
  intros (Hid & Hem & Hseq). unfold persistence.Delete.
  destruct (negb _); cbn [fst]; [repeat split; assumption|].
  unfold wf. cbn [persistence.users persistence.users_id_seq].
  split; [|split].
  - apply NoDup_map_filter. exact Hid.
  - apply NoDup_map_filter. exact Hem.
  - intros u Hu. apply filter_In in Hu. apply Hseq. apply Hu.
Qed.

(** One command: the constraints of the table hold after it, whatever
    its outcome, and the sequence is not lowered; a create that returns a
    user has given it the value of the sequence and moved the sequence
    on. *)
Lemma handlers_keep_the_constraints `{Bcrypt} `{persistence.Postgres}
      (ctx : Context) (db : persistence.DB) (c : cache.RedisCache) :
  wf db ->
  (forall cmd,
      let db' := fst (fst (fst (command.CreateUserHandler.Handle ctx db c cmd))) in
      wf db' /\ persistence.users_id_seq db <= persistence.users_id_seq db'
      /\ forall u, snd (fst (fst (command.CreateUserHandler.Handle ctx db c cmd))) = Some u ->
                   ID u = persistence.users_id_seq db
                   /\ persistence.users_id_seq db' = persistence.users_id_seq db + 1)
  /\ (forall cmd,
      let db' := fst (fst (fst (command.UpdateUserHandler.Handle ctx db c cmd))) in
      wf db' /\ persistence.users_id_seq db' = persistence.users_id_seq db)
  /\ (forall cmd,
      let db' := fst (fst (command.DeleteUserHandler.Handle db c cmd)) in
      wf db' /\ persistence.users_id_seq db' = persistence.users_id_seq db)
  /\ (forall cmd,
      let db' := fst (fst (command.ChangePasswordHandler.Handle ctx db c cmd)) in
      wf db' /\ persistence.users_id_seq db' = persistence.users_id_seq db).
Proof.
  intros Hwf. split; [|split; [|split]].
  - intros cmd db'. subst db'.
    unfold command.CreateUserHandler.Handle. postgres.
    destruct (persistence.GetByEmail db _) as [[existing|] e0]; cbn [fst snd].
    { split; [exact Hwf|]. split; [lia|discriminate]. }
    destruct (NewUser _ _ _ _ _) as [[user|] [e1|]]; cbn [fst snd];
      try (split; [exact Hwf|]; split; [lia|discriminate]).
    postgres.
    pose proof (Create_wf db user Hwf) as Hc.
    destruct (persistence.Create db user) as [[db1 u1] [e2|]] eqn:Hcreate;
      cbn [fst snd] in *.
    + split; [exact Hc|]. split; [|discriminate].
      unfold persistence.Create in Hcreate.
      destruct (_ || _); injection Hcreate as <- _ _; cbn; lia.
    + split; [exact Hc|].
      pose proof (Create_ok _ _ _ _ Hcreate) as (Hu & Hrows & _).
      unfold persistence.Create in Hcreate.
      destruct (_ || _) eqn:E; [discriminate|]. injection Hcreate as <- _.
      split; [cbn; lia|]. intros u [= <-]. rewrite Hu. cbn [ID].
      split; reflexivity.
  - intros cmd db'. subst db'.
    unfold command.UpdateUserHandler.Handle. postgres.
    destruct (persistence.GetByID db _) as [[user|] [e|]]; cbn [fst];
      try (split; [exact Hwf|reflexivity]).
    match goal with |- context [if ?t then _ else _] => destruct t end;
      cbn [fst]; [split; [exact Hwf|reflexivity]|].
    destruct (domain.Update _ _ _ _ _) as [user1 [e1|]]; cbn [fst];
      [split; [exact Hwf|reflexivity]|].
    postgres. pose proof (Update_wf db user1 Hwf) as Hu.
    assert (Hs : persistence.users_id_seq (fst (persistence.Update db user1))
                 = persistence.users_id_seq db).
    { unfold persistence.Update. destruct (negb _); [reflexivity|].
      destruct (existsb _ _); reflexivity. }
    destruct (persistence.Update db user1) as [db1 [e2|]]; cbn [fst] in *;
      split; assumption.
  - intros cmd db'. subst db'.
    unfold command.DeleteUserHandler.Handle. postgres.
    destruct (persistence.GetByID db _) as [user [e|]]; cbn [fst];
      [split; [exact Hwf|reflexivity]|].
    pose proof (Delete_wf db (command.DeleteUserCommand.ID cmd) Hwf) as Hd.
    assert (Hs : persistence.users_id_seq
                   (fst (persistence.Delete db (command.DeleteUserCommand.ID cmd)))
                 = persistence.users_id_seq db).
    { unfold persistence.Delete. destruct (negb _); reflexivity. }
    destruct (persistence.Delete db _) as [db1 [e2|]]; cbn [fst] in *;
      split; assumption.
  - intros cmd db'. subst db'.
    unfold command.ChangePasswordHandler.Handle. postgres.
    destruct (persistence.GetByID db _) as [[user|] [e|]]; cbn [fst];
      try (split; [exact Hwf|reflexivity]).
    destruct (UpdatePassword _ _ _ _) as [user1 [e1|]]; cbn [fst];
      [split; [exact Hwf|reflexivity]|].
    postgres. pose proof (Update_wf db user1 Hwf) as Hu.
    assert (Hs : persistence.users_id_seq (fst (persistence.Update db user1))
                 = persistence.users_id_seq db).
    { unfold persistence.Update. destruct (negb _); [reflexivity|].
      destruct (existsb _ _); reflexivity. }
    destruct (persistence.Update db user1) as [db1 [e2|]]; cbn [fst] in *;
      split; assumption.
Qed.

Lemma wf_sample : wf sample.db.
Proof.
  split; [|split].
  - repeat constructor; cbn; intuition discriminate.
  - repeat constructor; cbn; intuition discriminate.
  - intros u [<-|[<-|[]]]; cbn; lia.
Qed.

Lemma serve_keeps `{Bcrypt} `{persistence.Postgres} (first : Z) (w : Served)
      (r : Request) :
  let kept (w : Served) :=
    wf (store w) /\ first <= persistence.users_id_seq (store w)
    /\ List.NoDup (handedOut w)
    /\ (forall id, In id (handedOut w) ->
                   first <= id < persistence.users_id_seq (store w)) in
  kept w -> kept (serve w r).
Proof.
  intros kept (Hwf & Hfirst & Hnd & Hrange). subst kept.
  pose proof (handlers_keep_the_constraints) as Hstep.
  destruct r as [ctx cmd|ctx cmd|cmd|ctx cmd|q]; unfold serve.
  - destruct (proj1 (Hstep ctx (store w) (redis w) Hwf) cmd) as (Hwf' & Hseq & Hnew).
    destruct (command.CreateUserHandler.Handle ctx (store w) (redis w) cmd)
      as [[[db' user] e] tasks]; cbn [fst snd store handedOut] in *.
    split; [exact Hwf'|]. split; [lia|].
    destruct user as [u|].
    + destruct (Hnew u eq_refl) as [Hid Hnext]. split.
      * constructor; [|exact Hnd]. intros Hin. specialize (Hrange _ Hin). lia.
      * intros id [<-|Hin]; [lia|]. specialize (Hrange _ Hin). lia.
    + split; [exact Hnd|]. intros id Hin. specialize (Hrange _ Hin). lia.
  - destruct (proj1 (proj2 (Hstep ctx (store w) (redis w) Hwf)) cmd) as (Hwf' & Hseq).
    destruct (command.UpdateUserHandler.Handle ctx (store w) (redis w) cmd)
      as [[[db' user] e] tasks]; cbn [fst snd store handedOut] in *.
    rewrite Hseq. split; [exact Hwf'|]. split; [exact Hfirst|]. split; [exact Hnd|].
    exact Hrange.
  - destruct (proj1 (proj2 (proj2 (Hstep {| now := 0; entropy := 0 |}
                                     (store w) (redis w) Hwf))) cmd) as (Hwf' & Hseq).
    destruct (command.DeleteUserHandler.Handle (store w) (redis w) cmd)
      as [[db' e] tasks]; cbn [fst snd store handedOut] in *.
    rewrite Hseq. split; [exact Hwf'|]. split; [exact Hfirst|]. split; [exact Hnd|].
    exact Hrange.
  - destruct (proj2 (proj2 (proj2 (Hstep ctx (store w) (redis w) Hwf))) cmd)
      as (Hwf' & Hseq).
    destruct (command.ChangePasswordHandler.Handle ctx (store w) (redis w) cmd)
      as [[db' e] tasks]; cbn [fst snd store handedOut] in *.
    rewrite Hseq. split; [exact Hwf'|]. split; [exact Hfirst|]. split; [exact Hnd|].
    exact Hrange.
  - destruct (query.GetUserHandler.Handle (store w) (redis w) q) as [[user e] tasks].
    cbn [store handedOut].
    split; [exact Hwf|]. split; [exact Hfirst|]. split; [exact Hnd|]. exact Hrange.
Qed.

(** X4.  The constraints of the table hold after any sequence of
    creates, updates, deletes, changes of password and reads, whatever
    their outcomes: no two rows share an identifier or an email, and every
    identifier lies below the next value of the sequence, which is never
    lowered.  The identifiers the creates of the sequence have handed out
    are pairwise different and none of them is an identifier the table
    could hold before: an identifier is never handed out twice, also after
    its row is deleted. *)
Theorem commands_keep_the_constraints `{Bcrypt} `{persistence.Postgres}
        (db : persistence.DB) (c : cache.RedisCache) (rs : list Request) :
  wf db ->
  let w := serveAll {| store := db; redis := c; handedOut := nil |} rs in
  wf (store w)
  /\ persistence.users_id_seq db <= persistence.users_id_seq (store w)
  /\ List.NoDup (handedOut w)
  /\ (forall id, In id (handedOut w) ->
                 persistence.users_id_seq db <= id < persistence.users_id_seq (store w)
                 /\ ~ In id (map ID (persistence.users db))).
Proof.
  intros Hwf w.
  assert (Hkept : wf (store w)
                  /\ persistence.users_id_seq db <= persistence.users_id_seq (store w)
                  /\ List.NoDup (handedOut w)
                  /\ (forall id, In id (handedOut w) ->
                                 persistence.users_id_seq db <= id
                                 < persistence.users_id_seq (store w))).
  { subst w. unfold serveAll.
    set (w0 := {| store := db; redis := c; handedOut := nil |}).
    assert (Hstart : wf (store w0)
                 /\ persistence.users_id_seq db <= persistence.users_id_seq (store w0)
                 /\ List.NoDup (handedOut w0)
                 /\ (forall id, In id (handedOut w0) ->
                                persistence.users_id_seq db <= id
                                < persistence.users_id_seq (store w0))).
    { cbn. split; [exact Hwf|]. split; [lia|]. split; [constructor|]. intros id []. }
    clearbody w0. revert w0 Hstart.
    induction rs as [|r rs IH]; intros w0 Hstart; [exact Hstart|].
    cbn [fold_left]. apply IH.
    exact (serve_keeps (persistence.users_id_seq db) w0 r Hstart). }
  destruct Hkept as (Hwf' & Hseq & Hnd & Hrange).
  split; [exact Hwf'|]. split; [exact Hseq|]. split; [exact Hnd|].
  intros id Hin. split; [exact (Hrange id Hin)|].
  intros Hold. apply in_map_iff in Hold. destruct Hold as (u & Hu & Huin).
  destruct Hwf as (_ & _ & Hbelow). specialize (Hbelow u Huin).
  specialize (Hrange id Hin). lia.
Qed.

Lemma commands_keep_the_constraints_witness :
  let carol := command.CreateUserCommand.mk "Carol" "carol@example.com" "password1" 22 in
  let rs := request_create sample.ctx carol
            :: request_delete (command.DeleteUserCommand.mk 3)
            :: request_create sample.ctx carol :: nil in
  let w := serveAll {| store := sample.db; redis := sample.redis; handedOut := nil |} rs in
  wf sample.db /\ handedOut w = 4 :: 3 :: nil /\ wf (store w).
Proof.
  intros carol rs w. split; [exact wf_sample|]. split; [reflexivity|].
  exact (proj1 (commands_keep_the_constraints sample.db sample.redis rs wf_sample)).
Defined.

(** The repository behind the interface, by computation: for goals that
    already speak of the Postgres functions. *)
Ltac pg :=
  cbn [repo.Create repo.GetByID repo.GetByEmail repo.Update repo.Delete
       repo.Search repo.FindWithFilters persistence.PostgresUserRepository] in *.

(* ===================================================================== *)
(** * Delete and update touch one row                                      *)
(* ===================================================================== *)

Lemma find_filter_other (id id' : Z) (l : list User) :
  id' <> id ->
  find (persistence.hasID id') (List.filter (fun r => negb (persistence.hasID id r)) l)
  = find (persistence.hasID id') l.
Proof.
  intros Hne. induction l as [|a l IH]; [reflexivity|]. simpl.
  destruct (persistence.hasID id a) eqn:E1, (persistence.hasID id' a) eqn:E2;
    simpl; rewrite ?E2; try reflexivity; try exact IH.
  unfold persistence.hasID in E1, E2. apply Z.eqb_eq in E1, E2. congruence.
Qed.

Lemma find_map_setRow_other (user : User) (id' : Z) (l : list User) :
  id' <> ID user ->
  find (persistence.hasID id') (map (persistence.setRow user) l)
  = find (persistence.hasID id') l.
Proof.
  intros Hne. rewrite find_map_setRow.
  destruct (find (persistence.hasID id') l) as [r|] eqn:Hf; [|reflexivity].
  cbn. apply find_some in Hf. destruct Hf as [_ Hr].
  unfold persistence.hasID in Hr. apply Z.eqb_eq in Hr.
  rewrite setRow_other; [reflexivity|].
  unfold persistence.hasID. apply Z.eqb_neq. congruence.
Qed.

(** X5.  Delete, with the answer of its endpoint.  For an identifier no
    row carries the handler answers [ErrUserNotFound], the endpoint 404,
    and everything is as it was, nothing being detached.  For an identifier
    a row carries the handler succeeds and the endpoint answers 200:
    afterwards that identifier is not found, every other identifier is
    found exactly as before, and the one cache operation detached is the
    deletion of its entry. *)
Theorem delete_removes_one_user `{persistence.Postgres} (db : persistence.DB)
        (c : cache.RedisCache) (id : Z) (idStr : string) :
  ParseInt64 idStr = (id, None) ->
  let run := command.DeleteUserHandler.Handle db c
               {| command.DeleteUserCommand.ID := id |} in
  let http := handler.DeleteUser db c idStr in
  match persistence.GetByID db id with
  | (None, _) =>
      run = (db, Some ErrUserNotFound, nil)
      /\ http = (db, {| handler.code := 404;
                        handler.body := handler.H_error "user not found" |}, nil)
  | (Some _, _) =>
      exists db',
        run = (db', None, cache.go_DeleteUser id :: nil)
        /\ http = (db', {| handler.code := 200;
                           handler.body := handler.H_message "user deleted successfully" |},
                   cache.go_DeleteUser id :: nil)
        /\ persistence.GetByID db' id = (None, Some ErrUserNotFound)
        /\ (forall id', id' <> id ->
            persistence.GetByID db' id' = persistence.GetByID db id')
        /\ (forall u, In u (persistence.users db') <->
                      In u (persistence.users db) /\ ID u <> id)
  end.
Proof.
  intros Hparse run http. subst run http.
  unfold handler.DeleteUser. rewrite Hparse.
  unfold command.DeleteUserHandler.Handle. pg. cbn [command.DeleteUserCommand.ID].
  destruct (GetByID_answers db id) as [(user & Hget & _)|Hnone].
  - rewrite Hget.
    assert (Hex : existsb (persistence.hasID id) (persistence.users db) = true).
    { unfold persistence.GetByID in Hget.
      destruct (find _ _) as [r|] eqn:Hf; [|discriminate].
      apply find_some in Hf. apply existsb_exists. exists r. exact Hf. }
    assert (Hdel : persistence.Delete db id
                   = ({| persistence.users :=
                           List.filter (fun r => negb (persistence.hasID id r))
                                       (persistence.users db);
                         persistence.users_id_seq := persistence.users_id_seq db |},
                      None)).
    { unfold persistence.Delete. rewrite Hex. reflexivity. }
    rewrite Hdel. eexists. split; [reflexivity|]. split; [reflexivity|].
    split; [|split].
    + exact (GetByID_Delete db _ id Hdel).
    + intros id' Hne. unfold persistence.GetByID. cbn [persistence.users].
      rewrite find_filter_other by exact Hne. reflexivity.
    + intros u. cbn [persistence.users]. rewrite filter_In.
      unfold persistence.hasID. rewrite negb_true_iff, Z.eqb_neq. reflexivity.
  - rewrite Hnone. split; reflexivity.
Qed.

Lemma delete_removes_one_user_witness :
  ParseInt64 "2" = (2, None)
  /\ exists db',
      handler.DeleteUser sample.db sample.redis "2"
      = (db', {| handler.code := 200;
                 handler.body := handler.H_message "user deleted successfully" |},
         cache.go_DeleteUser 2 :: nil)
      /\ persistence.GetByID db' 2 = (None, Some ErrUserNotFound)
      /\ persistence.GetByID db' 1 = (Some sample.alice, None).
Proof.
  assert (Hparse : ParseInt64 "2" = (2, None)) by reflexivity.
  split; [exact Hparse|].
  destruct (delete_removes_one_user sample.db sample.redis 2 "2" Hparse)
    as (db' & _ & Hhttp & Hgone & Hothers & _).
  exists db'. split; [exact Hhttp|]. split; [exact Hgone|].
  rewrite Hothers by discriminate. reflexivity.
Defined.

(** The row that carries an identifier, in a table without repeated
    identifiers. *)
Lemma wf_same_ID (db : persistence.DB) (u v : User) :
  wf db -> In u (persistence.users db) -> In v (persistence.users db) ->
  ID u = ID v -> u = v.
Proof.
  intros (Hid & _ & _). revert Hid. generalize (persistence.users db) as l.
  induction l as [|a l IH]; [intros _ []|].
  simpl. intros Hnd Hu Hv E. inversion Hnd as [|? ? Hnot Hrest]; subst.
  destruct Hu as [<-|Hu], Hv as [<-|Hv]; try reflexivity.
  - exfalso. apply Hnot. rewrite E. apply in_map. exact Hv.
  - exfalso. apply Hnot. rewrite <- E. apply in_map. exact Hu.
  - exact (IH Hrest Hu Hv E).
Qed.

Lemma wf_same_Email (db : persistence.DB) (u v : User) :
  wf db -> In u (persistence.users db) -> In v (persistence.users db) ->
  Email u = Email v -> u = v.
Proof.
  intros (_ & Hem & _). revert Hem. generalize (persistence.users db) as l.
  induction l as [|a l IH]; [intros _ []|].
  simpl. intros Hnd Hu Hv E. inversion Hnd as [|? ? Hnot Hrest]; subst.
  destruct Hu as [<-|Hu], Hv as [<-|Hv]; try reflexivity.
  - exfalso. apply Hnot. rewrite E. apply in_map. exact Hv.
  - exfalso. apply Hnot. rewrite <- E. apply in_map. exact Hu.
  - exact (IH Hrest Hu Hv E).
Qed.




(* ===================================================================== *)
(** * The outcomes of create                                               *)
(* ===================================================================== *)





(* ===================================================================== *)
(** * Which password the stored hash is of                                 *)
(* ===================================================================== *)

(** X8.  With a hashing capability that verifies what it generated: the
    user create stores verifies the password of the command with the
    surrounding white space trimmed; the user a change of password leaves
    in the store verifies the new password exactly as given, carries the
    new modification time, and is otherwise the user whose old password was
    verified. *)
Theorem stored_hash_is_of_the_password `{Bcrypt} `{persistence.Postgres}
        (ctx : Context) (db db' : persistence.DB) (c : cache.RedisCache) :
  verifies ->
  (forall cmd u tasks,
      command.CreateUserHandler.Handle ctx db c cmd = (db', Some u, None, tasks) ->
      persistence.GetByID db' (ID u) = (Some u, None)
      /\ ComparePassword u (TrimSpace (command.CreateUserCommand.Password cmd)) = None)
  /\ (forall cmd tasks,
      command.ChangePasswordHandler.Handle ctx db c cmd = (db', None, tasks) ->
      exists old new,
        persistence.GetByID db (command.ChangePasswordCommand.UserID cmd) = (Some old, None)
        /\ persistence.GetByID db' (command.ChangePasswordCommand.UserID cmd)
           = (Some new, None)
        /\ ComparePassword old (command.ChangePasswordCommand.OldPassword cmd) = None
        /\ ComparePassword new (command.ChangePasswordCommand.NewPassword cmd) = None
        /\ 8 <= len (command.ChangePasswordCommand.NewPassword cmd)
        /\ new = {| ID := ID old; Name := Name old; Email := Email old;
                    PasswordHash := PasswordHash new; Age := Age old;
                    CreatedAt := CreatedAt old; UpdatedAt := now ctx |}).
Proof.
  intros Hv. split.
  - intros cmd u tasks Hrun.
    apply CreateUser_Handle_ok in Hrun.
    destruct Hrun as (user & _ & Hnew & Hcreate & _).
    apply NewUser_ok in Hnew. destruct Hnew as (_ & _ & _ & _ & Hgen & _).
    apply Create_ok in Hcreate. destruct Hcreate as (Hu & _ & Hget).
    split; [exact Hget|]. unfold ComparePassword. rewrite Hu. cbn [PasswordHash].
    exact (Hv _ _ _ Hgen).
  - intros cmd tasks. unfold command.ChangePasswordHandler.Handle. pg.
    destruct (GetByID_answers db (command.ChangePasswordCommand.UserID cmd))
      as [(old & Hget & Hid)|Hnone]; [|rewrite Hnone; discriminate].
    rewrite Hget. unfold UpdatePassword.
    destruct (ComparePassword old _) eqn:Hold; [discriminate|].
    destruct (String.eqb _ ""); [discriminate|].
    destruct (len _ <? 8) eqn:Hlen; [discriminate|].
    destruct (GenerateFromPassword _ _ _) as [hash|] eqn:Hgen; [|discriminate].
    pg.
    destruct (persistence.Update db _) as [db1 [e1|]] eqn:Hupd; [discriminate|].
    intros [= <- _].
    apply GetByID_Update in Hupd.
    cbn [ID Name Email Age PasswordHash UpdatedAt] in Hupd.
    destruct Hupd as (r & Hr & Hnew). rewrite Hid in Hr, Hnew.
    rewrite Hget in Hr. injection Hr as <-.
    eexists. eexists. split; [reflexivity|]. split; [exact Hnew|].
    split; [exact Hold|].
    split; [unfold ComparePassword; cbn [PasswordHash]; exact (Hv _ _ _ Hgen)|].
    split; [zbool; lia|]. cbn [PasswordHash]. rewrite Hid. reflexivity.
Qed.

Lemma verifies_sample : verifies (H := sample.bcrypt).
Proof.
  intros e p h. cbn. intros [= <-]. rewrite String.eqb_refl. reflexivity.
Qed.

Lemma stored_hash_is_of_the_password_witness :
  let cmd := command.CreateUserCommand.mk "Carol" "carol@example.com" "  password1  " 22 in
  verifies (H := sample.bcrypt)
  /\ exists db' u,
      command.CreateUserHandler.Handle sample.ctx sample.db sample.redis cmd
      = (db', Some u, None, nil)
      /\ ComparePassword u "password1" = None
      /\ ComparePassword u "  password1  " <> None.
Proof.
  intros cmd. split; [exact verifies_sample|]. do 2 eexists.
  assert (Hrun : command.CreateUserHandler.Handle sample.ctx sample.db sample.redis cmd
                 = (_, Some _, None, nil)) by reflexivity.
  split; [exact Hrun|]. split; [|discriminate].
  exact (proj2 (proj1 (stored_hash_is_of_the_password sample.ctx sample.db _ sample.redis
                         verifies_sample) cmd _ nil Hrun)).
Defined.

(* ===================================================================== *)
(** * The cache                                                            *)
(* ===================================================================== *)

(** X9.  The entries of the cache are per user: storing or deleting the
    entry of one identifier leaves the lookup of every other identifier as
    it was. *)
Theorem cache_entries_are_per_user (c : cache.RedisCache) (u : User) (id id' : Z) :
  id' <> id -> ID u = id ->
  cache.GetUser (fst (cache.SetUser c u)) id' = cache.GetUser c id'
  /\ cache.GetUser (fst (cache.DeleteUser c id)) id' = cache.GetUser c id'
  /\ cache.GetUser (cache.runAll c (cache.go_DeleteUser id :: cache.go_SetUser u :: nil)) id'
     = cache.GetUser c id'.
Proof.
  intros Hne Hid.
  assert (Hk : cache.key id <> cache.key id').
  { intros E. apply Hne. symmetry. exact (key_inj _ _ E). }
  assert (Hset : forall c0, cache.GetUser (fst (cache.SetUser c0 u)) id' = cache.GetUser c0 id').
  { intros c0. unfold cache.SetUser, cache.GetUser.
    destruct c0 as [es [|]]; cbn; [|reflexivity].
    rewrite Hid, lookup_insert_ne by exact Hk. reflexivity. }
  assert (Hdel : forall c0, cache.GetUser (fst (cache.DeleteUser c0 id)) id' = cache.GetUser c0 id').
  { intros c0. unfold cache.DeleteUser, cache.GetUser.
    destruct c0 as [es [|]]; cbn; [|reflexivity].
    rewrite lookup_delete_ne by exact Hk. reflexivity. }
  split; [apply Hset|]. split; [apply Hdel|].
  cbn. rewrite Hset, Hdel. reflexivity.
Qed.

Lemma cache_entries_are_per_user_witness :
  2 <> 1 /\ ID sample.alice = 1
  /\ cache.GetUser (fst (cache.SetUser sample.redis sample.alice)) 2
     = cache.GetUser sample.redis 2.
Proof.
  assert (H1 : 2 <> 1) by lia.
  assert (H2 : ID sample.alice = 1) by reflexivity.
  split; [exact H1|]. split; [exact H2|].
  exact (proj1 (cache_entries_are_per_user sample.redis sample.alice 1 2 H1 H2)).
Defined.

Lemma setMember_hash (u u' : User) (m : string * JValue) :
  setMember u m = Some u' -> PasswordHash u' = PasswordHash u.
Proof.
  destruct m as [k v]. unfold setMember.
  repeat match goal with
         | |- context [if ?t then _ else _] => destruct t
         end;
    try (destruct v; intros [= <-]; reflexivity);
    intros [= <-]; reflexivity.
Qed.

Lemma setMembers_hash (doc : JObject) (u u' : User) :
  setMembers u doc = Some u' -> PasswordHash u' = PasswordHash u.
Proof.
  revert u. induction doc as [|m doc IH]; intros u; simpl.
  - intros [= <-]. reflexivity.
  - destruct (setMember u m) as [u1|] eqn:Hm; [|discriminate].
    intros Hrest. rewrite (IH _ Hrest). exact (setMember_hash _ _ _ Hm).
Qed.

(** X10.  Whatever document the cache holds, a user read from it has the
    empty string for a password hash; so the get-by-id handler returns a
    user with a hash only when it has read the store, which is when it
    detaches a [SetUser]. *)
Theorem cached_user_has_no_hash `{persistence.Postgres} (db : persistence.DB)
        (c : cache.RedisCache) (id : Z) (u : User) :
  (forall doc e, UnmarshalUser doc = (Some u, e) -> PasswordHash u = "")
  /\ (forall e, cache.GetUser c id = (Some u, e) -> PasswordHash u = "")
  /\ (forall e tasks,
      query.GetUserHandler.Handle db c {| query.ID := id |} = (Some u, e, tasks) ->
      PasswordHash u <> "" ->
      tasks = cache.go_SetUser u :: nil
      /\ persistence.GetByID db id = (Some u, None)).
Proof.
  assert (Hdoc : forall doc e, UnmarshalUser doc = (Some u, e) -> PasswordHash u = "").
  { intros doc e. unfold UnmarshalUser.
    destruct (setMembers zeroUser doc) as [u'|] eqn:Hs; [|discriminate].
    intros [= <- _]. exact (setMembers_hash _ _ _ Hs). }
  assert (Hget : forall e, cache.GetUser c id = (Some u, e) -> PasswordHash u = "").
  { intros e. unfold cache.GetUser.
    destruct (negb _); [discriminate|].
    destruct (cache.entries c !! cache.key id) as [doc|]; [|discriminate].
    apply Hdoc. }
  split; [exact Hdoc|]. split; [exact Hget|].
  intros e tasks. unfold query.GetUserHandler.Handle. cbn [query.ID]. pg.
  destruct (cache.GetUser c id) as [[cu|] ce] eqn:Hc.
  - intros [= -> <- <-] Hhash. exfalso. apply Hhash. exact (Hget _ eq_refl).
  - destruct (GetByID_answers db id) as [(r & Hr & _)|Hnone].
    + rewrite Hr. intros [= -> <- <-] _. split; reflexivity.
    + rewrite Hnone. discriminate.
Qed.

Lemma cached_user_has_no_hash_witness :
  PasswordHash sample.bob <> ""
  /\ query.GetUserHandler.Handle sample.db sample.redis {| query.ID := 2 |}
     = (Some sample.bob, None, cache.go_SetUser sample.bob :: nil)
  /\ persistence.GetByID sample.db 2 = (Some sample.bob, None).
Proof.
  assert (H1 : PasswordHash sample.bob <> "") by discriminate.
  assert (H2 : query.GetUserHandler.Handle sample.db sample.redis {| query.ID := 2 |}
               = (Some sample.bob, None, cache.go_SetUser sample.bob :: nil))
    by reflexivity.
  split; [exact H1|]. split; [exact H2|].
  exact (proj2 (proj2 (proj2 (cached_user_has_no_hash sample.db sample.redis 2
                                sample.bob)) _ _ H2 H1)).
Defined.

(** X11.  The read path of get-by-id: with the cache answering and
    holding nothing under the identifier, the handler returns the row of
    the store and detaches its [SetUser]; once that has run, the same
    request is a hit, which returns the row without its hash, detaches
    nothing, shows the same public view, and is the same whatever the store
    holds by then. *)
Theorem miss_then_hit `{persistence.Postgres} (db : persistence.DB)
        (c : cache.RedisCache) (id : Z) (u : User) :
  cache.reachable c = true ->
  cache.entries c !! cache.key id = None ->
  persistence.GetByID db id = (Some u, None) ->
  let c' := cache.runAll c (cache.go_SetUser u :: nil) in
  query.GetUserHandler.Handle db c {| query.ID := id |}
  = (Some u, None, cache.go_SetUser u :: nil)
  /\ (forall db2,
      query.GetUserHandler.Handle db2 c' {| query.ID := id |}
      = (Some (withPasswordHash u ""), None, nil))
  /\ ToPublicUser (withPasswordHash u "") = ToPublicUser u.
Proof.
  intros Hup Hmiss Hget c'.
  pose proof (GetByID_found _ _ _ _ Hget) as [Hid _].
  split; [|split; [|reflexivity]].
  - rewrite GetUser_Handle_miss.
    + unfold fromStore. rewrite Hget. reflexivity.
    + unfold cache.GetUser. rewrite Hup, Hmiss. reflexivity.
  - intros db2. subst c'. cbn [cache.runAll fold_left cache.run].
    unfold query.GetUserHandler.Handle. cbn [query.ID].
    rewrite <- Hid. rewrite (proj2 (GetUser_SetUser c u Hup)). reflexivity.
Qed.

Lemma miss_then_hit_witness :
  cache.reachable sample.redis = true
  /\ cache.entries sample.redis !! cache.key 1 = None
  /\ persistence.GetByID sample.db 1 = (Some sample.alice, None)
  /\ query.GetUserHandler.Handle sample.empty
       (cache.runAll sample.redis (cache.go_SetUser sample.alice :: nil))
       {| query.ID := 1 |}
     = (Some (withPasswordHash sample.alice ""), None, nil).
Proof.
  assert (H1 : cache.reachable sample.redis = true) by reflexivity.
  assert (H2 : cache.entries sample.redis !! cache.key 1 = None) by reflexivity.
  assert (H3 : persistence.GetByID sample.db 1 = (Some sample.alice, None)) by reflexivity.
  split; [exact H1|]. split; [exact H2|]. split; [exact H3|].
  exact (proj1 (proj2 (miss_then_hit sample.db sample.redis 1 sample.alice H1 H2 H3))
           sample.empty).
Defined.

(** X12.  A cache that does not answer is a miss: whether it is down or
    holds nothing under the identifier, the handler answers what the
    handler of the revision without a cache answers.  When it is down the
    detached [SetUser] changes nothing.  After [Clear] on a cache that
    answers, every lookup is a miss. *)
Theorem cache_failure_is_a_miss `{persistence.Postgres} (db : persistence.DB)
        (c : cache.RedisCache) (id : Z) :
  cache.reachable c = false \/ cache.entries c !! cache.key id = None ->
  fst (query.GetUserHandler.Handle db c {| query.ID := id |})
  = query.GetUserHandler0.Handle db {| query.ID := id |}
  /\ (cache.reachable c = false ->
      cache.runAll c (snd (query.GetUserHandler.Handle db c {| query.ID := id |})) = c
      /\ cache.Ping c = Some RedisError)
  /\ (cache.reachable c = true ->
      forall id', cache.GetUser (fst (cache.Clear c)) id' = (None, None)).
Proof.
  intros Hc.
  assert (Hmiss : fst (cache.GetUser c id) = None).
  { unfold cache.GetUser. destruct Hc as [Hdown|Hnone].
    - rewrite Hdown. reflexivity.
    - destruct (negb _); [reflexivity|]. rewrite Hnone. reflexivity. }
  rewrite (GetUser_Handle_miss db c id Hmiss).
  unfold fromStore, query.GetUserHandler0.Handle. cbn [query.ID]. pg.
  split; [|split].
  - destruct (GetByID_answers db id) as [(r & -> & _)| ->]; reflexivity.
  - intros Hdown. split.
    + destruct (persistence.GetByID db id) as [[r|] [e|]]; cbn; try reflexivity.
      unfold cache.SetUser. rewrite Hdown. reflexivity.
    + unfold cache.Ping. rewrite Hdown. reflexivity.
  - intros Hup id'. unfold cache.Clear, cache.GetUser. rewrite Hup. cbn.
    rewrite lookup_empty. reflexivity.
Qed.

Lemma cache_failure_is_a_miss_witness :
  let down := {| cache.entries := cache.entries
                   (cache.runAll sample.redis (cache.go_SetUser sample.bob :: nil));
                 cache.reachable := false |} in
  cache.reachable down = false
  /\ fst (query.GetUserHandler.Handle sample.db down {| query.ID := 2 |})
     = (Some sample.bob, None).
Proof.
  intros down.
  assert (H1 : cache.reachable down = false) by reflexivity.
  split; [exact H1|].
  rewrite (proj1 (cache_failure_is_a_miss sample.db down 2 (or_introl H1))).
  reflexivity.
Defined.

(** X13.  Between a delete and the run of the invalidation it detached,
    the cache still serves the deleted user: with the user cached, get-by-id
    answers 200 and the cached view although the store no longer has the
    row; once the detached deletion has run it answers 404. *)
Theorem deleted_user_is_served_until_invalidation `{persistence.Postgres}
        (db db' : persistence.DB) (c : cache.RedisCache) (u : User)
        (tasks : list cache.Task) :
  cache.reachable c = true ->
  cache.entries c !! cache.key (ID u) = Some (MarshalUser u) ->
  command.DeleteUserHandler.Handle db c {| command.DeleteUserCommand.ID := ID u |}
  = (db', None, tasks) ->
  persistence.GetByID db' (ID u) = (None, Some ErrUserNotFound)
  /\ fst (handler.GetUser db' c (ID u))
     = {| handler.code := handler.StatusOK;
          handler.body := handler.H_data (ToPublicUser u) |}
  /\ handler.GetUser db' (cache.runAll c tasks) (ID u)
     = ({| handler.code := handler.StatusNotFound;
           handler.body := handler.H_error "user not found" |}, nil).
Proof.
  intros Hup Hcached Hrun.
  unfold command.DeleteUserHandler.Handle in Hrun.
  cbn [command.DeleteUserCommand.ID] in Hrun. pg.
  destruct (persistence.GetByID db (ID u)) as [r [e|]]; [discriminate|].
  destruct (persistence.Delete db (ID u)) as [db1 [e|]] eqn:Hdel; [discriminate|].
  injection Hrun as -> <-.
  pose proof (GetByID_Delete _ _ _ Hdel) as Hgone.
  split; [exact Hgone|]. split.
  - unfold handler.GetUser, query.GetUserHandler.Handle. cbn [query.ID].
    unfold cache.GetUser. rewrite Hup, Hcached. cbn [negb].
    rewrite Unmarshal_Marshal. reflexivity.
  - unfold handler.GetUser. cbn [cache.runAll fold_left].
    rewrite GetUser_Handle_miss.
    2:{ unfold cache.run, cache.DeleteUser, cache.GetUser. rewrite Hup. cbn.
        rewrite lookup_delete_eq. reflexivity. }
    unfold fromStore. rewrite Hgone. reflexivity.
Qed.

Lemma deleted_user_is_served_until_invalidation_witness :
  let c := cache.runAll sample.redis (cache.go_SetUser sample.alice :: nil) in
  let out := command.DeleteUserHandler.Handle sample.db c
               {| command.DeleteUserCommand.ID := 1 |} in
  cache.reachable c = true
  /\ cache.entries c !! cache.key (ID sample.alice) = Some (MarshalUser sample.alice)
  /\ snd (fst out) = None
  /\ fst (handler.GetUser (fst (fst out)) c 1)
     = {| handler.code := 200;
          handler.body := handler.H_data (ToPublicUser sample.alice) |}.
Proof.
  intros c out.
  assert (H1 : cache.reachable c = true) by reflexivity.
  assert (H2 : cache.entries c !! cache.key (ID sample.alice)
               = Some (MarshalUser sample.alice)) by reflexivity.
  assert (H3 : command.DeleteUserHandler.Handle sample.db c
                 {| command.DeleteUserCommand.ID := ID sample.alice |}
               = (fst (fst out), None, snd out)) by reflexivity.
  split; [exact H1|]. split; [exact H2|]. split; [reflexivity|].
  exact (proj1 (proj2 (deleted_user_is_served_until_invalidation
                         sample.db _ c sample.alice _ H1 H2 H3))).
Defined.

(* ===================================================================== *)
(** * The outcomes of a change of password                                 *)
(* ===================================================================== *)




(* ===================================================================== *)
(** * The path parameter                                                   *)
(* ===================================================================== *)

(** X15.  A path parameter that is not a decimal number of 64 bits is
    refused by the four endpoints that take one, with 400 and the message
    "invalid user id", before anything is looked up: the store is as it
    was and no cache operation is detached.  That is so for every string
    that is not an optional sign followed by digits. *)
Theorem invalid_path_id_is_rejected `{Bcrypt} `{persistence.Postgres} (ctx : Context)
        (db : persistence.DB) (c : cache.RedisCache) (idStr : string)
        (ucmd : command.UpdateUserCommand.t) (pcmd : command.ChangePasswordCommand.t) :
  numeric idStr = false \/ snd (ParseInt64 idStr) <> None ->
  let refused := {| handler.code := 400;
                    handler.body := handler.H_error "invalid user id" |} in
  handler.GetUserParam db c idStr = (refused, nil)
  /\ handler.UpdateUser ctx db c idStr ucmd = (db, refused, nil)
  /\ handler.DeleteUser db c idStr = (db, refused, nil)
  /\ handler.ChangePassword ctx db c idStr pcmd = (db, refused, nil).
Proof.
  intros Hbad refused.
  assert (Herr : exists v e, ParseInt64 idStr = (v, Some e)).
  { destruct Hbad as [Hnum|Herr].
    - exists 0, ErrSyntax. unfold ParseInt64. apply Atoi_non_numeric. exact Hnum.
    - destruct (ParseInt64 idStr) as [v [e|]]; [eauto|]. exfalso. apply Herr. reflexivity. }
  destruct Herr as (v & e & Hparse).
  unfold handler.GetUserParam, handler.UpdateUser, handler.DeleteUser,
    handler.ChangePassword.
  rewrite Hparse. repeat split.
Qed.

Lemma invalid_path_id_is_rejected_witness :
  numeric "1.5" = false
  /\ handler.DeleteUser sample.db sample.redis "1.5"
     = (sample.db, {| handler.code := 400;
                      handler.body := handler.H_error "invalid user id" |}, nil)
  /\ snd (ParseInt64 "9223372036854775808") <> None
  /\ handler.GetUserParam sample.db sample.redis "9223372036854775808"
     = ({| handler.code := 400;
           handler.body := handler.H_error "invalid user id" |}, nil).
Proof.
  assert (H1 : numeric "1.5" = false) by reflexivity.
  assert (H2 : snd (ParseInt64 "9223372036854775808") <> None) by discriminate.
  split; [exact H1|]. split.
  - exact (proj1 (proj2 (proj2
      (invalid_path_id_is_rejected sample.ctx sample.db sample.redis "1.5"
         (command.UpdateUserCommand.mk 0 "" "" 0)
         (command.ChangePasswordCommand.mk 0 "" "") (or_introl H1))))).
  - split; [exact H2|].
    exact (proj1
      (invalid_path_id_is_rejected sample.ctx sample.db sample.redis
         "9223372036854775808"
         (command.UpdateUserCommand.mk 0 "" "" 0)
         (command.ChangePasswordCommand.mk 0 "" "") (or_intror H2))).
Defined.

(* ===================================================================== *)
(** * The endpoint of get-by-id                                            *)
(* ===================================================================== *)

(** X16.  What the endpoint of get-by-id answers for a path parameter
    that parses: the view of the cached user when the cache holds a
    document that decodes, without a look at the store; otherwise the view
    of the row of the store, with the [SetUser] detached, or 404 when no
    row carries the identifier.  It never answers 500, and a document that
    does not decode is passed over like a miss. *)
Theorem get_endpoint `{persistence.Postgres} (db : persistence.DB)
        (c : cache.RedisCache) (id : Z) (idStr : string) :
  ParseInt64 idStr = (id, None) ->
  let http := handler.GetUserParam db c idStr in
  handler.code (fst http) <> 500
  /\ match fst (cache.GetUser c id) with
     | Some u =>
         http = ({| handler.code := 200;
                    handler.body := handler.H_data (ToPublicUser u) |}, nil)
     | None =>
         match persistence.GetByID db id with
         | (Some u, _) =>
             http = ({| handler.code := 200;
                        handler.body := handler.H_data (ToPublicUser u) |},
                     cache.go_SetUser u :: nil)
         | (None, _) =>
             http = ({| handler.code := 404;
                        handler.body := handler.H_error "user not found" |}, nil)
         end
     end.
Proof.
  intros Hparse http. subst http.
  unfold handler.GetUserParam. rewrite Hparse.
  unfold handler.GetUser, query.GetUserHandler.Handle. cbn [query.ID]. pg.
  destruct (cache.GetUser c id) as [[u|] e]; cbn [fst].
  - split; [discriminate|reflexivity].
  - destruct (GetByID_answers db id) as [(r & -> & _)| ->];
      (split; [discriminate|reflexivity]).
Qed.

Lemma get_endpoint_witness :
  ParseInt64 "+2" = (2, None)
  /\ handler.GetUserParam sample.db sample.redis "+2"
     = ({| handler.code := 200;
           handler.body := handler.H_data (ToPublicUser sample.bob) |},
        cache.go_SetUser sample.bob :: nil).
Proof.
  assert (Hparse : ParseInt64 "+2" = (2, None)) by reflexivity.
  split; [exact Hparse|].
  exact (proj2 (get_endpoint sample.db sample.redis 2 "+2" Hparse)).
Defined.

(* ===================================================================== *)
(** * The two ways to set a password                                       *)
(* ===================================================================== *)

(** X17.  [UpdatePassword] is the check of the old password followed by
    what [SetPassword] does: once the old password is verified the two
    accept the same new passwords and leave the same user, and they refuse
    the same ones, [UpdatePassword] wording its refusals with "new".  Both
    leave the user as it was when they refuse, and neither touches any
    field but the hash and the modification time. *)
Theorem UpdatePassword_is_checked_SetPassword `{Bcrypt} (ctx : Context) (u : User)
        (oldPassword newPassword : string) :
  let checked := UpdatePassword ctx u oldPassword newPassword in
  let unchecked := SetPassword ctx u newPassword in
  (ComparePassword u oldPassword <> None ->
   checked = (u, Some (errors_New "old password is incorrect")))
  /\ (ComparePassword u oldPassword = None ->
      fst checked = fst unchecked
      /\ (snd checked = None <-> snd unchecked = None))
  /\ (snd checked <> None -> fst checked = u)
  /\ (snd unchecked <> None -> fst unchecked = u)
  /\ (snd unchecked = None ->
      8 <= len newPassword
      /\ GenerateFromPassword (entropy ctx) newPassword DefaultCost
         = Some (PasswordHash (fst unchecked))
      /\ fst unchecked
         = {| ID := ID u; Name := Name u; Email := Email u;
              PasswordHash := PasswordHash (fst unchecked); Age := Age u;
              CreatedAt := CreatedAt u; UpdatedAt := now ctx |}).
Proof.
  intros checked unchecked. subst checked unchecked.
  unfold UpdatePassword, SetPassword.
  destruct (ComparePassword u oldPassword) as [e|];
    destruct (String.eqb newPassword "");
    destruct (len newPassword <? 8) eqn:Elen;
    destruct (GenerateFromPassword (entropy ctx) newPassword DefaultCost) as [h|];
    cbn [fst snd PasswordHash];
    repeat split; try reflexivity; try congruence; try discriminate;
    try (intros; exfalso; congruence); try (zbool; lia).
Qed.

(* ===================================================================== *)
(** * Walking the pages                                                    *)
(* ===================================================================== *)









(* ===================================================================== *)
(** * Identifiers in decimal                                               *)
(* ===================================================================== *)

Lemma digit_pretty_N_char (d : N) :
  (d < 10)%N -> digit (pretty_N_char d) = Some (Z.of_N d).
Proof.
  intros Hd.
  assert (Hcase : (d = 0 \/ d = 1 \/ d = 2 \/ d = 3 \/ d = 4 \/ d = 5
                   \/ d = 6 \/ d = 7 \/ d = 8 \/ d = 9)%N) by lia.
  repeat (destruct Hcase as [->|Hcase]; [reflexivity|]). subst d. reflexivity.
Qed.

Lemma digits_pretty_N_go (x : N) (s : string) :
  digits 0 (pretty_N_go x s) = digits (Z.of_N x) s.
Proof.
  revert s. induction (N.lt_wf_0 x) as [x _ IH]. intros s.
  destruct (N.eq_dec x 0%N) as [->|Hx]; [rewrite pretty_N_go_0; reflexivity|].
  rewrite pretty_N_go_step by lia.
  rewrite IH by (apply N.div_lt; lia).
  cbn [digits]. rewrite digit_pretty_N_char by (apply N.mod_lt; lia).
  f_equal. pose proof (N.div_mod x 10%N ltac:(lia)). lia.
Qed.

Lemma pretty_N_go_head (x : N) (s : string) :
  (0 < x)%N ->
  exists c r, pretty_N_go x s = String c r /\ 48 <= byte_of c <= 57.
Proof.
  revert s. induction (N.lt_wf_0 x) as [x _ IH]. intros s Hx.
  rewrite pretty_N_go_step by exact Hx.
  destruct (N.eq_dec (x `div` 10)%N 0%N) as [E|E].
  - rewrite E, pretty_N_go_0. eexists. eexists. split; [reflexivity|].
    unfold pretty_N_char.
    repeat match goal with
           | |- context [match ?n with _ => _ end] => destruct n
           end; vm_compute; split; discriminate.
  - apply IH; [apply N.div_lt; lia|apply N.neq_0_lt_0; exact E].
Qed.

Lemma Atoi_Sprintf_d (z : Z) :
  MinInt <= z <= MaxInt -> Atoi (Sprintf_d z) = (z, None).
Proof.
  unfold MinInt, MaxInt. intros Hz. destruct z as [|p|p].
  - reflexivity.
  - unfold Sprintf_d, pretty, pretty_Z, pretty, pretty_positive, pretty, pretty_N.
    destruct (decide (N.pos p = 0%N)); [discriminate|].
    destruct (pretty_N_go_head (N.pos p) "" ltac:(lia)) as (c & r & Hs & Hc).
    pose proof (digits_pretty_N_go (N.pos p) "") as Hd. rewrite Hs in Hd |- *.
    unfold Atoi, signOf.
    destruct (byte_of c =? 45) eqn:E1; [zbool; lia|].
    destruct (byte_of c =? 43) eqn:E2; [zbool; lia|].
    rewrite Hd. cbn [digits].
    destruct (Z.of_N (N.pos p) >=? 2 ^ 63) eqn:E3; [zbool; lia|]. reflexivity.
  - unfold Sprintf_d, pretty, pretty_Z, pretty, pretty_positive, pretty, pretty_N.
    destruct (decide (N.pos p = 0%N)); [discriminate|].
    destruct (pretty_N_go_head (N.pos p) "" ltac:(lia)) as (c & r & Hs & Hc).
    pose proof (digits_pretty_N_go (N.pos p) "") as Hd. rewrite Hs in Hd |- *.
    change ("-" +:+ String c r) with (String "-" (String c r)).
    unfold Atoi, signOf.
    change (byte_of "-" =? 45) with true. cbv iota.
    rewrite Hd. cbn [digits].
    destruct (Z.of_N (N.pos p) >? 2 ^ 63) eqn:E3; [zbool; lia|]. reflexivity.
Qed.

(** X20.  Every identifier an [int64] holds, written in decimal as
    [%d] writes it, is a path parameter the endpoints accept and read back
    as that identifier; so the endpoint of get-by-id, given the decimal text
    of an identifier, answers for that identifier, and delete removes
    that one. *)
Theorem decimal_id_is_accepted `{persistence.Postgres} (db : persistence.DB)
        (c : cache.RedisCache) (id : Z) :
  MinInt <= id <= MaxInt ->
  ParseInt64 (Sprintf_d id) = (id, None)
  /\ handler.GetUserParam db c (Sprintf_d id) = handler.GetUser db c id
  /\ fst (fst (handler.DeleteUser db c (Sprintf_d id)))
     = fst (fst (command.DeleteUserHandler.Handle db c
                   {| command.DeleteUserCommand.ID := id |})).
Proof.
  intros Hid.
  assert (Hparse : ParseInt64 (Sprintf_d id) = (id, None))
    by (apply Atoi_Sprintf_d; exact Hid).
  split; [exact Hparse|]. split.
  - unfold handler.GetUserParam. rewrite Hparse. reflexivity.
  - unfold handler.DeleteUser. rewrite Hparse.
    destruct (command.DeleteUserHandler.Handle db c _) as [[s' [e|]] tasks];
      [|reflexivity].
    destruct (error_eqb e ErrUserNotFound); reflexivity.
Qed.

Lemma decimal_id_is_accepted_witness :
  MinInt <= -9223372036854775808 <= MaxInt
  /\ ParseInt64 (Sprintf_d (-9223372036854775808)) = (-9223372036854775808, None).
Proof.
  assert (Hid : MinInt <= -9223372036854775808 <= MaxInt)
    by (unfold MinInt, MaxInt; lia).
  split; [exact Hid|].
  exact (proj1 (decimal_id_is_accepted sample.db sample.redis _ Hid)).
Defined.

(* ===================================================================== *)
(** * A detached operation that fails                                      *)
(* ===================================================================== *)

Lemma runAll_down (c : cache.RedisCache) (tasks : list cache.Task) :
  cache.reachable c = false -> cache.runAll c tasks = c.
Proof.
  intros Hdown. unfold cache.runAll. induction tasks as [|t tasks IH]; [reflexivity|].
  cbn [fold_left].
  assert (Hrun : cache.run c t = c).
  { destruct t; unfold cache.run, cache.SetUser, cache.DeleteUser;
      rewrite Hdown; reflexivity. }
  rewrite Hrun. exact IH.
Qed.

(** X21.  A detached cache operation that runs while the cache is down
    is lost, its error going nowhere: the cache holds afterwards what it
    held before.  So when the invalidation of a delete meets a cache that is
    down, the cached user is served with 200 once the cache is back, the
    store having no such row any more. *)
Theorem missed_invalidation_keeps_the_entry `{persistence.Postgres}
        (db db' : persistence.DB) (c : cache.RedisCache) (old : User)
        (tasks : list cache.Task) :
  cache.entries c !! cache.key (ID old) = Some (MarshalUser old) ->
  command.DeleteUserHandler.Handle db c {| command.DeleteUserCommand.ID := ID old |}
  = (db', None, tasks) ->
  let back := withReachable (cache.runAll (withReachable c false) tasks) true in
  cache.entries back = cache.entries c
  /\ persistence.GetByID db' (ID old) = (None, Some ErrUserNotFound)
  /\ handler.GetUser db' back (ID old)
     = ({| handler.code := 200;
           handler.body := handler.H_data (ToPublicUser old) |}, nil).
Proof.
  intros Hcached Hrun back. subst back.
  rewrite runAll_down by reflexivity.
  split; [reflexivity|]. split.
  - unfold command.DeleteUserHandler.Handle in Hrun.
    cbn [command.DeleteUserCommand.ID] in Hrun. pg.
    destruct (persistence.GetByID db (ID old)) as [r [e|]]; [discriminate|].
    destruct (persistence.Delete db (ID old)) as [db1 [e|]] eqn:Hdel; [discriminate|].
    injection Hrun as -> _. exact (GetByID_Delete _ _ _ Hdel).
  - unfold handler.GetUser, query.GetUserHandler.Handle. cbn [query.ID].
    unfold cache.GetUser, withReachable. cbn [cache.reachable cache.entries negb].
    rewrite Hcached, Unmarshal_Marshal. reflexivity.
Qed.

Lemma missed_invalidation_keeps_the_entry_witness :
  let c := cache.runAll sample.redis (cache.go_SetUser sample.bob :: nil) in
  let out := command.DeleteUserHandler.Handle sample.db c
               {| command.DeleteUserCommand.ID := 2 |} in
  cache.entries c !! cache.key (ID sample.bob) = Some (MarshalUser sample.bob)
  /\ snd (fst out) = None
  /\ handler.GetUser (fst (fst out))
       (withReachable (cache.runAll (withReachable c false) (snd out)) true) 2
     = ({| handler.code := 200;
           handler.body := handler.H_data (ToPublicUser sample.bob) |}, nil).
Proof.
  intros c out.
  assert (H1 : cache.entries c !! cache.key (ID sample.bob)
               = Some (MarshalUser sample.bob)) by reflexivity.
  assert (H2 : command.DeleteUserHandler.Handle sample.db c
                 {| command.DeleteUserCommand.ID := ID sample.bob |}
               = (fst (fst out), None, snd out)) by reflexivity.
  split; [exact H1|]. split; [reflexivity|].
  exact (proj2 (proj2 (missed_invalidation_keeps_the_entry
                         sample.db _ c sample.bob _ H1 H2))).
Defined.

(* ===================================================================== *)
(** * Asking again with the echoed page and limit                          *)
(* ===================================================================== *)

Lemma query_ext (a b : query.ListUsersQuery) :
  query.Search a = query.Search b -> query.AgeMin a = query.AgeMin b ->
  query.AgeMax a = query.AgeMax b -> query.SortBy a = query.SortBy b ->
  query.Order a = query.Order b -> query.Page a = query.Page b ->
  query.Limit a = query.Limit b -> a = b.
Proof.
  destruct a, b. simpl. intros. subst. reflexivity.
Qed.

Lemma setDefaults_Page_ge (q : query.ListUsersQuery) :
  1 <= query.Page (query.ListUsersHandler.setDefaults q).
Proof.
  rewrite setDefaults_Page. destruct (query.Page q <? 1) eqn:E; zbool; lia.
Qed.

(** The descriptor [setDefaults] answers, from a descriptor that has its
    filters, sort field and order and carries the given page and limit. *)
Lemma setDefaults_same (q q' : query.ListUsersQuery) :
  let n := query.ListUsersHandler.setDefaults q in
  query.Search q' = query.Search q -> query.AgeMin q' = query.AgeMin q ->
  query.AgeMax q' = query.AgeMax q ->
  query.SortBy q' = query.SortBy q \/ query.SortBy q' = query.SortBy n ->
  query.Order q' = query.Order q \/ query.Order q' = query.Order n ->
  query.Page q' = query.Page n -> query.Limit q' = query.Limit n ->
  query.ListUsersHandler.setDefaults q' = n.
Proof.
  intros n Hs Hmin Hmax Hsort Horder Hpage Hlimit.
  destruct (setDefaults_filters q) as (Fs & Fmin & Fmax).
  destruct (setDefaults_filters q') as (Fs' & Fmin' & Fmax').
  pose proof (setDefaults_Page_ge q) as Hp. fold n in Hp.
  pose proof (setDefaults_Limit_range q) as Hl. fold n in Hl.
  apply query_ext.
  - fold n in Fs. congruence.
  - fold n in Fmin. congruence.
  - fold n in Fmax. congruence.
  - rewrite setDefaults_SortBy. unfold n in *. rewrite setDefaults_SortBy in *.
    destruct Hsort as [-> | ->]; [reflexivity|].
    destruct (String.eqb (query.SortBy q) "") eqn:E; [reflexivity|]. rewrite E.
    reflexivity.
  - rewrite setDefaults_Order. unfold n in *. rewrite setDefaults_Order in *.
    destruct Horder as [-> | ->]; [reflexivity|].
    destruct (String.eqb (query.Order q) "") eqn:E; [reflexivity|]. rewrite E.
    reflexivity.
  - rewrite setDefaults_Page, Hpage.
    destruct (query.Page n <? 1) eqn:E; [zbool; lia|reflexivity].
  - rewrite setDefaults_Limit, Hlimit.
    destruct (query.Limit n <? 1) eqn:E1; [zbool; lia|].
    destruct (query.Limit n >? 100) eqn:E2; [zbool; lia|reflexivity].
Qed.

Lemma setDefaults_idem (q : query.ListUsersQuery) :
  query.ListUsersHandler.setDefaults (query.ListUsersHandler.setDefaults q)
  = query.ListUsersHandler.setDefaults q.
Proof.
  destruct (setDefaults_filters q) as (Fs & Fmin & Fmax).
  apply setDefaults_same; try assumption; try reflexivity; right; reflexivity.
Qed.

Lemma search_setDefaults_idem (q : query.SearchQuery.SearchUsersQuery) :
  query.SearchUsersHandler.setDefaults (query.SearchUsersHandler.setDefaults q)
  = query.SearchUsersHandler.setDefaults q.
Proof.
  destruct q as [k p l].
  unfold query.SearchUsersHandler.setDefaults; simpl. cases.
Qed.

Lemma setDefaults_echo (q : query.ListUsersQuery) :
  let n := query.ListUsersHandler.setDefaults q in
  query.ListUsersHandler.setDefaults
    (query.withLimit (query.withPage q (query.Page n)) (query.Limit n)) = n.
Proof.
  intros n. apply setDefaults_same; try reflexivity; left; reflexivity.
Qed.

Lemma search_setDefaults_echo (q : query.SearchQuery.SearchUsersQuery) :
  let n := query.SearchUsersHandler.setDefaults q in
  query.SearchUsersHandler.setDefaults
    {| query.SearchQuery.Keyword := query.SearchQuery.Keyword q;
       query.SearchQuery.Page := query.SearchQuery.Page n;
       query.SearchQuery.Limit := query.SearchQuery.Limit n |} = n.
Proof.
  destruct q as [k p l].
  unfold query.SearchUsersHandler.setDefaults; simpl. cases.
Qed.

(** X22.  The page and the limit a result echoes are the ones in force:
    a request already normalized is answered as the original, and asking
    again with the echoed page and limit in place of the original ones
    gives the same result, for the list handler and for the search
    handler. *)
Theorem asking_again_gives_the_same_page `{persistence.Postgres} (db : persistence.DB)
        (lq : query.ListUsersQuery) (sq : query.SearchQuery.SearchUsersQuery) :
  query.ListUsersHandler.Handle db (query.ListUsersHandler.setDefaults lq)
  = query.ListUsersHandler.Handle db lq
  /\ (forall r, query.ListUsersHandler.Handle db lq = (Some r, None) ->
      query.ListUsersHandler.Handle db
        (query.withLimit (query.withPage lq (query.Result.Page r)) (query.Result.Limit r))
      = (Some r, None))
  /\ query.SearchUsersHandler.Handle db (query.SearchUsersHandler.setDefaults sq)
     = query.SearchUsersHandler.Handle db sq
  /\ (forall r, query.SearchUsersHandler.Handle db sq = (Some r, None) ->
      query.SearchUsersHandler.Handle db
        {| query.SearchQuery.Keyword := query.SearchQuery.Keyword sq;
           query.SearchQuery.Page := query.Result.Page r;
           query.SearchQuery.Limit := query.Result.Limit r |}
      = (Some r, None)).
Proof.
  split; [|split; [|split]].
  - unfold query.ListUsersHandler.Handle. rewrite setDefaults_idem. reflexivity.
  - intros r Hrun.
    assert (Hecho : query.Result.Page r
                    = query.Page (query.ListUsersHandler.setDefaults lq)
                    /\ query.Result.Limit r
                       = query.Limit (query.ListUsersHandler.setDefaults lq)).
    { pose proof (list_Handle_outcome db lq) as Hout. cbv zeta in Hout.
      rewrite Hrun in Hout. destruct Hout as (Hp & Hl & _). split; assumption. }
    destruct Hecho as [-> ->]. rewrite <- Hrun.
    unfold query.ListUsersHandler.Handle.
    rewrite (setDefaults_echo lq). reflexivity.
  - unfold query.SearchUsersHandler.Handle. rewrite search_setDefaults_idem. reflexivity.
  - intros r Hrun.
    assert (Hecho : query.Result.Page r
                    = query.SearchQuery.Page (query.SearchUsersHandler.setDefaults sq)
                    /\ query.Result.Limit r
                       = query.SearchQuery.Limit (query.SearchUsersHandler.setDefaults sq)).
    { unfold query.SearchUsersHandler.Handle in Hrun.
      destruct (repo.Search db _ _ _) as [[us total] [e|]]; [discriminate|].
      injection Hrun as <-. split; reflexivity. }
    destruct Hecho as [-> ->]. rewrite <- Hrun.
    unfold query.SearchUsersHandler.Handle.
    rewrite (search_setDefaults_echo sq). reflexivity.
Qed.

(* ===================================================================== *)
(** * Emails after the commands                                            *)
(* ===================================================================== *)

Lemma GetByID_In (db : persistence.DB) (id : Z) (u : User) (e : option error) :
  persistence.GetByID db id = (Some u, e) ->
  In u (persistence.users db) /\ ID u = id.
Proof.
  unfold persistence.GetByID.
  destruct (find _ _) as [r|] eqn:Hf; [|discriminate].
  intros [= <- _]. apply find_some in Hf. destruct Hf as [Hin Hid].
  unfold persistence.hasID in Hid. apply Z.eqb_eq in Hid. split; assumption.
Qed.

Lemma find_hasEmail_setRow (user : User) (l : list User) :
  existsb (fun r => negb (persistence.hasID (ID user) r)
                    && persistence.hasEmail (Email user) r) l = false ->
  find (persistence.hasEmail (Email user)) (map (persistence.setRow user) l)
  = option_map (persistence.setRow user) (find (persistence.hasID (ID user)) l).
Proof.
  induction l as [|a l IH]; [reflexivity|]. simpl. intros Hex.
  apply orb_false_iff in Hex. destruct Hex as [Ha Hl].
  unfold persistence.setRow at 1.
  destruct (persistence.hasID (ID user) a) eqn:Hid.
  - unfold persistence.hasEmail at 1. cbn [Email]. rewrite String.eqb_refl.
    cbn. unfold persistence.setRow. rewrite Hid. reflexivity.
  - cbn [negb andb] in Ha. rewrite Ha. exact (IH Hl).
Qed.

Lemma Update_rows (db db' : persistence.DB) (user : User) :
  persistence.Update db user = (db', None) ->
  persistence.users db' = map (persistence.setRow user) (persistence.users db)
  /\ existsb (fun r => negb (persistence.hasID (ID user) r)
                       && persistence.hasEmail (Email user) r)
             (persistence.users db) = false.
Proof.
  unfold persistence.Update. destruct (negb _); [discriminate|].
  destruct (existsb _ _) eqn:Hex; [discriminate|].
  intros [= <-]. split; reflexivity.
Qed.

(** X23.  Lookup by email follows the commands, on a table that meets
    its constraints.  After a create the trimmed email of the command
    leads to the created user.  After an update the email of the command
    leads to the updated user, and the email the user had before, when it
    differs, leads nowhere: it is free for another user. *)
Theorem email_lookup_follows_the_commands `{Bcrypt} `{persistence.Postgres}
        (ctx : Context) (db db' : persistence.DB) (c : cache.RedisCache) :
  wf db ->
  (forall cmd u tasks,
      command.CreateUserHandler.Handle ctx db c cmd = (db', Some u, None, tasks) ->
      Email u = TrimSpace (command.CreateUserCommand.Email cmd)
      /\ persistence.GetByEmail db' (Email u) = (Some u, None))
  /\ (forall cmd old new tasks,
      persistence.GetByID db (command.UpdateUserCommand.ID cmd) = (Some old, None) ->
      command.UpdateUserHandler.Handle ctx db c cmd = (db', Some new, None, tasks) ->
      Email new = command.UpdateUserCommand.Email cmd
      /\ persistence.GetByEmail db' (Email new) = (Some new, None)
      /\ (Email old <> Email new ->
          persistence.GetByEmail db' (Email old) = (None, Some ErrUserNotFound))).
Proof.
  intros Hwf. split.
  - intros cmd u tasks Hrun.
    apply CreateUser_Handle_ok in Hrun.
    destruct Hrun as (user & _ & Hnew & Hcreate & _).
    apply NewUser_ok in Hnew. destruct Hnew as (_ & _ & Hemail & _).
    unfold persistence.Create in Hcreate.
    destruct (existsb (persistence.hasID _) _ || existsb (persistence.hasEmail _) _)
      eqn:Hex; [discriminate|].
    apply orb_false_iff in Hex. destruct Hex as [_ Hfree].
    injection Hcreate as <- <-. cbn [Email]. split; [exact Hemail|].
    unfold persistence.GetByEmail. cbn [persistence.users].
    rewrite find_app_new; [reflexivity|exact Hfree|].
    unfold persistence.hasEmail. cbn [Email]. apply String.eqb_refl.
  - intros cmd old new tasks Hget Hrun.
    unfold command.UpdateUserHandler.Handle in Hrun. pg. rewrite Hget in Hrun.
    destruct (if negb _ then _ else false); [discriminate|].
    unfold domain.Update in Hrun.
    destruct (String.eqb (command.UpdateUserCommand.Name cmd) ""); [discriminate|].
    destruct (String.eqb (command.UpdateUserCommand.Email cmd) ""); [discriminate|].
    destruct (_ || _); [discriminate|].
    destruct (persistence.Update db _) as [db1 [e|]] eqn:Hupd; [discriminate|].
    injection Hrun as -> <- _.
    destruct (GetByID_In _ _ _ _ Hget) as [Hin Hid].
    destruct (Update_rows _ _ _ Hupd) as [Hrows Hfree].
    pose proof (GetByID_Update _ _ _ Hupd) as (r & Hr & _).
    cbn [ID Name Email Age PasswordHash CreatedAt UpdatedAt] in *.
    split; [reflexivity|]. split.
    + unfold persistence.GetByEmail. rewrite Hrows.
      match goal with
      | |- context [map (persistence.setRow ?user) _] =>
          rewrite (find_hasEmail_setRow user) by exact Hfree
      end.
      cbn [ID]. unfold persistence.GetByID in Hr.
      destruct (find (persistence.hasID (ID old)) (persistence.users db)) as [x|] eqn:Hf;
        [|discriminate].
      injection Hr as <-.
      assert (x = old).
      { unfold persistence.GetByID in Hget. rewrite <- Hid in Hget.
        rewrite Hf in Hget. congruence. }
      subst x. cbn [option_map]. unfold persistence.setRow. cbn [ID].
      unfold persistence.hasID. rewrite Z.eqb_refl. reflexivity.
    + intros Hne. unfold persistence.GetByEmail. rewrite Hrows.
      rewrite (proj2 (find_none_iff _ _)); [reflexivity|].
      intros x Hx. apply in_map_iff in Hx. destruct Hx as (y & <- & Hy).
      unfold persistence.setRow. cbn [ID].
      destruct (persistence.hasID (ID old) y) eqn:Hyid.
      * unfold persistence.hasEmail. cbn [Email]. apply String.eqb_neq.
        intros E. apply Hne. symmetry. exact E.
      * unfold persistence.hasEmail. apply String.eqb_neq. intros E.
        assert (y = old) by (apply (wf_same_Email db); assumption).
        subst y. unfold persistence.hasID in Hyid. rewrite Z.eqb_refl in Hyid.
        discriminate.
Qed.

Lemma email_lookup_follows_the_commands_witness :
  let cmd := command.UpdateUserCommand.mk 2 "Bob" "robert@example.com" 41 in
  let out := command.UpdateUserHandler.Handle sample.ctx sample.db sample.redis cmd in
  wf sample.db
  /\ persistence.GetByEmail (fst (fst (fst out))) "bob@example.com"
     = (None, Some ErrUserNotFound).
Proof.
  intros cmd out. split; [exact wf_sample|].
  assert (Hget : persistence.GetByID sample.db (command.UpdateUserCommand.ID cmd)
                 = (Some sample.bob, None)) by reflexivity.
  assert (Hrun : out = (fst (fst (fst out)),
                        Some {| ID := 2; Name := "Bob"; Email := "robert@example.com";
                                PasswordHash := PasswordHash sample.bob; Age := 41;
                                CreatedAt := 20; UpdatedAt := 1000 |},
                        None, snd out)) by reflexivity.
  refine (proj2 (proj2 (proj2 (email_lookup_follows_the_commands
                                 sample.ctx sample.db _ sample.redis wf_sample)
                                cmd sample.bob _ _ Hget Hrun)) _).
  discriminate.
Defined.

(* ===================================================================== *)
(** * After a delete                                                       *)
(* ===================================================================== *)

(** X24.  Once a user is deleted, on a table that meets its constraints:
    another delete, an update and a change of password for that identifier
    are [ErrUserNotFound] and change nothing; the email the user had leads
    nowhere, so it is free for a new user; and the next create gives the
    new user a greater identifier, not the one that was deleted. *)
Theorem deleted_user_is_gone `{Bcrypt} `{persistence.Postgres} (ctx : Context)
        (db db' : persistence.DB) (c : cache.RedisCache) (u : User)
        (tasks : list cache.Task) :
  wf db ->
  persistence.GetByID db (ID u) = (Some u, None) ->
  command.DeleteUserHandler.Handle db c {| command.DeleteUserCommand.ID := ID u |}
  = (db', None, tasks) ->
  (forall c2, command.DeleteUserHandler.Handle db' c2
                {| command.DeleteUserCommand.ID := ID u |}
              = (db', Some ErrUserNotFound, nil))
  /\ (forall c2 cmd, command.UpdateUserCommand.ID cmd = ID u ->
        command.UpdateUserHandler.Handle ctx db' c2 cmd
        = (db', None, Some ErrUserNotFound, nil))
  /\ (forall c2 cmd, command.ChangePasswordCommand.UserID cmd = ID u ->
        command.ChangePasswordHandler.Handle ctx db' c2 cmd
        = (db', Some ErrUserNotFound, nil))
  /\ persistence.GetByEmail db' (Email u) = (None, Some ErrUserNotFound)
  /\ (forall c2 cmd db2 v tasks2,
        command.CreateUserHandler.Handle ctx db' c2 cmd = (db2, Some v, None, tasks2) ->
        ID u < ID v).
Proof.
  intros Hwf Hget Hrun.
  unfold command.DeleteUserHandler.Handle in Hrun.
  cbn [command.DeleteUserCommand.ID] in Hrun. pg. rewrite Hget in Hrun.
  destruct (persistence.Delete db (ID u)) as [db1 [e|]] eqn:Hdel; [discriminate|].
  injection Hrun as -> _.
  pose proof (GetByID_Delete _ _ _ Hdel) as Hgone.
  destruct (GetByID_In _ _ _ _ Hget) as [Hin _].
  assert (Hrows : persistence.users db'
                  = List.filter (fun r => negb (persistence.hasID (ID u) r))
                      (persistence.users db)
                  /\ persistence.users_id_seq db' = persistence.users_id_seq db).
  { unfold persistence.Delete in Hdel. destruct (negb _); [discriminate|].
    injection Hdel as <-. split; reflexivity. }
  destruct Hrows as [Hrows Hseq].
  split; [|split; [|split; [|split]]].
  - intros c2. unfold command.DeleteUserHandler.Handle.
    cbn [command.DeleteUserCommand.ID]. pg. rewrite Hgone. reflexivity.
  - intros c2 cmd Hid. unfold command.UpdateUserHandler.Handle. pg.
    rewrite Hid, Hgone. reflexivity.
  - intros c2 cmd Hid. unfold command.ChangePasswordHandler.Handle. pg.
    rewrite Hid, Hgone. reflexivity.
  - unfold persistence.GetByEmail. rewrite Hrows.
    rewrite (proj2 (find_none_iff _ _)); [reflexivity|].
    intros x Hx. apply filter_In in Hx. destruct Hx as [Hx Hxid].
    unfold persistence.hasEmail. apply String.eqb_neq. intros E.
    assert (x = u) by (apply (wf_same_Email db); assumption).
    subst x. unfold persistence.hasID in Hxid. rewrite Z.eqb_refl in Hxid.
    discriminate.
  - intros c2 cmd db2 v tasks2 Hcreate.
    apply CreateUser_Handle_ok in Hcreate.
    destruct Hcreate as (user & _ & _ & Hcreate & _).
    apply Create_ok in Hcreate. destruct Hcreate as (-> & _).
    cbn [ID]. rewrite Hseq. destruct Hwf as (_ & _ & Hbelow). exact (Hbelow u Hin).
Qed.

Lemma deleted_user_is_gone_witness :
  let out := command.DeleteUserHandler.Handle sample.db sample.redis
               {| command.DeleteUserCommand.ID := 1 |} in
  wf sample.db
  /\ persistence.GetByID sample.db (ID sample.alice) = (Some sample.alice, None)
  /\ snd (fst out) = None
  /\ persistence.GetByEmail (fst (fst out)) "alice@example.com"
     = (None, Some ErrUserNotFound).
Proof.
  intros out.
  assert (Hget : persistence.GetByID sample.db (ID sample.alice)
                 = (Some sample.alice, None)) by reflexivity.
  assert (Hrun : command.DeleteUserHandler.Handle sample.db sample.redis
                   {| command.DeleteUserCommand.ID := ID sample.alice |}
                 = (fst (fst out), None, snd out)) by reflexivity.
  split; [exact wf_sample|]. split; [exact Hget|]. split; [reflexivity|].
  exact (proj1 (proj2 (proj2 (proj2
    (deleted_user_is_gone sample.ctx sample.db _ sample.redis sample.alice _
       wf_sample Hget Hrun))))).
Defined.

(* ===================================================================== *)
(** * The cache follows the table                                          *)
(* ===================================================================== *)

Lemma find_app_old {A : Type} (f : A -> bool) (l l' : list A) (x : A) :
  find f l = Some x -> find f (l ++ l') = Some x.
Proof.
  induction l as [|a l IH]; [discriminate|]. simpl.
  destruct (f a); [trivial|exact IH].
Qed.

(** What each command leaves of the rows it does not address, and what
    it detaches. *)
Lemma Create_Handle_frame `{Bcrypt} `{persistence.Postgres} (ctx : Context)
      (db : persistence.DB) (c : cache.RedisCache) (cmd : command.CreateUserCommand.t) :
  let out := command.CreateUserHandler.Handle ctx db c cmd in
  snd out = nil
  /\ forall id u, persistence.GetByID db id = (Some u, None) ->
                  persistence.GetByID (fst (fst (fst out))) id = (Some u, None).
Proof.
  intros out. subst out. unfold command.CreateUserHandler.Handle. pg.
  destruct (persistence.GetByEmail db _) as [[existing|] e0]; cbn [fst snd];
    [split; [reflexivity|trivial]|].
  destruct (NewUser _ _ _ _ _) as [[user|] [e1|]]; cbn [fst snd];
    try (split; [reflexivity|trivial]).
  pg. unfold persistence.Create.
  destruct (_ || _); cbn [fst snd]; (split; [reflexivity|]); intros id u;
    unfold persistence.GetByID; cbn [persistence.users]; [trivial|].
  destruct (find (persistence.hasID id) (persistence.users db)) as [r|] eqn:Hf;
    [|discriminate].
  intros [= ->]. rewrite (find_app_old _ _ _ _ Hf). reflexivity.
Qed.

Lemma Update_frame (db db' : persistence.DB) (user : User) (e : option error) :
  persistence.Update db user = (db', e) ->
  (e <> None /\ db' = db)
  \/ (e = None /\ forall id, id <> ID user ->
                             persistence.GetByID db' id = persistence.GetByID db id).
Proof.
  unfold persistence.Update.
  destruct (negb _); [intros [= <- <-]; left; split; [discriminate|reflexivity]|].
  destruct (existsb _ _); [intros [= <- <-]; left; split; [discriminate|reflexivity]|].
  intros [= <- <-]. right. split; [reflexivity|].
  intros id Hne. unfold persistence.GetByID. cbn [persistence.users].
  rewrite find_map_setRow_other by exact Hne. reflexivity.
Qed.

Lemma Update_Handle_frame `{persistence.Postgres} (ctx : Context)
      (db : persistence.DB) (c : cache.RedisCache) (cmd : command.UpdateUserCommand.t) :
  let out := command.UpdateUserHandler.Handle ctx db c cmd in
  let id := command.UpdateUserCommand.ID cmd in
  (snd out = nil /\ fst (fst (fst out)) = db)
  \/ (snd out = cache.go_DeleteUser id :: nil
      /\ forall id', id' <> id ->
                     persistence.GetByID (fst (fst (fst out))) id'
                     = persistence.GetByID db id').
Proof.
  intros out id. subst out. unfold command.UpdateUserHandler.Handle. pg. fold id.
  destruct (GetByID_answers db id) as [(old & Hget & Hid)|Hnone];
    [rewrite Hget|rewrite Hnone; left; split; reflexivity].
  destruct (if negb _ then _ else false); [left; split; reflexivity|].
  unfold domain.Update.
  destruct (String.eqb _ ""); [left; split; reflexivity|].
  destruct (String.eqb _ ""); [left; split; reflexivity|].
  destruct (_ || _); [left; split; reflexivity|].
  pg.
  destruct (persistence.Update db _) as [db1 e] eqn:Hupd.
  destruct (Update_frame _ _ _ _ Hupd) as [[He ->]|[-> Hothers]].
  - destruct e; [left; split; reflexivity|contradiction].
  - right. split; [reflexivity|]. cbn [fst ID] in *. rewrite Hid in Hothers.
    exact Hothers.
Qed.

Lemma ChangePassword_Handle_frame `{Bcrypt} `{persistence.Postgres} (ctx : Context)
      (db : persistence.DB) (c : cache.RedisCache)
      (cmd : command.ChangePasswordCommand.t) :
  let out := command.ChangePasswordHandler.Handle ctx db c cmd in
  let id := command.ChangePasswordCommand.UserID cmd in
  (snd out = nil /\ fst (fst out) = db)
  \/ (snd out = cache.go_DeleteUser id :: nil
      /\ forall id', id' <> id ->
                     persistence.GetByID (fst (fst out)) id'
                     = persistence.GetByID db id').
Proof.
  intros out id. subst out. unfold command.ChangePasswordHandler.Handle. pg. fold id.
  destruct (GetByID_answers db id) as [(old & Hget & Hid)|Hnone];
    [rewrite Hget|rewrite Hnone; left; split; reflexivity].
  unfold UpdatePassword.
  destruct (ComparePassword old _); [left; split; reflexivity|].
  destruct (String.eqb _ ""); [left; split; reflexivity|].
  destruct (len _ <? 8); [left; split; reflexivity|].
  destruct (GenerateFromPassword _ _ _) as [hash|]; [|left; split; reflexivity].
  pg.
  destruct (persistence.Update db _) as [db1 e] eqn:Hupd.
  destruct (Update_frame _ _ _ _ Hupd) as [[He ->]|[-> Hothers]].
  - destruct e; [left; split; reflexivity|contradiction].
  - right. split; [reflexivity|]. cbn [fst ID] in *. rewrite Hid in Hothers.
    exact Hothers.
Qed.

Lemma Delete_Handle_frame `{persistence.Postgres}
      (db : persistence.DB) (c : cache.RedisCache) (cmd : command.DeleteUserCommand.t) :
  let out := command.DeleteUserHandler.Handle db c cmd in
  let id := command.DeleteUserCommand.ID cmd in
  (snd out = nil /\ fst (fst out) = db)
  \/ (snd out = cache.go_DeleteUser id :: nil
      /\ forall id', id' <> id ->
                     persistence.GetByID (fst (fst out)) id'
                     = persistence.GetByID db id').
Proof.
  intros out id. subst out. unfold command.DeleteUserHandler.Handle. pg. fold id.
  destruct (persistence.GetByID db id) as [r [e|]]; [left; split; reflexivity|].
  unfold persistence.Delete.
  destruct (negb _); [left; split; reflexivity|].
  right. split; [reflexivity|]. intros id' Hne. cbn [fst].
  unfold persistence.GetByID. cbn [persistence.users].
  rewrite find_filter_other by exact Hne. reflexivity.
Qed.

(** The deletion of an entry, run against a cache that answers, keeps the
    cache coherent with a table that differs in the row of that
    identifier only. *)
Lemma invalidation_keeps_coherent (db db' : persistence.DB) (c : cache.RedisCache)
      (id : Z) :
  cache.reachable c = true -> coherent db c ->
  (forall id', id' <> id -> persistence.GetByID db' id' = persistence.GetByID db id') ->
  cache.reachable (cache.runAll c (cache.go_DeleteUser id :: nil)) = true
  /\ coherent db' (cache.runAll c (cache.go_DeleteUser id :: nil)).
Proof.
  intros Hup Hco Hothers. cbn [cache.runAll fold_left cache.run].
  unfold cache.DeleteUser. rewrite Hup. cbn [negb fst cache.reachable].
  split; [reflexivity|].
  intros id' doc. cbn [cache.entries]. intros Hdoc.
  destruct (decide (cache.key id = cache.key id')) as [E|E].
  - rewrite E, lookup_delete_eq in Hdoc. discriminate.
  - rewrite lookup_delete_ne in Hdoc by exact E.
    destruct (Hco id' doc Hdoc) as (u & Hu & ->).
    exists u. split; [|reflexivity]. rewrite Hothers; [exact Hu|].
    intros ->. apply E. reflexivity.
Qed.

Lemma serve_coherent `{Bcrypt} `{persistence.Postgres} (w : Served) (r : Request) :
  cache.reachable (redis w) = true -> coherent (store w) (redis w) ->
  cache.reachable (redis (serve w r)) = true
  /\ coherent (store (serve w r)) (redis (serve w r)).
Proof.
  intros Hup Hco. destruct r as [ctx cmd|ctx cmd|cmd|ctx cmd|q]; unfold serve.
  - destruct (Create_Handle_frame ctx (store w) (redis w) cmd) as [Htasks Hold].
    destruct (command.CreateUserHandler.Handle ctx (store w) (redis w) cmd)
      as [[[db' user] e] tasks]; cbn [fst snd store redis] in *.
    subst tasks. cbn [cache.runAll fold_left]. split; [exact Hup|].
    intros id doc Hdoc. destruct (Hco id doc Hdoc) as (u & Hu & ->).
    exists u. split; [exact (Hold id u Hu)|reflexivity].
  - destruct (Update_Handle_frame ctx (store w) (redis w) cmd)
      as [[Htasks Hdb]|[Htasks Hothers]];
      destruct (command.UpdateUserHandler.Handle ctx (store w) (redis w) cmd)
        as [[[db' user] e] tasks]; cbn [fst snd store redis] in *; subst tasks.
    + subst db'. split; [exact Hup|exact Hco].
    + exact (invalidation_keeps_coherent _ _ _ _ Hup Hco Hothers).
  - destruct (Delete_Handle_frame (store w) (redis w) cmd)
      as [[Htasks Hdb]|[Htasks Hothers]];
      destruct (command.DeleteUserHandler.Handle (store w) (redis w) cmd)
        as [[db' e] tasks]; cbn [fst snd store redis] in *; subst tasks.
    + subst db'. split; [exact Hup|exact Hco].
    + exact (invalidation_keeps_coherent _ _ _ _ Hup Hco Hothers).
  - destruct (ChangePassword_Handle_frame ctx (store w) (redis w) cmd)
      as [[Htasks Hdb]|[Htasks Hothers]];
      destruct (command.ChangePasswordHandler.Handle ctx (store w) (redis w) cmd)
        as [[db' e] tasks]; cbn [fst snd store redis] in *; subst tasks.
    + subst db'. split; [exact Hup|exact Hco].
    + exact (invalidation_keeps_coherent _ _ _ _ Hup Hco Hothers).
  - unfold query.GetUserHandler.Handle. pg.
    destruct (cache.GetUser (redis w) (query.ID q)) as [[cu|] ce];
      [cbn [store redis cache.runAll fold_left]; split; [exact Hup|exact Hco]|].
    destruct (GetByID_answers (store w) (query.ID q)) as [(u & Hget & Hid)|Hnone].
    2:{ rewrite Hnone. cbn [store redis cache.runAll fold_left].
        split; [exact Hup|exact Hco]. }
    rewrite Hget. cbn [store redis cache.runAll fold_left cache.run].
    unfold cache.SetUser. rewrite Hup. cbn [negb fst cache.reachable cache.entries].
    split; [reflexivity|].
    intros id doc. cbn [cache.entries]. intros Hdoc.
    destruct (decide (cache.key (ID u) = cache.key id)) as [E|E].
    + rewrite E, lookup_insert_eq in Hdoc. injection Hdoc as <-.
      apply key_inj in E. subst id. exists u. rewrite Hid. split; [exact Hget|reflexivity].
    + rewrite lookup_insert_ne in Hdoc by exact E. exact (Hco id doc Hdoc).
Qed.

(** X25.  With a cache that answers, and every detached cache operation
    run before the next request is served, the cache follows the table:
    if it holds nothing but documents of rows of the table at the start, it
    does so after any sequence of creates, updates, deletes, changes of
    password and reads.  So the endpoint of get-by-id then shows, for every
    identifier, the view of the row the table holds, or 404 when the table
    holds none, whether it answers from the cache or not. *)
Theorem cache_follows_the_table `{Bcrypt} `{persistence.Postgres}
        (db : persistence.DB) (c : cache.RedisCache) (rs : list Request) :
  cache.reachable c = true -> coherent db c ->
  let w := serveAll {| store := db; redis := c; handedOut := nil |} rs in
  cache.reachable (redis w) = true
  /\ coherent (store w) (redis w)
  /\ forall id,
       fst (handler.GetUser (store w) (redis w) id)
       = match persistence.GetByID (store w) id with
         | (Some u, _) => {| handler.code := 200;
                             handler.body := handler.H_data (ToPublicUser u) |}
         | (None, _) => {| handler.code := 404;
                           handler.body := handler.H_error "user not found" |}
         end.
Proof.
  intros Hup Hco w.
  assert (Hkept : cache.reachable (redis w) = true /\ coherent (store w) (redis w)).
  { subst w. unfold serveAll.
    set (w0 := {| store := db; redis := c; handedOut := nil |}).
    assert (Hstart : cache.reachable (redis w0) = true /\ coherent (store w0) (redis w0))
      by (split; assumption).
    clearbody w0. revert w0 Hstart.
    induction rs as [|r rs IH]; intros w0 Hstart; [exact Hstart|].
    cbn [fold_left]. apply IH. destruct Hstart as [H1 H2].
    exact (serve_coherent w0 r H1 H2). }
  destruct Hkept as [Hup' Hco']. split; [exact Hup'|]. split; [exact Hco'|].
  intros id. unfold handler.GetUser, query.GetUserHandler.Handle. cbn [query.ID]. pg.
  unfold cache.GetUser. rewrite Hup'. cbn [negb].
  destruct (cache.entries (redis w) !! cache.key id) as [doc|] eqn:Hdoc.
  - destruct (Hco' id doc Hdoc) as (u & Hu & ->).
    rewrite Unmarshal_Marshal, Hu. reflexivity.
  - destruct (GetByID_answers (store w) id) as [(u & -> & _)| ->]; reflexivity.
Qed.

Lemma cache_follows_the_table_witness :
  let rs := request_get {| query.ID := 2 |}
            :: request_update sample.ctx
                 (command.UpdateUserCommand.mk 2 "Robert" "bob@example.com" 42)
            :: request_get {| query.ID := 2 |} :: nil in
  let w := serveAll {| store := sample.db; redis := sample.redis; handedOut := nil |} rs in
  cache.reachable sample.redis = true
  /\ coherent sample.db sample.redis
  /\ snd (handler.GetUser (store w) (redis w) 2) = nil
  /\ handler.body (fst (handler.GetUser (store w) (redis w) 2))
     = handler.H_data
         {| Public.ID := 2; Public.Name := "Robert"; Public.Email := "bob@example.com";
            Public.Age := 42; Public.CreatedAt := 20; Public.UpdatedAt := 1000 |}.
Proof.
  intros rs w.
  assert (Hup : cache.reachable sample.redis = true) by reflexivity.
  assert (Hco : coherent sample.db sample.redis).
  { intros id doc Hdoc. cbn in Hdoc. rewrite lookup_empty in Hdoc. discriminate. }
  split; [exact Hup|]. split; [exact Hco|]. split; [reflexivity|].
  rewrite (proj2 (proj2 (cache_follows_the_table sample.db sample.redis rs Hup Hco)) 2).
  reflexivity.
Defined.

(* ===================================================================== *)
(** * Opening the pool                                                     *)
(* ===================================================================== *)

Lemma NewPostgresPool_rounds (attempt : Z -> option error) :
  persistence.NewPostgresPool attempt
  = let failed (e : error) :=
      Some (errors_New ("failed to connect to database after 5 attempts: " +:+ Error e)) in
    match attempt 0, attempt 1, attempt 2, attempt 3, attempt 4 with
    | None, _, _, _, _ => (true, None, 0)
    | Some _, None, _, _, _ => (true, None, 2)
    | Some _, Some _, None, _, _ => (true, None, 6)
    | Some _, Some _, Some _, None, _ => (true, None, 12)
    | Some _, Some _, Some _, Some _, None => (true, None, 20)
    | Some _, Some _, Some _, Some _, Some e => (false, failed e, 30)
    end.
Proof.
  unfold persistence.NewPostgresPool, persistence.maxRetries. simpl.
  change (0 + 1) with 1. change (1 + 1) with 2. change (2 + 1) with 3.
  change (3 + 1) with 4.
  destruct (attempt 0); [|reflexivity].
  destruct (attempt 1); [|reflexivity].
  destruct (attempt 2); [|reflexivity].
  destruct (attempt 3); [|reflexivity].
  destruct (attempt 4); reflexivity.
Qed.

(** X26.  [NewPostgresPool] makes at most five attempts.  When attempt
    [k] (counted from 0) is the first to succeed it returns the pool, having
    slept 2, 4, ... seconds after the failures before it, [k * (k + 1)]
    seconds in all.  When all five fail it returns no pool and an error that
    carries the text of the last failure, having slept 30 seconds, the last
    10 of them after the fifth failure.  What later attempts would have
    given plays no part. *)
Theorem pool_is_opened_within_five_attempts (attempt : Z -> option error) :
  let '(ok, err, slept) := persistence.NewPostgresPool attempt in
  (forall k, 0 <= k < 5 -> attempt k = None ->
             (forall j, 0 <= j < k -> attempt j <> None) ->
             ok = true /\ err = None /\ slept = k * (k + 1))
  /\ ((forall j, 0 <= j < 5 -> attempt j <> None) ->
      ok = false /\ slept = 30
      /\ exists e, attempt 4 = Some e
                   /\ err = Some (errors_New
                                    ("failed to connect to database after 5 attempts: "
                                     +:+ Error e)))
  /\ 0 <= slept <= 30
  /\ (forall attempt', (forall j, 0 <= j < 5 -> attempt' j = attempt j) ->
                        persistence.NewPostgresPool attempt'
                        = persistence.NewPostgresPool attempt).
Proof.
  assert (Hsame : forall attempt', (forall j, 0 <= j < 5 -> attempt' j = attempt j) ->
                    persistence.NewPostgresPool attempt'
                    = persistence.NewPostgresPool attempt).
  { intros attempt' Heq. rewrite !NewPostgresPool_rounds.
    rewrite !Heq by lia. reflexivity. }
  revert Hsame. rewrite NewPostgresPool_rounds. cbv zeta.
  destruct (attempt 0) as [e0|] eqn:E0.
  2:{ intros Hsame. split; [|split; [|split; [lia|exact Hsame]]].
      - intros k Hk Hnone Hfirst.
        destruct (Z.eq_dec k 0) as [->|Hk0]; [repeat split|].
        exfalso. apply (Hfirst 0); [lia|exact E0].
      - intros Hall. exfalso. apply (Hall 0); [lia|exact E0]. }
  destruct (attempt 1) as [e1|] eqn:E1.
  2:{ intros Hsame. split; [|split; [|split; [lia|exact Hsame]]].
      - intros k Hk Hnone Hfirst.
        destruct (Z.eq_dec k 1) as [->|Hk1]; [repeat split|].
        exfalso. destruct (Z.eq_dec k 0) as [->|Hk0]; [congruence|].
        apply (Hfirst 1); [lia|exact E1].
      - intros Hall. exfalso. apply (Hall 1); [lia|exact E1]. }
  destruct (attempt 2) as [e2|] eqn:E2.
  2:{ intros Hsame. split; [|split; [|split; [lia|exact Hsame]]].
      - intros k Hk Hnone Hfirst.
        destruct (Z.eq_dec k 2) as [->|Hk2]; [repeat split|].
        exfalso. destruct (Z.eq_dec k 0) as [->|Hk0]; [congruence|].
        destruct (Z.eq_dec k 1) as [->|Hk1]; [congruence|].
        apply (Hfirst 2); [lia|exact E2].
      - intros Hall. exfalso. apply (Hall 2); [lia|exact E2]. }
  destruct (attempt 3) as [e3|] eqn:E3.
  2:{ intros Hsame. split; [|split; [|split; [lia|exact Hsame]]].
      - intros k Hk Hnone Hfirst.
        destruct (Z.eq_dec k 3) as [->|Hk3]; [repeat split|].
        exfalso. destruct (Z.eq_dec k 0) as [->|Hk0]; [congruence|].
        destruct (Z.eq_dec k 1) as [->|Hk1]; [congruence|].
        destruct (Z.eq_dec k 2) as [->|Hk2]; [congruence|].
        apply (Hfirst 3); [lia|exact E3].
      - intros Hall. exfalso. apply (Hall 3); [lia|exact E3]. }
  destruct (attempt 4) as [e4|] eqn:E4.
  2:{ intros Hsame. split; [|split; [|split; [lia|exact Hsame]]].
      - intros k Hk Hnone Hfirst.
        destruct (Z.eq_dec k 4) as [->|Hk4]; [repeat split|].
        exfalso. destruct (Z.eq_dec k 0) as [->|Hk0]; [congruence|].
        destruct (Z.eq_dec k 1) as [->|Hk1]; [congruence|].
        destruct (Z.eq_dec k 2) as [->|Hk2]; [congruence|].
        destruct (Z.eq_dec k 3) as [->|Hk3]; [congruence|].
        lia.
      - intros Hall. exfalso. apply (Hall 4); [lia|exact E4]. }
  intros Hsame. split; [|split; [|split; [lia|exact Hsame]]].
  - intros k Hk Hnone Hfirst. exfalso.
    destruct (Z.eq_dec k 0) as [->|Hk0]; [congruence|].
    destruct (Z.eq_dec k 1) as [->|Hk1]; [congruence|].
    destruct (Z.eq_dec k 2) as [->|Hk2]; [congruence|].
    destruct (Z.eq_dec k 3) as [->|Hk3]; [congruence|].
    destruct (Z.eq_dec k 4) as [->|Hk4]; [congruence|]. lia.
  - intros _. split; [reflexivity|]. split; [reflexivity|].
    exists e4. split; reflexivity.
Qed.

Lemma pool_is_opened_within_five_attempts_witness :
  let attempt := fun i : Z => if i <? 2 then Some ErrSyntax else None in
  attempt 2 = None
  /\ persistence.NewPostgresPool attempt = (true, None, 6).
Proof.
  intros attempt.
  assert (H2 : attempt 2 = None) by reflexivity.
  split; [exact H2|].
  pose proof (pool_is_opened_within_five_attempts attempt) as T.
  destruct (persistence.NewPostgresPool attempt) as [[ok err] slept].
  destruct T as (Hfirst & _).
  destruct (Hfirst 2 ltac:(lia) H2) as (-> & -> & ->).
  - intros j Hj. unfold attempt.
    destruct (j <? 2) eqn:E; [discriminate|]. apply Z.ltb_ge in E. lia.
  - reflexivity.
Defined.
